(** * Position-size simulation: a shallow embedding and its properties

    The development follows [position_size_simulation_simple.py].  Python
    floats are IEEE-754 binary64 values, modelled with the axiom-free
    [SpecFloat] operations at precision 53 and maximal exponent 1024, so that
    every definition computes and rounding is the one the interpreter
    performs.  Python integers are [Z].  The process-wide random generator and
    [math.exp] are library code: they are an interface ([PyRuntime]) the
    simulation is parametric in, and the generator state is threaded
    explicitly through every call that draws from it.  The [statistics]
    module the analyzer calls is an interface of its own ([PyStatistics]),
    whose calls return a float or raise. *)

From Stdlib Require Import ZArith List Bool String Lia.
From Stdlib Require Import SpecFloat.
Import ListNotations.
Open Scope Z_scope.

(** ** Binary64 arithmetic *)

Definition float : Type := spec_float.

Definition prec : Z := 53.
Definition emax : Z := 1024.

Definition fadd : float -> float -> float := SFadd prec emax.
Definition fsub : float -> float -> float := SFsub prec emax.
Definition fmul : float -> float -> float := SFmul prec emax.
Definition fdiv : float -> float -> float := SFdiv prec emax.
Definition fopp : float -> float := SFopp.
Definition fabs : float -> float := SFabs.
Definition fltb : float -> float -> bool := SFltb.
Definition fleb : float -> float -> bool := SFleb.
Definition feqb : float -> float -> bool := SFeqb.

Definition is_nan (x : float) : bool :=
  match x with S754_nan => true | _ => false end.

(** A Python int as the float operand of a division: the integer itself is
    the mantissa, with exponent 0.  [SFdiv] rounds the exact quotient of the
    two integers once, which is what [int / int] does. *)
Definition int_operand (z : Z) : float :=
  match z with
  | Z0 => S754_zero false
  | Zpos p => S754_finite false p 0
  | Zneg p => S754_finite true p 0
  end.

(** [a / b] on two Python ints (true division).  The only divisor in the
    program is [max(trades_today, 1)], which is never 0. *)
Definition int_truediv (a b : Z) : float := fdiv (int_operand a) (int_operand b).

(** [float(z)] for an integer literal. *)
Definition float_of_Z (z : Z) : float := binary_normalize prec emax z 0 false.

(** The decimal literal [n / 10^k], correctly rounded. *)
Definition decimal (n : Z) (k : nat) : float := int_truediv n (10 ^ Z.of_nat k).

Definition f0 : float := S754_zero false.
Definition f1 : float := float_of_Z 1.

(** [max(a, b)] and [min(a, b)] of the interpreter: the first argument is kept
    unless the second one is strictly greater (resp. smaller). *)
Definition py_max (a b : float) : float := if fltb a b then b else a.
Definition py_min (a b : float) : float := if fltb b a then b else a.

(** [max(xs)] on a list; [None] stands for the ValueError on an empty list. *)
Definition py_max_list (xs : list float) : option float :=
  match xs with
  | [] => None
  | x :: tl => Some (fold_left py_max tl x)
  end.

(** ** Data model *)

Record StrategyConfig : Type := mkStrategyConfig {
  name : string;
  position_size_pct : float;
  position_size_usd : float;
  max_concurrent_positions : Z;
  description : string
}.

Record DailyResult : Type := mkDailyResult {
  day : Z;
  strategy : string;
  trades_taken : Z;
  wins : Z;
  losses : Z;
  daily_pnl : float;
  cumulative_pnl : float;
  hit_rate : float;
  max_concurrent_hit : bool;
  daily_loss_hit : bool;
  bankroll : float
}.

(** The wallet object; its fields carry the prefix [w_] because two of them
    share their names with fields of [DailyResult]. *)
Record WalletSimulator : Type := mkWallet {
  w_initial_bankroll : float;
  w_bankroll : float;
  w_daily_pnl : float;
  w_total_pnl : float;
  w_daily_losses : float
}.

(** [WalletSimulator(bankroll)] *)
Definition new_wallet (b : float) : WalletSimulator :=
  mkWallet b b f0 f0 f0.

Definition reset_daily (w : WalletSimulator) : WalletSimulator :=
  mkWallet (w_initial_bankroll w) (w_bankroll w) f0 (w_total_pnl w) f0.

(** ** Results of calls that may raise or loop *)

(** The exceptions the program can meet; [OtherError] carries the class name
    of any further exception a library call raises. *)
Inductive py_exception : Type :=
| OverflowError
| IndexError
| ValueError
| StatisticsError
| OtherError (class_name : string).

Inductive outcome (A : Type) : Type :=
| Returned (a : A)
| Raised (e : py_exception)
| OutOfFuel.
Arguments Returned {A} a.
Arguments Raised {A} e.
Arguments OutOfFuel {A}.

Definition bind {A B : Type} (m : outcome A) (k : A -> outcome B) : outcome B :=
  match m with
  | Returned a => k a
  | Raised e => Raised e
  | OutOfFuel => OutOfFuel
  end.

Notation "' pat <- m ;; k" := (bind m (fun x => match x with pat => k end))
  (at level 61, pat pattern, m at next level, right associativity).

(** ** The library interface: random generator and [math.exp] *)

Class PyRuntime (G : Type) : Type := {
  (** [random.random()] *)
  rand_random : G -> float * G;
  (** [random.gauss(mu, sigma)] *)
  rand_gauss : float -> float -> G -> float * G;
  (** [random.seed(a)]: the state depends on [a] alone *)
  rand_seed : Z -> G;
  (** [math.exp(x)]; [None] when it raises OverflowError *)
  math_exp : float -> option float
}.

(** ** The library interface: the [statistics] module

    [statistics.mean] and [statistics.stdev] on a list of floats return a
    float or raise; [365**0.5] is the float the interpreter computes for that
    constant expression with the power function of the C library. *)

Class PyStatistics : Type := {
  statistics_mean : list float -> py_exception + float;
  statistics_stdev : list float -> py_exception + float;
  pow_365_half : float
}.

(** ** Constants of the simulation *)

Definition portfolio_daily_cap : float := float_of_Z 30.
Definition per_wallet_daily_cap : float := float_of_Z 20.
Definition max_total_exposure : float := float_of_Z 150.
Definition base_position_size : float := float_of_Z 25.
Definition default_bankroll : float := float_of_Z 1000.
Definition default_win_rate : float := decimal 55 2.
Definition default_avg_win : float := float_of_Z 45.
Definition default_avg_loss : float := float_of_Z 25.

(** ** The loop state of one trading day *)

Record DayState : Type := mkDay {
  st_wallet : WalletSimulator;
  st_trades_today : Z;
  st_wins : Z;
  st_losses : Z;
  st_max_concurrent_hit : bool;
  st_daily_loss_hit : bool;
  st_current_exposure : float
}.

Definition init_day (w : WalletSimulator) : DayState :=
  mkDay w 0 0 0 false false f0.

(** The three cap checks at the head of the loop body, in program order. *)
Inductive guard : Type := Proceed | StopDailyLoss | StopPerWallet | StopExposure.

Definition check_caps (s : StrategyConfig) (st : DayState) : guard :=
  let dl := w_daily_losses (st_wallet st) in
  if fleb dl (fopp portfolio_daily_cap) then StopDailyLoss
  else if fleb per_wallet_daily_cap (fabs dl) then StopPerWallet
  else if fltb max_total_exposure (fadd (st_current_exposure st) (position_size_usd s))
       then StopExposure
  else Proceed.

(** The bookkeeping after a trade with outcome [pnl]. *)
Definition scaled (s : StrategyConfig) (pnl : float) : float :=
  fmul pnl (fdiv (position_size_usd s) base_position_size).

Definition book_trade (s : StrategyConfig) (st : DayState) (pnl : float) : DayState :=
  let w := st_wallet st in
  let scaled_pnl := scaled s pnl in
  let w1 := mkWallet (w_initial_bankroll w) (w_bankroll w)
                     (fadd (w_daily_pnl w) scaled_pnl)
                     (fadd (w_total_pnl w) scaled_pnl)
                     (w_daily_losses w) in
  if fltb scaled_pnl f0 then
    mkDay (mkWallet (w_initial_bankroll w1) (w_bankroll w1) (w_daily_pnl w1)
                    (w_total_pnl w1) (fadd (w_daily_losses w1) scaled_pnl))
          (st_trades_today st + 1) (st_wins st) (st_losses st + 1)
          (st_max_concurrent_hit st) (st_daily_loss_hit st)
          (fadd (st_current_exposure st) (position_size_usd s))
  else
    mkDay w1
          (st_trades_today st + 1) (st_wins st + 1) (st_losses st)
          (st_max_concurrent_hit st) (st_daily_loss_hit st)
          (fadd (st_current_exposure st) (position_size_usd s)).

Definition flag_daily_loss (st : DayState) : DayState :=
  mkDay (st_wallet st) (st_trades_today st) (st_wins st) (st_losses st)
        (st_max_concurrent_hit st) true (st_current_exposure st).

Definition flag_max_concurrent (st : DayState) : DayState :=
  mkDay (st_wallet st) (st_trades_today st) (st_wins st) (st_losses st)
        true (st_daily_loss_hit st) (st_current_exposure st).

Definition daily_result (d : Z) (s : StrategyConfig) (st : DayState) : DailyResult :=
  let w := st_wallet st in
  mkDailyResult d (name s) (st_trades_today st) (st_wins st) (st_losses st)
                (w_daily_pnl w) (w_total_pnl w)
                (int_truediv (st_wins st) (Z.max (st_trades_today st) 1))
                (st_max_concurrent_hit st) (st_daily_loss_hit st)
                (fadd (w_initial_bankroll w) (w_total_pnl w)).

(** The three strategies of [run_simulation]. *)
Definition conservative : StrategyConfig :=
  mkStrategyConfig "Conservative (2.5%)" (decimal 25 1) (float_of_Z 25) 6
                   "Very conservative, slow data collection".
Definition moderate : StrategyConfig :=
  mkStrategyConfig "Moderate (5%)" (float_of_Z 5) (float_of_Z 50) 10
                   "Balanced approach, reasonable risk".
Definition aggressive : StrategyConfig :=
  mkStrategyConfig "Aggressive (10%)" (float_of_Z 10) (float_of_Z 100) 5
                   "Fast edge detection, higher volatility".
Definition builtin_strategies : list StrategyConfig :=
  [conservative; moderate; aggressive].

Section Simulation.

Context {G : Type} `{RT : PyRuntime G}.

(** [WalletSimulator.simulate_wallet_edge]; the method does not read or write
    the wallet.  The clamps [max(pnl, 0)] and [min(pnl, 0)] return the int 0
    when they fire, which every later use converts to [0.0]. *)
Definition simulate_wallet_edge (win_rate avg_win avg_loss : float) (g : G)
  : (float * bool) * G :=
  let (u, g1) := rand_random g in
  let (j, g2) := rand_gauss f0 (decimal 5 2) g1 in
  if fltb u (fadd win_rate j) then
    let (n, g3) := rand_gauss f0 (float_of_Z 10) g2 in
    let pnl := fadd avg_win n in
    ((py_max pnl f0, true), g3)
  else
    let (n, g3) := rand_gauss f0 (float_of_Z 5) g2 in
    let pnl := fadd (fopp avg_loss) n in
    ((py_min pnl f0, false), g3).

(** The while loop of [poisson_random]: [fuel] bounds its iterations. *)
Fixpoint poisson_loop (fuel : nat) (L : float) (k : Z) (p : float) (g : G)
  : outcome (Z * G) :=
  match fuel with
  | O => OutOfFuel
  | S fuel' =>
      if fltb L p then
        let (r, g') := rand_random g in
        poisson_loop fuel' L (k + 1) (fmul p r) g'
      else Returned (k - 1, g)
  end.

Definition poisson_random (fuel : nat) (lambda_ : float) (g : G) : outcome (Z * G) :=
  match math_exp (fopp lambda_) with
  | None => Raised OverflowError
  | Some L => poisson_loop fuel L 0 f1 g
  end.

(** The for loop of [simulate_day] over [range(num_trades)]. *)
Fixpoint day_loop (n : nat) (s : StrategyConfig) (st : DayState) (g : G)
  : DayState * G :=
  match n with
  | O => (st, g)
  | S n' =>
      match check_caps s st with
      | StopDailyLoss => (flag_daily_loss st, g)
      | StopPerWallet => (st, g)
      | StopExposure => (flag_max_concurrent st, g)
      | Proceed =>
          let '((pnl, _), g') :=
            simulate_wallet_edge default_win_rate default_avg_win default_avg_loss g in
          day_loop n' s (book_trade s st pnl) g'
      end
  end.

(** [simulate_day]: the wallet is mutated in place, so the updated wallet is
    returned next to the record. *)
Definition simulate_day (fuel : nat) (wallet : WalletSimulator) (s : StrategyConfig)
           (d : Z) (avg_trades_per_day : float) (g : G)
  : outcome (DailyResult * WalletSimulator * G) :=
  let w0 := reset_daily wallet in
  '(n, g1) <- poisson_random fuel avg_trades_per_day g ;;
  let num_trades := Z.max 1 n in
  let (st, g2) := day_loop (Z.to_nat num_trades) s (init_day w0) g1 in
  Returned (daily_result d s st, st_wallet st, g2).

(** The inner loop of [run_simulation]: [n] further days of one strategy, the
    next one having index [d] of [range(days)]. *)
Fixpoint run_days (fuel n : nat) (d : Z) (wallet : WalletSimulator)
         (s : StrategyConfig) (g : G) : outcome (list DailyResult * G) :=
  match n with
  | O => Returned ([], g)
  | S n' =>
      '(r, wallet', g1) <- simulate_day fuel wallet s (d + 1) (float_of_Z 6) g ;;
      '(rs, g2) <- run_days fuel n' (d + 1) wallet' s g1 ;;
      Returned (r :: rs, g2)
  end.

(** The outer loop: a fresh wallet for every strategy, one generator. *)
Fixpoint run_strategies (fuel : nat) (days : Z) (ss : list StrategyConfig) (g : G)
  : outcome (list DailyResult * G) :=
  match ss with
  | [] => Returned ([], g)
  | s :: ss' =>
      '(rs, g1) <- run_days fuel (Z.to_nat days) 0 (new_wallet default_bankroll) s g ;;
      '(rest, g2) <- run_strategies fuel days ss' g1 ;;
      Returned (rs ++ rest, g2)
  end.

(** [run_simulation(days)]; [ambient] is the state of the process-wide
    generator when the function is entered, which [random.seed(42)]
    overwrites. *)
Definition run_simulation (fuel : nat) (days : Z) (ambient : G)
  : outcome (list DailyResult) :=
  '(rs, _) <- run_strategies fuel days builtin_strategies (rand_seed 42) ;;
  Returned rs.

(** *** Auxiliary views of the day loop *)

(** [run_trades k] executes [k] trades from a loop head, provided every cap
    check on the way lets the trade proceed; it names the state in which the
    next trade is attempted. *)
Fixpoint run_trades (k : nat) (s : StrategyConfig) (st : DayState) (g : G)
  : option (DayState * G) :=
  match k with
  | O => Some (st, g)
  | S k' =>
      match check_caps s st with
      | Proceed =>
          let '((pnl, _), g') :=
            simulate_wallet_edge default_win_rate default_avg_win default_avg_loss g in
          run_trades k' s (book_trade s st pnl) g'
      | _ => None
      end
  end.

(** The scaled results of the trades [day_loop] executes, in order. *)
Fixpoint day_pnls (n : nat) (s : StrategyConfig) (st : DayState) (g : G)
  : list float :=
  match n with
  | O => []
  | S n' =>
      match check_caps s st with
      | Proceed =>
          let '((pnl, _), g') :=
            simulate_wallet_edge default_win_rate default_avg_win default_avg_loss g in
          scaled s pnl :: day_pnls n' s (book_trade s st pnl) g'
      | _ => []
      end
  end.

(** The scaled results of the trades one call of [simulate_day] executes, in
    execution order: the trades of its loop, which starts from the reset
    wallet and the generator the trade-count draw leaves. *)
Definition simulate_day_pnls (fuel : nat) (wallet : WalletSimulator)
           (s : StrategyConfig) (avg_trades_per_day : float) (g : G) : list float :=
  match poisson_random fuel avg_trades_per_day g with
  | Returned (n, g1) =>
      day_pnls (Z.to_nat (Z.max 1 n)) s (init_day (reset_daily wallet)) g1
  | _ => []
  end.

(** The same for a strategy run: one list per day of [run_days], each day
    called with the wallet and the generator the days before it left. *)
Fixpoint run_days_pnls (fuel n : nat) (d : Z) (wallet : WalletSimulator)
         (s : StrategyConfig) (g : G) : list (list float) :=
  match n with
  | O => []
  | S n' =>
      match simulate_day fuel wallet s (d + 1) (float_of_Z 6) g with
      | Returned (_, wallet', g1) =>
          simulate_day_pnls fuel wallet s (float_of_Z 6) g
          :: run_days_pnls fuel n' (d + 1) wallet' s g1
      | _ => []
      end
  end.

(** The same for [run_simulation]: one list per record it returns, in the
    order of the records, every strategy starting from a fresh wallet. *)
Fixpoint run_strategies_pnls (fuel : nat) (days : Z) (ss : list StrategyConfig)
         (g : G) : list (list float) :=
  match ss with
  | [] => []
  | s :: ss' =>
      match run_days fuel (Z.to_nat days) 0 (new_wallet default_bankroll) s g with
      | Returned (_, g1) =>
          run_days_pnls fuel (Z.to_nat days) 0 (new_wallet default_bankroll) s g
          ++ run_strategies_pnls fuel days ss' g1
      | _ => []
      end
  end.

Definition run_simulation_pnls (fuel : nat) (days : Z) : list (list float) :=
  run_strategies_pnls fuel days builtin_strategies (rand_seed 42).

(** The loop state with which [simulate_day] ends when the trade-count draw
    is [n] and leaves the generator in [g1]. *)
Definition final_state (w : WalletSimulator) (s : StrategyConfig) (n : Z) (g1 : G)
  : DayState * G :=
  day_loop (Z.to_nat (Z.max 1 n)) s (init_day (reset_daily w)) g1.

End Simulation.

(** ** The analyzer *)

(** The dict [strategies] of [analyze_results]: keys in first-seen order. *)
Fixpoint group_append (groups : list (string * list DailyResult)) (r : DailyResult)
  : list (string * list DailyResult) :=
  match groups with
  | [] => [(strategy r, [r])]
  | (k, rs) :: tl =>
      if String.eqb k (strategy r) then (k, rs ++ [r]) :: tl
      else (k, rs) :: group_append tl r
  end.

Definition group_by_strategy (results : list DailyResult)
  : list (string * list DailyResult) :=
  fold_left group_append results [].

(** The "Calculate max drawdown" lines, on the cumulative values of a group. *)
Definition max_drawdown_of (cumulative_pnls : list float) : option float :=
  match py_max_list cumulative_pnls with
  | None => None
  | Some max_pnl => py_max_list (map (fun pnl => fsub max_pnl pnl) cumulative_pnls)
  end.

Definition count_days (p : DailyResult -> bool) (rs : list DailyResult) : Z :=
  Z.of_nat (List.length (filter p rs)).

(** The entries of [summary] for one strategy, in the order of the dict.
    [std_daily_pnl] and [sharpe] are the int 0 on their [else] branches; it
    is held as [0.0] here, which compares and prints the same. *)
Record Summary : Type := mkSummary {
  final_bankroll : float;
  total_pnl : float;
  total_return_pct : float;
  avg_daily_pnl : float;
  std_daily_pnl : float;
  avg_hit_rate : float;
  max_drawdown : float;
  days_loss_cap_hit : Z;
  days_concurrent_cap_hit : Z;
  sharpe : float
}.

Section Analyzer.

Context `{ST : PyStatistics}.

(** The three calls into [statistics] for one group, in program order: the
    mean and (for more than one record) the standard deviation of the daily
    profits, then the mean of the hit rates.  The first call that raises ends
    the analysis. *)
Definition group_statistics (strategy_results : list DailyResult)
  : py_exception + (float * float * float) :=
  let daily_pnls := map daily_pnl strategy_results in
  match statistics_mean daily_pnls with
  | inl e => inl e
  | inr avg =>
      match (if 1 <? Z.of_nat (List.length daily_pnls)
             then statistics_stdev daily_pnls else inr f0) with
      | inl e => inl e
      | inr std =>
          match statistics_mean (map hit_rate strategy_results) with
          | inl e => inl e
          | inr avg_hit => inr (avg, std, avg_hit)
          end
      end
  end.

(** The annualized Sharpe ratio: [avg / std * 365**0.5] when [std > 0]. *)
Definition sharpe_of (avg std : float) : float :=
  if fltb f0 std then fmul (fdiv avg std) pow_365_half else f0.

(** The body of the loop over the groups, up to the entry stored in
    [summary] and printed.  [strategy_results[-1]] raises IndexError on an
    empty group and [max()] raises ValueError on an empty list. *)
Definition strategy_summary (strategy_results : list DailyResult)
  : py_exception + Summary :=
  match rev strategy_results with
  | [] => inl IndexError
  | final_result :: _ =>
      let fb := bankroll final_result in
      let tp := fsub fb (float_of_Z 1000) in
      let trp := fmul (fdiv tp (float_of_Z 1000)) (float_of_Z 100) in
      match group_statistics strategy_results with
      | inl e => inl e
      | inr (avg, std, avg_hit) =>
          match max_drawdown_of (map cumulative_pnl strategy_results) with
          | None => inl ValueError
          | Some dd =>
              inr (mkSummary fb tp trp avg std avg_hit dd
                             (count_days daily_loss_hit strategy_results)
                             (count_days max_concurrent_hit strategy_results)
                             (sharpe_of avg std))
          end
      end
  end.

(** The loop over [strategies.items()]: the blocks printed, in order, and the
    exception that ended the loop, if any.  A group whose summary raises
    prints nothing, and no later group is looked at. *)
Fixpoint summarize_groups (groups : list (string * list DailyResult))
  : list (string * Summary) * option py_exception :=
  match groups with
  | [] => ([], None)
  | (strategy_name, strategy_results) :: tl =>
      match strategy_summary strategy_results with
      | inl e => ([], Some e)
      | inr sm =>
          let (printed, e) := summarize_groups tl in
          ((strategy_name, sm) :: printed, e)
      end
  end.

(** What [analyze_results] prints: one summary block per strategy, up to the
    first group on which it raises. *)
Definition analyze_summary (results : list DailyResult)
  : list (string * Summary) :=
  fst (summarize_groups (group_by_strategy results)).

(** [analyze_results] returns its argument, unless the loop over the groups
    raised. *)
Definition analyze_results (results : list DailyResult)
  : outcome (list DailyResult) :=
  match snd (summarize_groups (group_by_strategy results)) with
  | Some e => Raised e
  | None => Returned results
  end.

End Analyzer.

(** ** Notions the specification is worded with *)

(** The drawdown scan of the specification: the running maximum seen so far,
    and at each day the running maximum minus the current value. *)
Fixpoint running_drawdowns (peak : float) (xs : list float) : list float :=
  match xs with
  | [] => []
  | x :: tl =>
      let peak' := py_max peak x in
      fsub peak' x :: running_drawdowns peak' tl
  end.

Definition running_max_drawdown (xs : list float) : option float :=
  match xs with
  | [] => None
  | x :: _ => py_max_list (running_drawdowns x xs)
  end.

(** A sequence of floats that never decreases from one day to the next. *)
Fixpoint nondecreasing (xs : list float) : bool :=
  match xs with
  | x :: ((y :: _) as tl) => fleb x y && nondecreasing tl
  | _ => true
  end.

(** floor(a / b) of the exact quotient of two positive finite floats. *)
Definition exact_floor_div (a b : float) : option Z :=
  match a, b with
  | S754_finite false ma ea, S754_finite false mb eb =>
      let e := Z.min ea eb in
      Some ((Z.pos ma * 2 ^ (ea - e)) / (Z.pos mb * 2 ^ (eb - e)))
  | _, _ => None
  end.

(** [k] position sizes added one after the other to an exposure of 0.0, as
    the loop accumulates them. *)
Fixpoint exposure_after (k : nat) (size : float) : float :=
  match k with
  | O => f0
  | S k' => fadd (exposure_after k' size) size
  end.

Definition is_finite (x : float) : bool :=
  match x with
  | S754_zero _ | S754_finite _ _ _ => true
  | _ => false
  end.

(** 1.0 written with its mantissa and exponent. *)
Definition one_bits : float := S754_finite false 4503599627370496 (-52).

(** ** A generator that replays two given sequences

    The uniform draws and the normal draws are read from two lists; an
    exhausted list keeps yielding [0.0], and a NaN entry of the second list is
    replayed as [0.0], since [random.gauss] does not return NaN.  [math.exp] is
    tabulated at the two arguments the program uses. *)

Definition tape : Type := (list float * list float)%type.

Definition tape_random (t : tape) : float * tape :=
  match fst t with
  | [] => (f0, t)
  | u :: us => (u, (us, snd t))
  end.

Definition tape_gauss (mu sigma : float) (t : tape) : float * tape :=
  match snd t with
  | [] => (f0, t)
  | x :: xs => ((if is_nan x then f0 else x), (fst t, xs))
  end.

(** exp(-6.0) and exp(-8.0) as binary64 values. *)
Definition exp_m6 : float := S754_finite false 5715613378139350 (-61).
Definition exp_m8 : float := S754_finite false 6188193243211693 (-64).

Definition tape_exp (x : float) : option float :=
  if feqb x (float_of_Z (-6)) then Some exp_m6
  else if feqb x (float_of_Z (-8)) then Some exp_m8
  else None.

Definition tape_runtime (seeded : tape) : PyRuntime tape :=
  {| rand_random := tape_random;
     rand_gauss := tape_gauss;
     rand_seed := fun _ => seeded;
     math_exp := tape_exp |}.

(** *** Concrete days and runs *)

Definition u09 : float := decimal 9 1.
Definition u05 : float := decimal 5 1.

(** Uniform draws that make the trade count of the day 7. *)
Definition seven_trades : list float := repeat u09 7 ++ [f0].

(** A day of the Moderate strategy in which every trade wins. *)
Definition winning_day : outcome (DailyResult * WalletSimulator * tape) :=
  simulate_day (RT := tape_runtime ([], [])) 10 (new_wallet default_bankroll)
               moderate 1 (float_of_Z 6) (seven_trades, []).

(** A day of the Conservative strategy whose first trade loses 25.0, and the
    loop state after that trade. *)
Definition losing_draws : tape := (seven_trades ++ [u09], []).

Definition losing_day : outcome (DailyResult * WalletSimulator * tape) :=
  simulate_day (RT := tape_runtime ([], [])) 10 (new_wallet default_bankroll)
               conservative 1 (float_of_Z 6) losing_draws.

Definition after_loss : DayState :=
  mkDay (mkWallet default_bankroll default_bankroll
                  (float_of_Z (-25)) (float_of_Z (-25)) (float_of_Z (-25)))
        1 0 1 false false (float_of_Z 25).

(** A position size one unit in the last place above 150/7. *)
Definition sevenths : StrategyConfig :=
  mkStrategyConfig "Sevenths" f0 (S754_finite false 6031606643799772 (-48)) 0 "".

Definition sevenths_day : outcome (DailyResult * WalletSimulator * tape) :=
  simulate_day (RT := tape_runtime ([], [])) 10 (new_wallet default_bankroll)
               sevenths 1 (float_of_Z 6) (seven_trades, []).

(** A seeded generator under which the Conservative strategy wins 45.1 on
    day 1, then 45.2 and 45.3 on day 2. *)
Definition rounding_seed : tape :=
  ([f0; f0; u05; u05],
   [f0; decimal 1 1; f0; decimal 2 1; f0; decimal 3 1]).

Definition rounding_run : outcome (list DailyResult) :=
  run_simulation (RT := tape_runtime rounding_seed) 5 2 ([], []).

(** The run of two days in which every trade wins 45.0 before scaling. *)
Definition rising_run : outcome (list DailyResult) :=
  run_simulation (RT := tape_runtime ([], [])) 5 2 ([], []).

(** What the run above returns for the Moderate strategy. *)
Definition rising_results : list DailyResult :=
  [ mkDailyResult 1 "Moderate (5%)" 1 1 0 (float_of_Z 90) (float_of_Z 90)
                  f1 false false (float_of_Z 1090);
    mkDailyResult 2 "Moderate (5%)" 1 1 0 (float_of_Z 90) (float_of_Z 180)
                  f1 false false (float_of_Z 1180) ].

(** ** The draws of the trade-count loop and the scenario prober *)

Section Probes.

Context {G : Type} `{RT : PyRuntime G}.

(** The generator after [k] calls of [random.random()]. *)
Fixpoint draws_after (k : nat) (g : G) : G :=
  match k with
  | O => g
  | S k' => draws_after k' (snd (rand_random g))
  end.

(** [p] multiplied by the next [k] uniform draws, one after the other, as
    [p *= random.random()] does. *)
Fixpoint product_after (p : float) (k : nat) (g : G) : float :=
  match k with
  | O => p
  | S k' => let (r, g') := rand_random g in product_after (fmul p r) k' g'
  end.

(** The loop [for trade in range(10)] of [simulate_specific_scenarios], with
    [n] iterations left. *)
Fixpoint scenario_loop (n : nat) (win_rate loss_mult loss_size position_size : float)
         (daily_pnl : float) (trades_made : Z) (g : G) : (float * Z) * G :=
  match n with
  | O => ((daily_pnl, trades_made), g)
  | S n' =>
      if fleb daily_pnl (fopp (float_of_Z 30)) then ((daily_pnl, trades_made), g)
      else
        let (u, g') := rand_random g in
        let pnl := if fltb u win_rate then loss_mult else fopp loss_size in
        let scaled_pnl := fmul pnl (fdiv position_size (float_of_Z 25)) in
        scenario_loop n' win_rate loss_mult loss_size position_size
                      (fadd daily_pnl scaled_pnl) (trades_made + 1) g'
  end.

(** One scenario for one position size: the generator is reseeded with 100,
    and the line printed is the scenario name, the trades made and the final
    daily profit.  The wallet and the strategy object the source builds here
    are not used by the loop. *)
Definition probe_scenario (position_size : float)
           (sc : string * float * float * float) : string * Z * float :=
  let '(scenario_name, win_rate, loss_mult, loss_size) := sc in
  let '((daily_pnl, trades_made), _) :=
    scenario_loop 10 win_rate loss_mult loss_size position_size f0 0 (rand_seed 100) in
  (scenario_name, trades_made, daily_pnl).

End Probes.

Definition scenarios : list (string * float * float * float) :=
  [ ("Terrible Day"%string, decimal 20 2, float_of_Z 50, float_of_Z 100);
    ("Bad Day"%string, decimal 35 2, float_of_Z 35, float_of_Z 75);
    ("Normal Bad Day"%string, decimal 45 2, float_of_Z 25, float_of_Z 50) ].

Definition scenario_position_size (strategy_name : string) : float :=
  if String.eqb strategy_name "Conservative (2.5%)" then float_of_Z 25
  else if String.eqb strategy_name "Moderate (5%)" then float_of_Z 50
  else float_of_Z 100.

(** [simulate_specific_scenarios]: what it prints, a block of lines for each
    strategy name. *)
Definition simulate_specific_scenarios {G : Type} `{RT : PyRuntime G}
  : list (string * list (string * Z * float)) :=
  map (fun strategy_name =>
         (strategy_name,
          map (probe_scenario (scenario_position_size strategy_name)) scenarios))
      [ "Conservative (2.5%)"%string; "Moderate (5%)"%string; "Aggressive (10%)"%string ].

(** [strategies.get(k)] on the dict built by [analyze_results]. *)
Fixpoint group_of (k : string) (groups : list (string * list DailyResult))
  : option (list DailyResult) :=
  match groups with
  | [] => None
  | (k', rs) :: tl => if String.eqb k' k then Some rs else group_of k tl
  end.

(** The records of [results] whose strategy name is [k], in input order. *)
Definition records_of (k : string) (results : list DailyResult) : list DailyResult :=
  filter (fun r => String.eqb k (strategy r)) results.

(** A float that is zero or below zero: what [daily_losses] can hold. *)
Definition nonpos (x : float) : bool :=
  match x with
  | S754_zero _ => true
  | S754_infinity s => s
  | S754_finite s _ _ => s
  | S754_nan => false
  end.

(** *** Further concrete days *)

(** A day of the Moderate strategy whose first trade loses 50.0. *)
Definition capped_day : outcome (DailyResult * WalletSimulator * tape) :=
  simulate_day (RT := tape_runtime ([], [])) 10 (new_wallet default_bankroll)
               moderate 1 (float_of_Z 6) losing_draws.

(** A strategy whose single position is above the exposure cap. *)
Definition oversize : StrategyConfig :=
  mkStrategyConfig "Oversize" f0 (float_of_Z 200) 0 "".

Definition oversize_day : outcome (DailyResult * WalletSimulator * tape) :=
  simulate_day (RT := tape_runtime ([], [])) 10 (new_wallet default_bankroll)
               oversize 1 (float_of_Z 6) (seven_trades, []).

(** A zero or a finite binary64 value in its canonical representation: what
    a Python float holds unless it is an infinity or NaN. *)
Definition ordinary (x : float) : bool :=
  match x with
  | S754_zero _ => true
  | S754_finite _ m e => bounded prec emax m e
  | _ => false
  end.

(** The exact value of an ordinary float as an integer multiple of 2^-1074. *)
Definition scaled_value (x : float) : Z :=
  match x with
  | S754_finite s m e => cond_Zopp s (Z.pos m * 2 ^ (e + 1074))
  | _ => 0
  end.

(** A seeded generator whose first uniform draw is 0.9. *)
Definition probe_seed : tape := ([u09], []).

(** *** A statistics module for the concrete runs

    It answers on the lists whose statistics need no rounding: the mean of a
    list of copies of one finite float is that float (0.0 for either zero),
    and the standard deviation of two or more copies is 0.0.  On every other
    list it declines with StatisticsError. *)

Definition same_float (x y : float) : bool :=
  match x, y with
  | S754_zero s, S754_zero t => Bool.eqb s t
  | S754_finite s m e, S754_finite t n f => Bool.eqb s t && Pos.eqb m n && Z.eqb e f
  | _, _ => false
  end.

Definition flat_value (xs : list float) : option float :=
  match xs with
  | [] => None
  | x :: tl =>
      if ordinary x && forallb (same_float x) tl
      then Some (match x with S754_zero _ => f0 | _ => x end)
      else None
  end.

Definition flat_mean (xs : list float) : py_exception + float :=
  match flat_value xs with
  | Some x => inr x
  | None => inl StatisticsError
  end.

Definition flat_stdev (xs : list float) : py_exception + float :=
  match xs, flat_value xs with
  | _ :: _ :: _, Some _ => inr f0
  | _, _ => inl StatisticsError
  end.

Definition flat_statistics : PyStatistics :=
  {| statistics_mean := flat_mean;
     statistics_stdev := flat_stdev;
     pow_365_half := SFsqrt prec emax (float_of_Z 365) |}.

(** * Properties *)

(** ** Binary64 rounding facts

    The quotient of two integers [0 <= w <= t] rounds into [[0, 1]], and a sum
    of a finite float and a float that is not NaN is not NaN.  Both follow
    from how [shr] shifts a mantissa and how rounding adds at most one unit. *)

(** [Zdigits2 m] is the number of binary digits of [m]. *)
Lemma digits2_pos_size p : digits2_pos p = Pos.size p.
Proof. induction p; simpl; congruence. Qed.

Lemma Zdigits2_bounds m : 0 < m -> 2 ^ (Zdigits2 m - 1) <= m < 2 ^ Zdigits2 m.
Proof.
  intros H. destruct m as [|p|p]; try lia. simpl Zdigits2.
  rewrite digits2_pos_size.
  pose proof (Pos.size_gt p) as Hgt. pose proof (Pos.size_le p) as Hle.
  split.
  - assert (2 ^ Z.pos (Pos.size p) <= 2 * Z.pos p).
    { change (2 * Z.pos p) with (Z.pos p~0).
      rewrite <- Pos2Z.inj_pow. apply Pos2Z.pos_le_pos. exact Hle. }
    replace (Z.pos (Pos.size p)) with (Z.succ (Z.pos (Pos.size p) - 1)) in H0 by lia.
    rewrite Z.pow_succ_r in H0 by lia. lia.
  - rewrite <- Pos2Z.inj_pow. apply Pos2Z.pos_lt_pos. exact Hgt.
Qed.

Lemma Zdigits2_le_of_lt m a : 0 <= m -> 0 <= a -> m < 2 ^ a -> Zdigits2 m <= a.
Proof.
  intros Hm Ha H. destruct (Z.eq_dec m 0) as [->|Hn]; [simpl; lia|].
  destruct (Zdigits2_bounds m ltac:(lia)) as [Hl _].
  assert (2 ^ (Zdigits2 m - 1) < 2 ^ a) by lia.
  apply Z.pow_lt_mono_r_iff in H0; lia.
Qed.

Lemma Zdigits2_nonneg m : 0 <= Zdigits2 m.
Proof. destruct m; simpl; lia. Qed.

(** One step of [shr] halves a non-negative mantissa; [n] steps divide it by
    [2 ^ n]. *)
Lemma shr_1_m mrs : 0 <= shr_m mrs -> shr_m (shr_1 mrs) = shr_m mrs / 2.
Proof.
  destruct mrs as [m r s]. simpl. intros H.
  destruct m as [|p|p]; try lia; [reflexivity|].
  destruct p; simpl shr_m.
  - rewrite Pos2Z.inj_xI. apply Z.div_unique with (r:=1); lia.
  - rewrite Pos2Z.inj_xO. apply Z.div_unique with (r:=0); lia.
  - reflexivity.
Qed.

Lemma iter_shr_1_m p : forall mrs, 0 <= shr_m mrs ->
  shr_m (iter_pos shr_1 p mrs) = shr_m mrs / 2 ^ Z.pos p.
Proof.
  assert (Hnn : forall m, 0 <= shr_m m -> 0 <= shr_m (shr_1 m)).
  { intros m H. rewrite shr_1_m by exact H. apply Z.div_pos; lia. }
  induction p as [p IH|p IH|]; intros mrs H.
  - simpl iter_pos. rewrite IH, IH, shr_1_m; auto.
    + rewrite (Pos2Z.inj_xI p). rewrite !Z.div_div by lia.
      f_equal. replace (2 * Z.pos p + 1) with (Z.succ (Z.pos p + Z.pos p)) by lia.
      rewrite Z.pow_succ_r by lia. rewrite Z.pow_add_r by lia. reflexivity.
    + rewrite IH by auto. apply Z.div_pos; [auto | lia].
  - simpl iter_pos. rewrite IH, IH; auto.
    + rewrite (Pos2Z.inj_xO p). rewrite !Z.div_div by lia.
      f_equal. replace (2 * Z.pos p) with (Z.pos p + Z.pos p) by lia.
      rewrite Z.pow_add_r by lia. reflexivity.
    + rewrite IH by auto. apply Z.div_pos; [auto | lia].
  - simpl. rewrite shr_1_m by auto. reflexivity.
Qed.

Lemma shr_record_of_loc_m m l : shr_m (shr_record_of_loc m l) = m.
Proof. destruct l as [|[]]; reflexivity. Qed.

Lemma shr_fexp_spec m e l : 0 <= m ->
  let k := Z.max 0 (fexp prec emax (Zdigits2 m + e) - e) in
  shr_m (fst (shr_fexp prec emax m e l)) = m / 2 ^ k
  /\ snd (shr_fexp prec emax m e l) = e + k.
Proof.
  intros Hm k. unfold shr_fexp, shr. subst k.
  destruct (fexp prec emax (Zdigits2 m + e) - e) as [|p|p] eqn:E; simpl fst; simpl snd.
  - rewrite shr_record_of_loc_m. rewrite Z.max_id. simpl. rewrite Z.div_1_r. lia.
  - rewrite iter_shr_1_m by (rewrite shr_record_of_loc_m; exact Hm).
    rewrite shr_record_of_loc_m.
    replace (Z.max 0 (Z.pos p)) with (Z.pos p) by lia. split; reflexivity.
  - rewrite shr_record_of_loc_m.
    replace (Z.max 0 (Z.neg p)) with 0 by lia. simpl. rewrite Z.div_1_r. lia.
Qed.

Lemma round_nearest_even_range m l :
  m <= round_nearest_even m l <= m + 1.
Proof.
  unfold round_nearest_even. destruct l as [|[]]; try lia.
  destruct (Z.even m); lia.
Qed.

Lemma fexp_unfold e : fexp prec emax e = Z.max (e - 53) (-1074).
Proof. reflexivity. Qed.

(** The two shifts of [binary_round_aux] on a mantissa below [2 ^ (- e)]:
    the value stays at most 1 and the exponent at most -52. *)
Lemma shr_fexp_first mz ez lz :
  0 <= mz < 2 ^ (- ez) -> -1074 <= ez <= -53 ->
  0 <= shr_m (fst (shr_fexp prec emax mz ez lz))
    < 2 ^ (- snd (shr_fexp prec emax mz ez lz))
  /\ -1074 <= snd (shr_fexp prec emax mz ez lz) <= -53.
Proof.
  intros [Hm0 Hm] He.
  destruct (shr_fexp_spec mz ez lz Hm0) as [S1m S1e].
  rewrite S1m, S1e. clear S1m S1e.
  assert (Hd : Zdigits2 mz <= - ez) by (apply Zdigits2_le_of_lt; lia).
  pose proof (Zdigits2_nonneg mz) as Hdn.
  rewrite fexp_unfold.
  set (k1 := Z.max 0 (Z.max (Zdigits2 mz + ez - 53) (-1074) - ez)).
  assert (Hk1 : 0 <= k1 <= - ez - 53) by (subst k1; lia).
  clearbody k1. split; [|lia]. split.
  - apply Z.div_pos; [lia | apply Z.pow_pos_nonneg; lia].
  - apply Z.div_lt_upper_bound; [apply Z.pow_pos_nonneg; lia|].
    rewrite <- Z.pow_add_r by lia.
    replace (k1 + - (ez + k1)) with (- ez) by lia. exact Hm.
Qed.

Lemma shr_fexp_second m e :
  0 <= m <= 2 ^ (- e) -> -1074 <= e <= -53 ->
  0 <= shr_m (fst (shr_fexp prec emax m e loc_Exact))
    <= 2 ^ (- snd (shr_fexp prec emax m e loc_Exact))
  /\ -1074 <= snd (shr_fexp prec emax m e loc_Exact) <= -52.
Proof.
  intros [Hm0 Hm] He.
  destruct (shr_fexp_spec m e loc_Exact Hm0) as [S2m S2e].
  rewrite S2m, S2e. clear S2m S2e.
  assert (Hd : Zdigits2 m <= - e + 1).
  { apply Zdigits2_le_of_lt; try lia.
    rewrite Z.pow_add_r by lia. change (2 ^ 1) with 2. lia. }
  pose proof (Zdigits2_nonneg m) as Hdn.
  rewrite fexp_unfold.
  set (k2 := Z.max 0 (Z.max (Zdigits2 m + e - 53) (-1074) - e)).
  assert (Hk2 : 0 <= k2 <= - e - 52) by (subst k2; lia).
  clearbody k2. split; [|lia]. split.
  - apply Z.div_pos; [lia | apply Z.pow_pos_nonneg; lia].
  - apply Z.div_le_upper_bound; [apply Z.pow_pos_nonneg; lia|].
    rewrite <- Z.pow_add_r by lia.
    replace (k2 + - (e + k2)) with (- e) by lia. exact Hm.
Qed.

Lemma mantissa_not_gt m :
  Z.pos m <= 4503599627370496 -> Pos.compare_cont Eq m 4503599627370496 <> Gt.
Proof.
  intros Hm E.
  assert (E' : (m ?= 4503599627370496)%positive = Gt) by exact E.
  apply Pos.compare_gt_iff in E'. lia.
Qed.

Lemma finite_le_one m e :
  Z.pos m <= 2 ^ (- e) -> e <= -52 ->
  SFleb (S754_finite false m e) one_bits = true.
Proof.
  intros Hm He. unfold SFleb, SFcompare, one_bits.
  destruct (Z.compare_spec e (-52)) as [Heq|Hlt|Hgt]; [|reflexivity|lia].
  rewrite Heq in Hm.
  assert (Hp : 2 ^ (- -52) = 4503599627370496) by (vm_compute; reflexivity).
  rewrite Hp in Hm. clear Hp.
  pose proof (mantissa_not_gt m Hm) as Hc.
  destruct (Pos.compare_cont Eq m 4503599627370496); congruence.
Qed.

Lemma f1_eq : f1 = one_bits.
Proof. vm_compute. reflexivity. Qed.

Lemma binary_round_aux_unit mz ez lz :
  0 <= mz < 2 ^ (- ez) -> -1074 <= ez <= -53 ->
  fleb f0 (binary_round_aux prec emax false mz ez lz) = true
  /\ fleb (binary_round_aux prec emax false mz ez lz) f1 = true.
Proof.
  intros Hm He. rewrite f1_eq. unfold binary_round_aux.
  pose proof (shr_fexp_first mz ez lz Hm He) as [Hm1 He1].
  destruct (shr_fexp prec emax mz ez lz) as [mrs' e'].
  simpl fst in *; simpl snd in *.
  pose proof (round_nearest_even_range (shr_m mrs') (loc_of_shr_record mrs')) as Hr.
  set (m1r := round_nearest_even (shr_m mrs') (loc_of_shr_record mrs')) in *.
  assert (Hm1r : 0 <= m1r <= 2 ^ (- e')) by lia.
  pose proof (shr_fexp_second m1r e' Hm1r He1) as [Hm2 He2].
  destruct (shr_fexp prec emax m1r e' loc_Exact) as [mrs'' e''].
  simpl fst in *; simpl snd in *.
  destruct (shr_m mrs'') as [|m|m]; [split; reflexivity | | lia].
  replace (e'' <=? emax - prec) with true
    by (symmetry; apply Z.leb_le; unfold emax, prec; lia).
  split; [reflexivity|].
  apply finite_le_one; lia.
Qed.

(** The quotient of two positive integers [w < t], as [SFdiv] sets it up. *)
Lemma Zdigits2_mono a b : 0 < a -> a <= b -> Zdigits2 a <= Zdigits2 b.
Proof.
  intros Ha Hab.
  destruct (Zdigits2_bounds a Ha) as [Hl _].
  destruct (Zdigits2_bounds b ltac:(lia)) as [_ Hu].
  assert (H : 2 ^ (Zdigits2 a - 1) < 2 ^ Zdigits2 b) by lia.
  pose proof (Zdigits2_nonneg b).
  apply Z.pow_lt_mono_r_iff in H; lia.
Qed.

Lemma div_core_below_one w t :
  (w < t)%positive ->
  let '(q, e, _) := SFdiv_core_binary prec emax (Z.pos w) 0 (Z.pos t) 0 in
  0 <= q < 2 ^ (- e) /\ -1074 <= e <= -53.
Proof.
  intros Hwt. unfold SFdiv_core_binary.
  pose proof (Zdigits2_mono (Z.pos w) (Z.pos t) ltac:(lia) ltac:(lia)) as Hd.
  set (d1 := Zdigits2 (Z.pos w)) in *. set (d2 := Zdigits2 (Z.pos t)) in *.
  rewrite fexp_unfold.
  set (e' := Z.min (Z.max (d1 + 0 - (d2 + 0) - 53) (-1074)) (0 - 0)).
  assert (He : -1074 <= e' <= -53) by (subst e'; lia).
  clearbody e'.
  destruct (0 - 0 - e') as [|sp|sp] eqn:Es; try lia.
  rewrite Z.shiftl_mul_pow2 by lia.
  destruct (Z.div_eucl (Z.pos w * 2 ^ Z.pos sp) (Z.pos t)) as [q r] eqn:Ed.
  assert (Hq : q = Z.pos w * 2 ^ Z.pos sp / Z.pos t)
    by (unfold Z.div; rewrite Ed; reflexivity).
  split; [|exact He].
  replace (- e') with (Z.pos sp) by lia.
  assert (Hp : 0 < 2 ^ Z.pos sp) by (apply Z.pow_pos_nonneg; lia).
  rewrite Hq. split.
  - apply Z.div_pos; lia.
  - apply Z.div_lt_upper_bound; [lia|]. nia.
Qed.

Lemma div_core_equal t :
  SFdiv_core_binary prec emax (Z.pos t) 0 (Z.pos t) 0 = (2 ^ 53, -53, loc_Exact).
Proof.
  unfold SFdiv_core_binary.
  replace (Zdigits2 (Z.pos t) + 0 - (Zdigits2 (Z.pos t) + 0)) with 0 by lia.
  change (Z.min (fexp prec emax 0) (0 - 0)) with (-53).
  change (0 - 0 - -53) with 53.
  rewrite Z.shiftl_mul_pow2 by lia.
  destruct (Z.div_eucl (Z.pos t * 2 ^ 53) (Z.pos t)) as [q r] eqn:Ed.
  pose proof (Z.div_eucl_eq (Z.pos t * 2 ^ 53) (Z.pos t) ltac:(lia)) as Heq.
  pose proof (Z.mod_pos_bound (Z.pos t * 2 ^ 53) (Z.pos t) ltac:(lia)) as Hr.
  unfold Z.modulo in Hr. rewrite Ed in Heq, Hr.
  assert (Hq : q = 2 ^ 53 /\ r = 0).
  { assert (r = Z.pos t * (2 ^ 53 - q)) by lia.
    assert (2 ^ 53 - q = 0) by nia. lia. }
  destruct Hq as [-> ->].
  unfold new_location, new_location_even, new_location_odd.
  destruct (Z.even (Z.pos t)); reflexivity.
Qed.

(** [w / t] on integers [0 <= w <= t], [1 <= t], lies in [[0.0, 1.0]]. *)
Lemma int_truediv_unit w t :
  0 <= w <= t -> 1 <= t ->
  fleb f0 (int_truediv w t) = true /\ fleb (int_truediv w t) f1 = true.
Proof.
  intros Hw Ht. unfold int_truediv, fdiv.
  destruct t as [|t|t]; try lia.
  destruct w as [|w|w]; try lia.
  - simpl. rewrite f1_eq. split; reflexivity.
  - simpl int_operand. unfold SFdiv.
    destruct (Pos.eq_dec w t) as [->|Hne].
    + rewrite div_core_equal. split; vm_compute; reflexivity.
    + pose proof (div_core_below_one w t ltac:(lia)) as H.
      destruct (SFdiv_core_binary prec emax (Z.pos w) 0 (Z.pos t) 0) as [[q e] l].
      destruct H as [Hq He]. simpl xorb.
      apply binary_round_aux_unit; assumption.
Qed.

(** Rounding a non-negative mantissa never gives NaN. *)
Lemma binary_round_aux_not_nan sx mx ex lx :
  0 <= mx -> is_nan (binary_round_aux prec emax sx mx ex lx) = false.
Proof.
  intros Hm. unfold binary_round_aux.
  destruct (shr_fexp_spec mx ex lx Hm) as [S1 _].
  destruct (shr_fexp prec emax mx ex lx) as [mrs' e']. simpl fst in S1.
  assert (H1 : 0 <= shr_m mrs').
  { rewrite S1. apply Z.div_pos; [lia | apply Z.pow_pos_nonneg; lia]. }
  pose proof (round_nearest_even_range (shr_m mrs') (loc_of_shr_record mrs')) as Hr.
  set (m1r := round_nearest_even (shr_m mrs') (loc_of_shr_record mrs')) in *.
  assert (H1r : 0 <= m1r) by lia.
  destruct (shr_fexp_spec m1r e' loc_Exact H1r) as [S2 _].
  destruct (shr_fexp prec emax m1r e' loc_Exact) as [mrs'' e'']. simpl fst in S2.
  assert (H2 : 0 <= shr_m mrs'').
  { rewrite S2. apply Z.div_pos; [lia | apply Z.pow_pos_nonneg; lia]. }
  destruct (shr_m mrs'') as [|m|m]; [reflexivity | | lia].
  destruct (e'' <=? emax - prec); reflexivity.
Qed.

Lemma binary_normalize_not_nan m e sz :
  is_nan (binary_normalize prec emax m e sz) = false.
Proof.
  unfold binary_normalize, binary_round.
  destruct m as [|p|p]; [reflexivity | |];
    destruct (shl_align p e _) as [mz ez];
    apply binary_round_aux_not_nan; lia.
Qed.

Lemma fadd_not_nan x y :
  is_finite x = true -> is_nan y = false -> is_nan (fadd x y) = false.
Proof.
  intros Hx Hy. unfold fadd, SFadd.
  destruct x as [sx|sx| |sx mx ex]; try discriminate;
    destruct y as [sy|sy| |sy my ey]; try discriminate; try reflexivity.
  - destruct sx, sy; reflexivity.
  - apply binary_normalize_not_nan.
Qed.

Lemma fopp_finite x : is_finite x = true -> is_finite (fopp x) = true.
Proof. destruct x; simpl; congruence. Qed.

Lemma py_max_zero_nonneg x : is_nan x = false -> fleb f0 (py_max x f0) = true.
Proof.
  intros H. destruct x as [s|s| |s m e]; try discriminate; destruct s; reflexivity.
Qed.

Lemma py_min_zero_nonpos x : is_nan x = false -> fleb (py_min x f0) f0 = true.
Proof.
  intros H. destruct x as [s|s| |s m e]; try discriminate; destruct s; reflexivity.
Qed.

Lemma feqb_not_fltb x y : feqb x y = true -> fltb x y = false.
Proof.
  unfold feqb, SFeqb, fltb, SFltb.
  destruct (SFcompare x y) as [[| |]|]; congruence.
Qed.

Lemma tape_gauss_not_nan mu sigma t : is_nan (fst (tape_gauss mu sigma t)) = false.
Proof.
  unfold tape_gauss. destruct (snd t) as [|x xs]; [reflexivity|].
  simpl. destruct (is_nan x) eqn:E; [reflexivity | exact E].
Qed.

(** ** Bookkeeping of a single trade *)

Lemma book_trade_trades s st pnl :
  st_trades_today (book_trade s st pnl) = st_trades_today st + 1.
Proof. unfold book_trade. destruct (fltb (scaled s pnl) f0); reflexivity. Qed.

Lemma book_trade_flags s st pnl :
  st_daily_loss_hit (book_trade s st pnl) = st_daily_loss_hit st /\
  st_max_concurrent_hit (book_trade s st pnl) = st_max_concurrent_hit st.
Proof. unfold book_trade. destruct (fltb (scaled s pnl) f0); split; reflexivity. Qed.

Lemma book_trade_counts s st pnl :
  st_wins (book_trade s st pnl) + st_losses (book_trade s st pnl)
  = st_wins st + st_losses st + 1.
Proof. unfold book_trade. destruct (fltb (scaled s pnl) f0); simpl; lia. Qed.

Lemma book_trade_exposure s st pnl :
  st_current_exposure (book_trade s st pnl)
  = fadd (st_current_exposure st) (position_size_usd s).
Proof. unfold book_trade. destruct (fltb (scaled s pnl) f0); reflexivity. Qed.

Lemma book_trade_totals s st pnl :
  w_total_pnl (st_wallet (book_trade s st pnl))
    = fadd (w_total_pnl (st_wallet st)) (scaled s pnl) /\
  w_daily_pnl (st_wallet (book_trade s st pnl))
    = fadd (w_daily_pnl (st_wallet st)) (scaled s pnl) /\
  w_initial_bankroll (st_wallet (book_trade s st pnl))
    = w_initial_bankroll (st_wallet st).
Proof. unfold book_trade. destruct (fltb (scaled s pnl) f0); repeat split; reflexivity. Qed.

Lemma book_trade_wins_range s st pnl :
  0 <= st_wins st <= st_trades_today st ->
  0 <= st_wins (book_trade s st pnl) <= st_trades_today (book_trade s st pnl).
Proof. unfold book_trade. destruct (fltb (scaled s pnl) f0); simpl; lia. Qed.

Lemma check_caps_proceed s st :
  check_caps s st = Proceed ->
  fltb max_total_exposure (fadd (st_current_exposure st) (position_size_usd s)) = false.
Proof.
  unfold check_caps.
  destruct (fleb _ (fopp portfolio_daily_cap)); [discriminate|].
  destruct (fleb per_wallet_daily_cap _); [discriminate|].
  destruct (fltb max_total_exposure _); [discriminate | reflexivity].
Qed.

Lemma check_caps_per_wallet s st :
  fleb (w_daily_losses (st_wallet st)) (fopp portfolio_daily_cap) = false ->
  fleb per_wallet_daily_cap (fabs (w_daily_losses (st_wallet st))) = true ->
  check_caps s st = StopPerWallet.
Proof. intros H1 H2. unfold check_caps. rewrite H1, H2. reflexivity. Qed.

(** ** Invariants of the day loop *)

(** Name the outcome of the trade drawn from generator state [g]. *)
Ltac draw_trade g pnl g' :=
  destruct (simulate_wallet_edge _ _ _ g) as [[pnl ?] g'].

Section LoopFacts.

Context {G : Type} `{RT : PyRuntime G}.

Lemma day_loop_flags n : forall s st g,
  st_daily_loss_hit st = false -> st_max_concurrent_hit st = false ->
  st_daily_loss_hit (fst (day_loop n s st g))
    && st_max_concurrent_hit (fst (day_loop n s st g)) = false.
Proof.
  induction n as [|n IH]; intros s st g Hd Hm.
  - simpl. rewrite Hd. reflexivity.
  - simpl. destruct (check_caps s st).
    + draw_trade g pnl g'.
      apply IH; destruct (book_trade_flags s st pnl); congruence.
    + simpl. exact Hm.
    + simpl. rewrite Hd. reflexivity.
    + simpl. rewrite Hd. reflexivity.
Qed.

Lemma day_loop_counts n : forall s st g,
  st_trades_today st <= st_trades_today (fst (day_loop n s st g))
    <= st_trades_today st + Z.of_nat n
  /\ st_wins (fst (day_loop n s st g)) + st_losses (fst (day_loop n s st g))
       - st_trades_today (fst (day_loop n s st g))
     = st_wins st + st_losses st - st_trades_today st.
Proof.
  induction n as [|n IH]; intros s st g.
  - simpl. lia.
  - simpl day_loop. destruct (check_caps s st); try (simpl; lia).
    draw_trade g pnl g'.
    specialize (IH s (book_trade s st pnl) g').
    rewrite book_trade_trades in IH.
    pose proof (book_trade_counts s st pnl). lia.
Qed.

Lemma day_loop_wins_range n : forall s st g,
  0 <= st_wins st <= st_trades_today st ->
  0 <= st_wins (fst (day_loop n s st g))
    <= st_trades_today (fst (day_loop n s st g)).
Proof.
  induction n as [|n IH]; intros s st g H.
  - simpl. exact H.
  - simpl. destruct (check_caps s st); try (simpl; exact H).
    draw_trade g pnl g'.
    apply IH. apply book_trade_wins_range. exact H.
Qed.

(** The wallet totals after the loop are the totals before it with the
    scaled results of the day added one by one. *)
Lemma day_loop_totals n : forall s st g,
  w_total_pnl (st_wallet (fst (day_loop n s st g)))
    = fold_left fadd (day_pnls n s st g) (w_total_pnl (st_wallet st))
  /\ w_daily_pnl (st_wallet (fst (day_loop n s st g)))
    = fold_left fadd (day_pnls n s st g) (w_daily_pnl (st_wallet st))
  /\ w_initial_bankroll (st_wallet (fst (day_loop n s st g)))
    = w_initial_bankroll (st_wallet st)
  /\ st_trades_today (fst (day_loop n s st g))
    = st_trades_today st + Z.of_nat (List.length (day_pnls n s st g)).
Proof.
  induction n as [|n IH]; intros s st g.
  - simpl. repeat split; lia.
  - simpl day_loop. simpl day_pnls.
    destruct (check_caps s st); try (simpl; repeat split; lia).
    draw_trade g pnl g'.
    destruct (IH s (book_trade s st pnl) g') as (A & B & C & D).
    destruct (book_trade_totals s st pnl) as (A' & B' & C').
    rewrite book_trade_trades in D.
    simpl fold_left. simpl List.length.
    rewrite A, B, C, D, A', B', C'. repeat split; lia.
Qed.

(** The exposure is the running sum of the position sizes of the trades
    taken, and no check on the way found it above the cap. *)
Lemma day_loop_exposure n : forall s st g (t : nat),
  st_trades_today st = Z.of_nat t ->
  (forall j, (j < t)%nat ->
     fltb max_total_exposure (exposure_after (S j) (position_size_usd s)) = false) ->
  st_current_exposure st = exposure_after t (position_size_usd s) ->
  exists t' : nat,
    st_trades_today (fst (day_loop n s st g)) = Z.of_nat t'
    /\ forall j, (j < t')%nat ->
         fltb max_total_exposure (exposure_after (S j) (position_size_usd s)) = false.
Proof.
  induction n as [|n IH]; intros s st g t Ht Hall He.
  - simpl. exists t. split; assumption.
  - simpl day_loop. destruct (check_caps s st) eqn:Ec;
      try (exists t; split; assumption).
    draw_trade g pnl g'.
    apply (IH s (book_trade s st pnl) g' (S t)).
    + rewrite book_trade_trades, Ht. lia.
    + intros j Hj. destruct (Nat.eq_dec j t) as [->|Hne].
      * simpl exposure_after. rewrite <- He. apply check_caps_proceed. exact Ec.
      * apply Hall. lia.
    + rewrite book_trade_exposure, He. reflexivity.
Qed.

(** A day that reaches a loop head where the per-wallet check fires ends
    there, whatever the number of trades still allowed. *)
Lemma day_loop_per_wallet_stop n s st g :
  check_caps s st = StopPerWallet -> day_loop (S n) s st g = (st, g).
Proof. intros H. simpl. rewrite H. reflexivity. Qed.

Lemma day_loop_run_trades k : forall n s st g st' g',
  run_trades k s st g = Some (st', g') ->
  day_loop (k + n) s st g = day_loop n s st' g'.
Proof.
  induction k as [|k IH]; intros n s st g st' g' H.
  - simpl in H. inversion H. reflexivity.
  - simpl in H. simpl. destruct (check_caps s st); try discriminate.
    draw_trade g pnl g1.
    apply IH. exact H.
Qed.

Lemma run_trades_state k : forall s st g st' g',
  run_trades k s st g = Some (st', g') ->
  st_daily_loss_hit st' = st_daily_loss_hit st
  /\ st_max_concurrent_hit st' = st_max_concurrent_hit st
  /\ st_trades_today st' = st_trades_today st + Z.of_nat k.
Proof.
  induction k as [|k IH]; intros s st g st' g' H.
  - simpl in H. inversion H. subst. repeat split; lia.
  - simpl in H. destruct (check_caps s st); try discriminate.
    draw_trade g pnl g1.
    destruct (IH _ _ _ _ _ H) as (A & B & C).
    destruct (book_trade_flags s st pnl) as [D E].
    rewrite book_trade_trades in C.
    repeat split; try congruence. lia.
Qed.

(** ** From the loop to [simulate_day] and to the runner *)

(** [simulate_day] returns whenever the trade-count draw does. *)
Lemma simulate_day_returns fuel w s d avg g n g1 :
  poisson_random fuel avg g = Returned (n, g1) ->
  simulate_day fuel w s d avg g
  = Returned (daily_result d s (fst (final_state w s n g1)),
              st_wallet (fst (final_state w s n g1)),
              snd (final_state w s n g1)).
Proof.
  intros H. unfold simulate_day, final_state. rewrite H. simpl.
  destruct (day_loop _ s _ g1) as [st g2]. reflexivity.
Qed.

Lemma simulate_day_inv fuel w s d avg g r w' g' :
  simulate_day fuel w s d avg g = Returned (r, w', g') ->
  exists n g1,
    poisson_random fuel avg g = Returned (n, g1)
    /\ r = daily_result d s (fst (final_state w s n g1))
    /\ w' = st_wallet (fst (final_state w s n g1))
    /\ g' = snd (final_state w s n g1).
Proof.
  intros H.
  destruct (poisson_random fuel avg g) as [[n g1]| |] eqn:E.
  - rewrite (simulate_day_returns _ w s d _ _ _ _ E) in H.
    inversion H. exists n, g1. repeat split.
  - unfold simulate_day in H. rewrite E in H. discriminate.
  - unfold simulate_day in H. rewrite E in H. discriminate.
Qed.

(** More fuel does not change the result of the trade-count loop. *)
Lemma poisson_loop_more_fuel fuel : forall fuel' L k p g x,
  poisson_loop fuel L k p g = Returned x -> (fuel <= fuel')%nat ->
  poisson_loop fuel' L k p g = Returned x.
Proof.
  induction fuel as [|fuel IH]; intros fuel' L k p g x H Hle.
  - discriminate.
  - destruct fuel' as [|fuel']; [lia|].
    simpl in *. destruct (fltb L p); [|exact H].
    destruct (rand_random g) as [r g1]. apply IH; [exact H | lia].
Qed.

Lemma poisson_random_more_fuel fuel fuel' lambda_ g x :
  poisson_random fuel lambda_ g = Returned x -> (fuel <= fuel')%nat ->
  poisson_random fuel' lambda_ g = Returned x.
Proof.
  unfold poisson_random. destruct (math_exp (fopp lambda_)); [|discriminate].
  apply poisson_loop_more_fuel.
Qed.

Lemma simulate_day_more_fuel fuel fuel' w s d avg g x :
  simulate_day fuel w s d avg g = Returned x -> (fuel <= fuel')%nat ->
  simulate_day fuel' w s d avg g = Returned x.
Proof.
  destruct x as [[r w'] g']. intros H Hle.
  destruct (simulate_day_inv _ _ _ _ _ _ _ _ _ H) as (n & g1 & E & -> & -> & ->).
  apply simulate_day_returns.
  eapply poisson_random_more_fuel; eauto.
Qed.

Lemma run_days_more_fuel fuel fuel' n : forall d w s g x,
  run_days fuel n d w s g = Returned x -> (fuel <= fuel')%nat ->
  run_days fuel' n d w s g = Returned x.
Proof.
  induction n as [|n IH]; intros d w s g x H Hle.
  - exact H.
  - cbn [run_days] in *.
    destruct (simulate_day fuel w s (d + 1) (float_of_Z 6) g)
      as [[[r w1] g1]| |] eqn:E; try discriminate.
    rewrite (simulate_day_more_fuel _ fuel' _ _ _ _ _ _ E Hle).
    cbn [bind] in *.
    destruct (run_days fuel n (d + 1) w1 s g1) as [[rs g2]| |] eqn:E2;
      try discriminate.
    rewrite (IH _ _ _ _ _ E2 Hle). exact H.
Qed.

Lemma run_strategies_more_fuel fuel fuel' days ss : forall g x,
  run_strategies fuel days ss g = Returned x -> (fuel <= fuel')%nat ->
  run_strategies fuel' days ss g = Returned x.
Proof.
  induction ss as [|s ss IH]; intros g x H Hle.
  - exact H.
  - cbn [run_strategies] in *.
    destruct (run_days fuel (Z.to_nat days) 0 (new_wallet default_bankroll) s g)
      as [[rs g1]| |] eqn:E; try discriminate.
    rewrite (run_days_more_fuel _ fuel' _ _ _ _ _ _ E Hle).
    cbn [bind] in *.
    destruct (run_strategies fuel days ss g1) as [[rest g2]| |] eqn:E2;
      try discriminate.
    rewrite (IH _ _ E2 Hle). exact H.
Qed.

Lemma run_simulation_more_fuel fuel fuel' days ambient rs :
  run_simulation fuel days ambient = Returned rs -> (fuel <= fuel')%nat ->
  run_simulation fuel' days ambient = Returned rs.
Proof.
  unfold run_simulation. intros H Hle.
  destruct (run_strategies fuel days builtin_strategies (rand_seed 42))
    as [[l g]| |] eqn:E; try discriminate.
  rewrite (run_strategies_more_fuel _ fuel' _ _ _ _ E Hle). exact H.
Qed.

End LoopFacts.

(** * The claims *)

(** ** The analyzer's drawdown *)

(** C1 (not what the code computes).  The claim makes the reported maximum
    drawdown the largest drop below the running maximum of the days up to
    each day.  The analyzer subtracts every day from the maximum of the whole
    sequence instead: on the run in which every trade wins, whose cumulative
    profit only rises, it reports 45.0, 90.0 and 180.0 for the three
    strategies, where the scan of the claim gives 0.0 for each. *)
Theorem drawdown_taken_from_overall_peak :
  exists rs,
    rising_run = Returned rs
    /\ analyze_results (ST := flat_statistics) rs = Returned rs
    /\ map (fun kv => (fst kv, max_drawdown (snd kv)))
           (analyze_summary (ST := flat_statistics) rs)
       = [ ("Conservative (2.5%)"%string, float_of_Z 45);
           ("Moderate (5%)"%string, float_of_Z 90);
           ("Aggressive (10%)"%string, float_of_Z 180) ]
    /\ map (fun kv => running_max_drawdown (map cumulative_pnl (snd kv)))
           (group_by_strategy rs)
       = [ Some f0; Some f0; Some f0 ].
Proof.
  eexists. split; [vm_compute; reflexivity|].
  split; [vm_compute; reflexivity|].
  split; vm_compute; reflexivity.
Qed.

(** C2 (not what the code computes).  The claim makes the reported maximum
    drawdown non-negative, and 0 exactly when the cumulative profit never
    decreases.  On the two Moderate days of the rising run the cumulative
    values 90.0 and 180.0 never decrease, and the analyzer reports 90.0: the
    value is non-negative but not 0. *)
Theorem drawdown_positive_without_decrease :
  (exists rs, rising_run = Returned rs
     /\ filter (fun r => String.eqb (strategy r) "Moderate (5%)") rs = rising_results)
  /\ nondecreasing (map cumulative_pnl rising_results) = true
  /\ exists sm,
       analyze_summary (ST := flat_statistics) rising_results
       = [("Moderate (5%)"%string, sm)]
       /\ max_drawdown sm = float_of_Z 90
       /\ fleb f0 (max_drawdown sm) = true
       /\ feqb (max_drawdown sm) f0 = false.
Proof.
  split; [eexists; split; vm_compute; reflexivity|].
  split; [vm_compute; reflexivity|].
  eexists. split; [vm_compute; reflexivity|].
  repeat split; vm_compute; reflexivity.
Qed.

Section Claims.

Context {G : Type} `{RT : PyRuntime G}.

(** ** The record returned by [simulate_day] *)

(** C3.  The record returned by [simulate_day] never has [daily_loss_hit] and
    [max_concurrent_hit] both true: each flag is set only on the way out of
    the loop. *)
Theorem flags_exclusive fuel w s d avg g r w' g' :
  simulate_day fuel w s d avg g = Returned (r, w', g') ->
  daily_loss_hit r && max_concurrent_hit r = false.
Proof.
  intros H.
  destruct (simulate_day_inv _ _ _ _ _ _ _ _ _ H) as (n & g1 & _ & -> & _ & _).
  unfold final_state. simpl. apply day_loop_flags; reflexivity.
Qed.

(** C4.  The record returned by [simulate_day] has [trades_taken] at most the
    trade count of the day, which is the draw of [poisson_random] raised to 1
    when it is lower, and [wins + losses = trades_taken]. *)
Theorem trades_within_draw fuel w s d avg g r w' g' :
  simulate_day fuel w s d avg g = Returned (r, w', g') ->
  exists n g1,
    poisson_random fuel avg g = Returned (n, g1)
    /\ 0 <= trades_taken r <= Z.max 1 n
    /\ wins r + losses r = trades_taken r.
Proof.
  intros H.
  destruct (simulate_day_inv _ _ _ _ _ _ _ _ _ H) as (n & g1 & E & -> & _ & _).
  exists n, g1. split; [exact E|].
  unfold final_state. simpl.
  pose proof (day_loop_counts (Z.to_nat (Z.max 1 n)) s (init_day (reset_daily w)) g1)
    as [Hc Hs].
  simpl in Hc, Hs. lia.
Qed.

(** C5.  In the record returned by [simulate_day], [hit_rate] is
    [wins / max(trades_taken, 1)]: it is 0.0 when no trade was taken, it is
    [wins / trades_taken] otherwise, and it lies between 0.0 and 1.0. *)
Theorem hit_rate_is_win_fraction fuel w s d avg g r w' g' :
  simulate_day fuel w s d avg g = Returned (r, w', g') ->
  hit_rate r = int_truediv (wins r) (Z.max (trades_taken r) 1)
  /\ (trades_taken r = 0 -> hit_rate r = f0)
  /\ (0 < trades_taken r -> hit_rate r = int_truediv (wins r) (trades_taken r))
  /\ fleb f0 (hit_rate r) = true
  /\ fleb (hit_rate r) f1 = true.
Proof.
  intros H.
  destruct (simulate_day_inv _ _ _ _ _ _ _ _ _ H) as (n & g1 & _ & -> & _ & _).
  unfold final_state. simpl.
  pose proof (day_loop_wins_range (Z.to_nat (Z.max 1 n)) s (init_day (reset_daily w)) g1)
    as Hw.
  simpl in Hw. specialize (Hw ltac:(lia)).
  set (st := fst (day_loop (Z.to_nat (Z.max 1 n)) s (init_day (reset_daily w)) g1)) in *.
  split; [reflexivity|]. split; [|split].
  - intros H0. rewrite H0 in *. replace (st_wins st) with 0 by lia. reflexivity.
  - intros Hpos. rewrite Z.max_l by lia. reflexivity.
  - apply int_truediv_unit; lia.
Qed.

(** C6.  When the normal draws are never NaN, a trade outcome flagged as a win
    has a value of at least 0.0 and one flagged as a loss a value of at most
    0.0; in the bookkeeping of the day a scaled result equal to 0.0 counts as
    a win, and the loss counter moves exactly when the scaled result is
    strictly below 0.0. *)
Theorem outcome_signs_and_counters :
  (forall mu sigma g, is_nan (fst (rand_gauss mu sigma g)) = false) ->
  (forall win_rate avg_win avg_loss g v flag g',
     is_finite avg_win = true -> is_finite avg_loss = true ->
     simulate_wallet_edge win_rate avg_win avg_loss g = ((v, flag), g') ->
     (flag = true -> fleb f0 v = true) /\ (flag = false -> fleb v f0 = true))
  /\ (forall s st pnl,
        (feqb (scaled s pnl) f0 = true ->
           st_wins (book_trade s st pnl) = st_wins st + 1
           /\ st_losses (book_trade s st pnl) = st_losses st)
        /\ (fltb (scaled s pnl) f0 = true ->
           st_wins (book_trade s st pnl) = st_wins st
           /\ st_losses (book_trade s st pnl) = st_losses st + 1)
        /\ (fltb (scaled s pnl) f0 = false ->
           st_wins (book_trade s st pnl) = st_wins st + 1
           /\ st_losses (book_trade s st pnl) = st_losses st)).
Proof.
  intros Hg. split.
  - intros win_rate avg_win avg_loss g v flag g' Hw Hl E.
    unfold simulate_wallet_edge in E.
    destruct (rand_random g) as [u g1].
    destruct (rand_gauss f0 (decimal 5 2) g1) as [j g2].
    destruct (fltb u (fadd win_rate j)).
    + pose proof (Hg f0 (float_of_Z 10) g2) as Hn.
      destruct (rand_gauss f0 (float_of_Z 10) g2) as [x g3]. simpl in Hn.
      inversion E; subst. split; [intros _ | discriminate].
      apply py_max_zero_nonneg. apply fadd_not_nan; assumption.
    + pose proof (Hg f0 (float_of_Z 5) g2) as Hn.
      destruct (rand_gauss f0 (float_of_Z 5) g2) as [x g3]. simpl in Hn.
      inversion E; subst. split; [discriminate | intros _].
      apply py_min_zero_nonpos. apply fadd_not_nan; [|assumption].
      apply fopp_finite. assumption.
  - intros s st pnl. unfold book_trade. split; [|split]; intros H;
      try (apply feqb_not_fltb in H); rewrite H; split; reflexivity.
Qed.

(** C8.  When trade [k+1] is attempted in a state where the portfolio check
    does not fire (the daily losses are not at or below -30.0) but their
    absolute value is at least 20.0, [simulate_day] returns the record of that
    state: [k] trades, no further draw from the generator, and neither flag
    set. *)
Theorem per_wallet_stop_is_silent fuel w s d avg g n g1 k st gk :
  poisson_random fuel avg g = Returned (n, g1) ->
  run_trades k s (init_day (reset_daily w)) g1 = Some (st, gk) ->
  Z.of_nat k < Z.max 1 n ->
  fleb (w_daily_losses (st_wallet st)) (fopp portfolio_daily_cap) = false ->
  fleb per_wallet_daily_cap (fabs (w_daily_losses (st_wallet st))) = true ->
  exists r,
    simulate_day fuel w s d avg g = Returned (r, st_wallet st, gk)
    /\ trades_taken r = Z.of_nat k
    /\ daily_loss_hit r = false
    /\ max_concurrent_hit r = false.
Proof.
  intros Hp Hr Hk H1 H2.
  rewrite (simulate_day_returns _ w s d _ _ _ _ Hp).
  unfold final_state.
  destruct (Z.to_nat (Z.max 1 n) - k)%nat as [|m] eqn:Em; [lia|].
  replace (Z.to_nat (Z.max 1 n)) with (k + S m)%nat by lia.
  rewrite (day_loop_run_trades k (S m) _ _ _ _ _ Hr).
  rewrite day_loop_per_wallet_stop by (apply check_caps_per_wallet; assumption).
  destruct (run_trades_state _ _ _ _ _ _ Hr) as (A & B & C).
  exists (daily_result d s st). simpl in *. repeat split.
  - lia.
  - exact A.
  - exact B.
Qed.

(** C9.  Any two runs of [run_simulation] over the same number of days return
    the same list of records, whatever the state of the generator was on
    entry and however long the trade-count loops were allowed to run: the
    output is a function of the seed and the parameters. *)
Theorem run_simulation_deterministic fuel1 fuel2 days ambient1 ambient2 rs1 rs2 :
  run_simulation fuel1 days ambient1 = Returned rs1 ->
  run_simulation fuel2 days ambient2 = Returned rs2 ->
  rs1 = rs2.
Proof.
  intros H1 H2.
  apply (run_simulation_more_fuel _ (Nat.max fuel1 fuel2)) in H1; [|lia].
  apply (run_simulation_more_fuel _ (Nat.max fuel1 fuel2)) in H2; [|lia].
  unfold run_simulation in *. rewrite H1 in H2. inversion H2. reflexivity.
Qed.

(** ** Accumulation over a strategy run *)

Lemma day_pnls_entries n : forall s st g k x,
  nth_error (day_pnls n s st g) k = Some x ->
  exists st_k g_k pnl is_win g_k',
    run_trades k s st g = Some (st_k, g_k)
    /\ simulate_wallet_edge default_win_rate default_avg_win default_avg_loss g_k
       = ((pnl, is_win), g_k')
    /\ x = scaled s pnl.
Proof.
  induction n as [|n IH]; intros s st g k x H.
  - destruct k; discriminate.
  - cbn [day_pnls] in H.
    destruct (check_caps s st) eqn:Ec; try (destruct k; discriminate).
    destruct (simulate_wallet_edge default_win_rate default_avg_win
                                   default_avg_loss g) as [[pnl b] g1] eqn:Ew.
    destruct k as [|k].
    + cbn [nth_error] in H. inversion H; subst.
      exists st, g, pnl, b, g1. repeat split. exact Ew.
    + cbn [nth_error] in H.
      destruct (IH _ _ _ _ _ H) as (st_k & g_k & pnl' & b' & g_k' & A & B & C).
      exists st_k, g_k, pnl', b', g_k'. split; [|split; assumption].
      cbn [run_trades]. rewrite Ec, Ew. exact A.
Qed.

Lemma simulate_day_accounts fuel w s d avg g r w' g' :
  simulate_day fuel w s d avg g = Returned (r, w', g') ->
  (Z.of_nat (List.length (simulate_day_pnls fuel w s avg g)) = trades_taken r
     /\ cumulative_pnl r
        = fold_left fadd (simulate_day_pnls fuel w s avg g) (w_total_pnl w)
     /\ daily_pnl r = fold_left fadd (simulate_day_pnls fuel w s avg g) f0)
  /\ bankroll r = fadd (w_initial_bankroll w) (cumulative_pnl r)
  /\ w_total_pnl w' = cumulative_pnl r
  /\ w_initial_bankroll w' = w_initial_bankroll w.
Proof.
  intros H.
  destruct (simulate_day_inv _ _ _ _ _ _ _ _ _ H) as (n & g1 & E & -> & -> & _).
  unfold final_state, simulate_day_pnls. rewrite E.
  destruct (day_loop_totals (Z.to_nat (Z.max 1 n)) s (init_day (reset_daily w)) g1)
    as (A & B & C & D).
  cbn [daily_result cumulative_pnl daily_pnl bankroll trades_taken].
  cbn [init_day reset_daily st_wallet w_total_pnl w_daily_pnl w_initial_bankroll
       st_trades_today] in A, B, C, D.
  split.
  - split; [lia|]. split; assumption.
  - rewrite C. repeat split; reflexivity.
Qed.

Lemma run_days_chain n : forall fuel d w s g rs g',
  run_days fuel n d w s g = Returned (rs, g') ->
  (forall r, In r rs -> bankroll r = fadd (w_initial_bankroll w) (cumulative_pnl r))
  /\ (forall r, hd_error rs = Some r ->
        exists ps, hd_error (run_days_pnls fuel n d w s g) = Some ps
          /\ Z.of_nat (List.length ps) = trades_taken r
          /\ cumulative_pnl r = fold_left fadd ps (w_total_pnl w)
          /\ daily_pnl r = fold_left fadd ps f0)
  /\ (forall i rp r, nth_error rs i = Some rp -> nth_error rs (S i) = Some r ->
        exists ps, nth_error (run_days_pnls fuel n d w s g) (S i) = Some ps
          /\ Z.of_nat (List.length ps) = trades_taken r
          /\ cumulative_pnl r = fold_left fadd ps (cumulative_pnl rp)
          /\ daily_pnl r = fold_left fadd ps f0).
Proof.
  induction n as [|n IH]; intros fuel d w s g rs g' H;
    cbn [run_days run_days_pnls] in *.
  - inversion H; subst. split; [intros r []|]. split; [discriminate|].
    intros i rp r Hi. destruct i; discriminate.
  - destruct (simulate_day fuel w s (d + 1) (float_of_Z 6) g)
      as [[[r1 w1] g1]| |] eqn:E; try discriminate.
    cbn [bind] in H.
    destruct (run_days fuel n (d + 1) w1 s g1) as [[rs1 g2]| |] eqn:E2;
      try discriminate.
    cbn [bind] in H. inversion H; subst. clear H.
    destruct (simulate_day_accounts _ _ _ _ _ _ _ _ _ E) as (P & B & T & I).
    destruct (IH _ _ _ _ _ _ _ E2) as (IB & IHd & IP).
    split; [|split].
    + intros r [<-|Hin]; [exact B|]. rewrite <- I. apply IB. exact Hin.
    + intros r Hr. simpl in Hr. inversion Hr; subst.
      eexists. split; [reflexivity | exact P].
    + intros i rp r Hi Hsi. destruct i as [|i].
      * simpl in Hi. inversion Hi; subst. simpl in Hsi.
        rewrite <- T. cbn [nth_error].
        destruct (IHd r) as (ps & Hps & Hrest);
          [destruct rs1; [discriminate | exact Hsi]|].
        exists ps. split; [|exact Hrest].
        destruct (run_days_pnls fuel n (d + 1) w1 s g1); [discriminate|].
        exact Hps.
      * simpl in Hi, Hsi. cbn [nth_error]. eapply IP; eauto.
Qed.

Lemma run_strategies_bankroll fuel days ss : forall g rs g',
  run_strategies fuel days ss g = Returned (rs, g') ->
  forall r, In r rs -> bankroll r = fadd default_bankroll (cumulative_pnl r).
Proof.
  induction ss as [|s ss IH]; intros g rs g' H r Hin; cbn [run_strategies] in H.
  - inversion H; subst. destruct Hin.
  - destruct (run_days fuel (Z.to_nat days) 0 (new_wallet default_bankroll) s g)
      as [[rs1 g1]| |] eqn:E; try discriminate.
    cbn [bind] in H.
    destruct (run_strategies fuel days ss g1) as [[rest g2]| |] eqn:E2;
      try discriminate.
    cbn [bind] in H. inversion H; subst. clear H.
    apply in_app_or in Hin. destruct Hin as [Hin|Hin].
    + destruct (run_days_chain _ _ _ _ _ _ _ _ E) as (B & _). apply (B r Hin).
    + eapply IH; eauto.
Qed.


(** ** The exposure cap *)

(** C10 (as the code has it).  The trades of a day are at most [k] whenever
    the running sum of [k + 1] position sizes, accumulated from 0.0 as the
    loop does, exceeds 150.0; a position size of 100.0 therefore allows at
    most 1 trade a day and one of 50.0 at most 3. *)
Theorem trades_bounded_by_exposure_sums fuel w s d avg g r w' g' :
  simulate_day fuel w s d avg g = Returned (r, w', g') ->
  (forall k : nat,
     fltb max_total_exposure (exposure_after (S k) (position_size_usd s)) = true ->
     trades_taken r <= Z.of_nat k)
  /\ (position_size_usd s = float_of_Z 100 -> trades_taken r <= 1)
  /\ (position_size_usd s = float_of_Z 50 -> trades_taken r <= 3).
Proof.
  intros H.
  destruct (simulate_day_inv _ _ _ _ _ _ _ _ _ H) as (n & g1 & _ & -> & _ & _).
  unfold final_state. cbn [daily_result trades_taken].
  destruct (day_loop_exposure (Z.to_nat (Z.max 1 n)) s (init_day (reset_daily w)) g1 0%nat)
    as (t' & Ht & Hall); try reflexivity.
  { intros j Hj. lia. }
  assert (Hk : forall k : nat,
    fltb max_total_exposure (exposure_after (S k) (position_size_usd s)) = true ->
    st_trades_today (fst (day_loop (Z.to_nat (Z.max 1 n)) s (init_day (reset_daily w)) g1))
      <= Z.of_nat k).
  { intros k Hk. rewrite Ht. destruct (le_lt_dec t' k) as [Hle|Hlt]; [lia|].
    rewrite (Hall k Hlt) in Hk. discriminate. }
  split; [exact Hk|]. split; intros Hs.
  - apply (Hk 1%nat). rewrite Hs. vm_compute. reflexivity.
  - apply (Hk 3%nat). rewrite Hs. vm_compute. reflexivity.
Qed.

End Claims.

(** * Replayed streams: the simulation returns

    On the replaying generator the trade-count loop stops at the latest two
    iterations after the uniform draws are used up, because the running
    product is then 0.0 or NaN and no longer above exp(-lambda).  Every day
    and every run on a replayed stream therefore returns. *)

Lemma tape_exp_values x L : tape_exp x = Some L -> L = exp_m6 \/ L = exp_m8.
Proof.
  unfold tape_exp. destruct (feqb x (float_of_Z (-6))); [intros H; inversion H; auto|].
  destruct (feqb x (float_of_Z (-8))); [intros H; inversion H; auto | discriminate].
Qed.

Lemma product_with_zero_not_above L p :
  L = exp_m6 \/ L = exp_m8 -> fltb L (fmul p f0) = false.
Proof.
  intros [-> | ->]; destruct p as [s|s| |s m e]; try reflexivity; destruct s; reflexivity.
Qed.

Lemma tape_random_shrinks t :
  (List.length (fst (snd (tape_random t))) <= List.length (fst t))%nat.
Proof. unfold tape_random. destruct t as [[|u us] gs]; simpl; lia. Qed.

Lemma tape_gauss_keeps mu sigma t : fst (snd (tape_gauss mu sigma t)) = fst t.
Proof. unfold tape_gauss. destruct t as [us [|x xs]]; reflexivity. Qed.

Lemma tape_edge_shrinks seed a b c t :
  (List.length (fst (snd (simulate_wallet_edge (RT := tape_runtime seed) a b c t)))
   <= List.length (fst t))%nat.
Proof.
  unfold simulate_wallet_edge. cbn [rand_random rand_gauss tape_runtime].
  pose proof (tape_random_shrinks t) as H1.
  destruct (tape_random t) as [u g1].
  pose proof (tape_gauss_keeps f0 (decimal 5 2) g1) as H2.
  destruct (tape_gauss f0 (decimal 5 2) g1) as [j g2].
  cbn [fst snd] in H1, H2.
  destruct (fltb u (fadd a j)).
  - pose proof (tape_gauss_keeps f0 (float_of_Z 10) g2) as H3.
    destruct (tape_gauss f0 (float_of_Z 10) g2) as [n g3].
    cbn [fst snd] in *. rewrite H3, H2. exact H1.
  - pose proof (tape_gauss_keeps f0 (float_of_Z 5) g2) as H3.
    destruct (tape_gauss f0 (float_of_Z 5) g2) as [n g3].
    cbn [fst snd] in *. rewrite H3, H2. exact H1.
Qed.

Lemma tape_poisson_loop_returns seed L :
  L = exp_m6 \/ L = exp_m8 ->
  forall us gs k p,
  exists n g1,
    poisson_loop (RT := tape_runtime seed) (2 + List.length us) L k p (us, gs)
      = Returned (n, g1)
    /\ (List.length (fst g1) <= List.length us)%nat.
Proof.
  intros HL. induction us as [|u us IH]; intros gs k p.
  - cbn [List.length Nat.add poisson_loop].
    destruct (fltb L p).
    + cbn [rand_random tape_runtime tape_random fst snd].
      rewrite (product_with_zero_not_above L p HL).
      do 2 eexists. split; [reflexivity | simpl; lia].
    + do 2 eexists. split; [reflexivity | simpl; lia].
  - cbn [List.length]. change (2 + S (List.length us))%nat
      with (S (2 + List.length us)). cbn [poisson_loop].
    destruct (fltb L p).
    + cbn [rand_random tape_runtime tape_random fst snd].
      destruct (IH gs (k + 1) (fmul p u)) as (n & g1 & E & Hl).
      exists n, g1. split; [exact E | lia].
    + do 2 eexists. split; [reflexivity | simpl; lia].
Qed.

Lemma tape_day_loop_shrinks seed n : forall s st t,
  (List.length (fst (snd (day_loop (RT := tape_runtime seed) n s st t)))
   <= List.length (fst t))%nat.
Proof.
  induction n as [|n IH]; intros s st t.
  - simpl. lia.
  - cbn [day_loop]. destruct (check_caps s st); try (simpl; lia).
    pose proof (tape_edge_shrinks seed default_win_rate default_avg_win
                  default_avg_loss t) as H.
    destruct (simulate_wallet_edge _ _ _ t) as [[pnl b] t1].
    cbn [fst snd] in H.
    specialize (IH s (book_trade s st pnl) t1). lia.
Qed.

Lemma tape_simulate_day_returns seed fuel w s d avg L t :
  tape_exp (fopp avg) = Some L ->
  (2 + List.length (fst t) <= fuel)%nat ->
  exists r w' t',
    simulate_day (RT := tape_runtime seed) fuel w s d avg t = Returned (r, w', t')
    /\ (List.length (fst t') <= List.length (fst t))%nat.
Proof.
  intros HL Hf. destruct t as [us gs].
  destruct (tape_poisson_loop_returns seed L (tape_exp_values _ _ HL) us gs 0 f1)
    as (n & g1 & E & Hl).
  assert (E' : poisson_random (RT := tape_runtime seed) fuel avg (us, gs)
               = Returned (n, g1)).
  { apply (poisson_random_more_fuel (2 + List.length us)); [|exact Hf].
    unfold poisson_random. cbn [math_exp tape_runtime]. rewrite HL. exact E. }
  rewrite (simulate_day_returns _ w s d _ _ _ _ E').
  do 3 eexists. split; [reflexivity|].
  unfold final_state.
  pose proof (tape_day_loop_shrinks seed (Z.to_nat (Z.max 1 n)) s
                (init_day (reset_daily w)) g1).
  cbn [fst snd] in *. lia.
Qed.

Lemma tape_run_days_returns seed fuel n : forall d w s t,
  (2 + List.length (fst t) <= fuel)%nat ->
  exists rs t',
    run_days (RT := tape_runtime seed) fuel n d w s t = Returned (rs, t')
    /\ (List.length (fst t') <= List.length (fst t))%nat.
Proof.
  induction n as [|n IH]; intros d w s t Hf.
  - do 2 eexists. split; [reflexivity | lia].
  - cbn [run_days].
    destruct (tape_simulate_day_returns seed fuel w s (d + 1) (float_of_Z 6) exp_m6 t)
      as (r & w1 & t1 & E & Hl); [vm_compute; reflexivity | exact Hf |].
    rewrite E. cbn [bind].
    destruct (IH (d + 1) w1 s t1 ltac:(lia)) as (rs & t2 & E2 & Hl2).
    rewrite E2. cbn [bind].
    do 2 eexists. split; [reflexivity | lia].
Qed.

Lemma tape_run_strategies_returns seed fuel days ss : forall t,
  (2 + List.length (fst t) <= fuel)%nat ->
  exists rs t',
    run_strategies (RT := tape_runtime seed) fuel days ss t = Returned (rs, t')
    /\ (List.length (fst t') <= List.length (fst t))%nat.
Proof.
  induction ss as [|s ss IH]; intros t Hf.
  - do 2 eexists. split; [reflexivity | lia].
  - cbn [run_strategies].
    destruct (tape_run_days_returns seed fuel (Z.to_nat days) 0
                (new_wallet default_bankroll) s t Hf) as (rs & t1 & E & Hl).
    rewrite E. cbn [bind].
    destruct (IH t1 ltac:(lia)) as (rest & t2 & E2 & Hl2).
    rewrite E2. cbn [bind].
    do 2 eexists. split; [reflexivity | lia].
Qed.

(** [run_simulation] on a replayed stream returns, with fuel two above the
    number of uniform draws of the stream. *)
Lemma tape_run_simulation_returns seed days ambient :
  exists rs,
    run_simulation (RT := tape_runtime seed) (2 + List.length (fst seed)) days ambient
    = Returned rs.
Proof.
  unfold run_simulation. cbn [rand_seed tape_runtime].
  destruct (tape_run_strategies_returns seed (2 + List.length (fst seed)) days
              builtin_strategies seed (Nat.le_refl _)) as (rs & t' & E & _).
  rewrite E. exists rs. reflexivity.
Qed.

(** * The claims on concrete days and runs *)

Lemma flags_exclusive_witness :
  exists r w' g',
    winning_day = Returned (r, w', g')
    /\ max_concurrent_hit r = true
    /\ daily_loss_hit r && max_concurrent_hit r = false.
Proof.
  do 3 eexists. split; [vm_compute; reflexivity|]. split; [reflexivity|].
  eapply (flags_exclusive (RT := tape_runtime ([], [])) 10
           (new_wallet default_bankroll) moderate 1 (float_of_Z 6)
           (seven_trades, [])).
  vm_compute. reflexivity.
Defined.

Lemma trades_within_draw_witness :
  exists r w' g',
    winning_day = Returned (r, w', g')
    /\ exists n g1,
         poisson_random (RT := tape_runtime ([], [])) 10 (float_of_Z 6)
                        (seven_trades, []) = Returned (n, g1)
         /\ 0 <= trades_taken r <= Z.max 1 n
         /\ wins r + losses r = trades_taken r.
Proof.
  do 3 eexists. split; [vm_compute; reflexivity|].
  eapply (trades_within_draw (RT := tape_runtime ([], [])) 10
           (new_wallet default_bankroll) moderate 1 (float_of_Z 6)
           (seven_trades, [])).
  vm_compute. reflexivity.
Defined.

Lemma hit_rate_is_win_fraction_witness :
  exists r w' g',
    losing_day = Returned (r, w', g')
    /\ hit_rate r = int_truediv (wins r) (Z.max (trades_taken r) 1)
    /\ (trades_taken r = 0 -> hit_rate r = f0)
    /\ (0 < trades_taken r -> hit_rate r = int_truediv (wins r) (trades_taken r))
    /\ fleb f0 (hit_rate r) = true
    /\ fleb (hit_rate r) f1 = true.
Proof.
  do 3 eexists. split; [vm_compute; reflexivity|].
  eapply (hit_rate_is_win_fraction (RT := tape_runtime ([], [])) 10
           (new_wallet default_bankroll) conservative 1 (float_of_Z 6)
           losing_draws).
  vm_compute. reflexivity.
Defined.

Lemma outcome_signs_and_counters_witness :
  exists v flag g',
    simulate_wallet_edge (RT := tape_runtime ([], []))
      default_win_rate default_avg_win default_avg_loss ([u09], []) = ((v, flag), g')
    /\ flag = false
    /\ fleb v f0 = true
    /\ st_losses (book_trade conservative (init_day (new_wallet default_bankroll)) v) = 1.
Proof.
  destruct (outcome_signs_and_counters (RT := tape_runtime ([], [])) tape_gauss_not_nan)
    as [H1 H2].
  do 3 eexists. split; [vm_compute; reflexivity|]. split; [reflexivity|]. split.
  - apply (proj2 (H1 default_win_rate default_avg_win default_avg_loss ([u09], [])
                     _ _ _ eq_refl eq_refl eq_refl) eq_refl).
  - apply (proj1 (proj2 (H2 conservative (init_day (new_wallet default_bankroll)) _))).
    vm_compute. reflexivity.
Defined.


(** C7, the claim as worded fails: under [rounding_seed] the Conservative
    strategy ends day 1 at 45.1 and takes 45.2 and 45.3 on day 2; the
    cumulative profit (45.1 + 45.2) + 45.3 is 135.60000000000002, while the
    cumulative profit of day 1 plus the daily profit 45.2 + 45.3 is 135.6. *)
Lemma cumulative_recurrence_fails :
  exists rs rp r,
    rounding_run = Returned rs
    /\ nth_error rs 0 = Some rp /\ nth_error rs 1 = Some r
    /\ strategy rp = strategy r /\ day r = day rp + 1
    /\ feqb (cumulative_pnl r) (fadd (cumulative_pnl rp) (daily_pnl r)) = false.
Proof.
  do 3 eexists. split; [vm_compute; reflexivity|].
  repeat split; vm_compute; reflexivity.
Qed.

Lemma per_wallet_stop_is_silent_witness :
  exists r,
    losing_day = Returned (r, st_wallet after_loss, ([], []))
    /\ trades_taken r = 1
    /\ daily_loss_hit r = false
    /\ max_concurrent_hit r = false.
Proof.
  apply (per_wallet_stop_is_silent (RT := tape_runtime ([], [])) 10
           (new_wallet default_bankroll) conservative 1 (float_of_Z 6)
           losing_draws 7 ([u09], []) 1%nat after_loss ([], []));
    vm_compute; reflexivity.
Defined.

Lemma run_simulation_deterministic_witness :
  exists rs1 rs2,
    run_simulation (RT := tape_runtime rounding_seed) 5 2 ([], []) = Returned rs1
    /\ run_simulation (RT := tape_runtime rounding_seed) 8 2 ([u09], [u05]) = Returned rs2
    /\ rs1 = rs2.
Proof.
  do 2 eexists. split; [vm_compute; reflexivity|]. split; [vm_compute; reflexivity|].
  apply (run_simulation_deterministic (RT := tape_runtime rounding_seed)
           5 8 2 ([], []) ([u09], [u05])); vm_compute; reflexivity.
Defined.

Lemma trades_bounded_by_exposure_sums_witness :
  exists r w' g',
    winning_day = Returned (r, w', g')
    /\ trades_taken r <= Z.of_nat 3
    /\ trades_taken r <= 3.
Proof.
  do 3 eexists. split; [vm_compute; reflexivity|].
  edestruct (trades_bounded_by_exposure_sums (RT := tape_runtime ([], [])) 10
               (new_wallet default_bankroll) moderate 1 (float_of_Z 6)
               (seven_trades, [])) as (Hk & _ & H50); [vm_compute; reflexivity|].
  split.
  - apply (Hk 3%nat). vm_compute. reflexivity.
  - apply H50. reflexivity.
Defined.

(** C10, the claim as worded fails: the position size 21.42857142857143 is
    positive and 150.0 divided by it is below 7, exactly and after rounding,
    yet the running sum of seven such sizes rounds to 150.0, which is not
    above the cap, and seven trades are taken. *)
Lemma exposure_floor_exceeded :
  exists r w' g',
    sevenths_day = Returned (r, w', g')
    /\ fltb f0 (position_size_usd sevenths) = true
    /\ exact_floor_div max_total_exposure (position_size_usd sevenths) = Some 6
    /\ fltb (fdiv max_total_exposure (position_size_usd sevenths)) (float_of_Z 7) = true
    /\ exposure_after 7 (position_size_usd sevenths) = max_total_exposure
    /\ trades_taken r = 7
    /\ ~ trades_taken r <= 6.
Proof.
  do 3 eexists. split; [vm_compute; reflexivity|].
  repeat split; try (vm_compute; reflexivity).
  vm_compute. intros H. apply H. reflexivity.
Qed.

(** * Further properties of the simulation *)

(** ** The trade-count loop *)

Section CountFacts.

Context {G : Type} `{RT : PyRuntime G}.

Lemma poisson_loop_spec fuel : forall L k p g n g1,
  poisson_loop fuel L k p g = Returned (n, g1) ->
  exists m : nat,
    n = k + Z.of_nat m - 1
    /\ g1 = draws_after m g
    /\ fltb L (product_after p m g) = false
    /\ forall j, (j < m)%nat -> fltb L (product_after p j g) = true.
Proof.
  induction fuel as [|fuel IH]; intros L k p g n g1 H; [discriminate|].
  simpl in H. destruct (fltb L p) eqn:E.
  - destruct (rand_random g) as [r g'] eqn:Er.
    destruct (IH _ _ _ _ _ _ H) as (m & Hn & Hg & Hstop & Hgo).
    exists (S m). simpl. rewrite Er. simpl. repeat split.
    + lia.
    + exact Hg.
    + exact Hstop.
    + intros j Hj. destruct j as [|j]; [exact E|].
      simpl. rewrite Er. apply Hgo. lia.
  - inversion H; subst. exists 0%nat. simpl. repeat split.
    + lia.
    + exact E.
    + intros j Hj. lia.
Qed.

Lemma poisson_loop_stops m : forall L k p g,
  fltb L (product_after p m g) = false ->
  exists n g1,
    poisson_loop (S m) L k p g = Returned (n, g1)
    /\ k - 1 <= n <= k + Z.of_nat m - 1.
Proof.
  induction m as [|m IH]; intros L k p g H.
  - simpl in H. simpl. rewrite H. do 2 eexists. split; [reflexivity | lia].
  - cbn [poisson_loop]. destruct (fltb L p) eqn:E.
    + simpl in H. destruct (rand_random g) as [r g'].
      destruct (IH L (k + 1) (fmul p r) g' H) as (n & g1 & En & Hn).
      exists n, g1. split; [exact En | lia].
    + do 2 eexists. split; [reflexivity | lia].
Qed.

(** X1.  What [poisson_random] returns: with [L = exp(-lambda)], the result
    is one less than the number [m] of uniform draws it made; the running
    product of the first [m] draws is the first one that is not above [L];
    the result is -1 when already 1.0 is not above [L]. *)
Theorem poisson_random_first_crossing fuel lambda_ g n g1 :
  poisson_random fuel lambda_ g = Returned (n, g1) ->
  exists L (m : nat),
    math_exp (fopp lambda_) = Some L
    /\ n = Z.of_nat m - 1
    /\ g1 = draws_after m g
    /\ fltb L (product_after f1 m g) = false
    /\ (forall j, (j < m)%nat -> fltb L (product_after f1 j g) = true)
    /\ (n = -1 <-> fltb L f1 = false).
Proof.
  unfold poisson_random. intros H.
  destruct (math_exp (fopp lambda_)) as [L|]; [|discriminate].
  destruct (poisson_loop_spec _ _ _ _ _ _ _ H) as (m & Hn & Hg & Hstop & Hgo).
  exists L, m. repeat split; try assumption; try lia.
  - intros Hm. assert (m = 0%nat) by lia. subst m. exact Hstop.
  - intros H1. destruct m as [|m]; [lia|].
    specialize (Hgo 0%nat ltac:(lia)). simpl in Hgo. congruence.
Qed.

(** X2.  [poisson_random] returns as soon as the running product of some
    number [m] of draws is not above [exp(-lambda)]: [m + 1] iterations are
    enough, and the result is between -1 and [m - 1]. *)
Theorem poisson_random_returns_at_crossing lambda_ L g (m : nat) :
  math_exp (fopp lambda_) = Some L ->
  fltb L (product_after f1 m g) = false ->
  exists n g1,
    poisson_random (S m) lambda_ g = Returned (n, g1)
    /\ -1 <= n <= Z.of_nat m - 1.
Proof.
  intros HL H. unfold poisson_random. rewrite HL.
  destruct (poisson_loop_stops m L 0 f1 g H) as (n & g1 & E & Hn).
  exists n, g1. split; [exact E | lia].
Qed.

End CountFacts.

Lemma poisson_random_first_crossing_witness :
  exists L (m : nat),
    tape_exp (fopp (float_of_Z 6)) = Some L
    /\ 7 = Z.of_nat m - 1
    /\ ([] : list float, [] : list float) = draws_after (RT := tape_runtime ([], [])) m (seven_trades, [])
    /\ fltb L (product_after (RT := tape_runtime ([], [])) f1 m (seven_trades, [])) = false
    /\ (forall j, (j < m)%nat ->
          fltb L (product_after (RT := tape_runtime ([], [])) f1 j (seven_trades, [])) = true)
    /\ (7 = -1 <-> fltb L f1 = false).
Proof.
  apply (poisson_random_first_crossing (RT := tape_runtime ([], [])) 10
           (float_of_Z 6) (seven_trades, []) 7 ([], [])).
  vm_compute. reflexivity.
Defined.

Lemma poisson_random_returns_at_crossing_witness :
  exists n g1,
    poisson_random (RT := tape_runtime ([], [])) 9 (float_of_Z 6) (seven_trades, [])
      = Returned (n, g1)
    /\ -1 <= n <= Z.of_nat 8 - 1.
Proof.
  apply (poisson_random_returns_at_crossing (RT := tape_runtime ([], []))
           (float_of_Z 6) exp_m6 (seven_trades, []) 8%nat); vm_compute; reflexivity.
Defined.

(** ** How a day ends *)

Lemma initial_losses_below_caps :
  fleb f0 (fopp portfolio_daily_cap) = false
  /\ fleb per_wallet_daily_cap (fabs f0) = false.
Proof. split; vm_compute; reflexivity. Qed.

Lemma check_caps_spec s st :
  match check_caps s st with
  | StopDailyLoss =>
      fleb (w_daily_losses (st_wallet st)) (fopp portfolio_daily_cap) = true
  | StopPerWallet =>
      fleb (w_daily_losses (st_wallet st)) (fopp portfolio_daily_cap) = false
      /\ fleb per_wallet_daily_cap (fabs (w_daily_losses (st_wallet st))) = true
  | StopExposure =>
      fleb (w_daily_losses (st_wallet st)) (fopp portfolio_daily_cap) = false
      /\ fleb per_wallet_daily_cap (fabs (w_daily_losses (st_wallet st))) = false
      /\ fltb max_total_exposure
              (fadd (st_current_exposure st) (position_size_usd s)) = true
  | Proceed =>
      fleb (w_daily_losses (st_wallet st)) (fopp portfolio_daily_cap) = false
      /\ fleb per_wallet_daily_cap (fabs (w_daily_losses (st_wallet st))) = false
      /\ fltb max_total_exposure
              (fadd (st_current_exposure st) (position_size_usd s)) = false
  end.
Proof.
  unfold check_caps.
  destruct (fleb _ (fopp portfolio_daily_cap)); [reflexivity|].
  destruct (fleb per_wallet_daily_cap _); [split; reflexivity|].
  destruct (fltb max_total_exposure _); repeat split; reflexivity.
Qed.

Lemma check_caps_init s w :
  check_caps s (init_day (reset_daily w))
  = if fltb max_total_exposure (fadd f0 (position_size_usd s))
    then StopExposure else Proceed.
Proof.
  unfold check_caps. cbn [init_day reset_daily st_wallet w_daily_losses st_current_exposure].
  destruct initial_losses_below_caps as [H1 H2]. rewrite H1, H2. reflexivity.
Qed.

Lemma book_trade_keeps_bankroll s st pnl :
  w_bankroll (st_wallet (book_trade s st pnl)) = w_bankroll (st_wallet st).
Proof. unfold book_trade. destruct (fltb (scaled s pnl) f0); reflexivity. Qed.

(** *** The sign of the realized losses *)

Lemma negative_cases y :
  fltb y f0 = true ->
  y = S754_infinity true \/ exists m e, y = S754_finite true m e.
Proof.
  destruct y as [s|s| |s m e]; try discriminate; destruct s; try discriminate.
  - left. reflexivity.
  - right. exists m, e. reflexivity.
Qed.

Lemma binary_round_aux_sign sx mx ex lx :
  0 <= mx ->
  match binary_round_aux prec emax sx mx ex lx with
  | S754_zero s | S754_infinity s | S754_finite s _ _ => s = sx
  | S754_nan => False
  end.
Proof.
  intros Hm. unfold binary_round_aux.
  destruct (shr_fexp_spec mx ex lx Hm) as [S1 _].
  destruct (shr_fexp prec emax mx ex lx) as [mrs' e']. simpl fst in S1.
  assert (H1 : 0 <= shr_m mrs').
  { rewrite S1. apply Z.div_pos; [lia | apply Z.pow_pos_nonneg; lia]. }
  pose proof (round_nearest_even_range (shr_m mrs') (loc_of_shr_record mrs')) as Hr.
  set (m1r := round_nearest_even (shr_m mrs') (loc_of_shr_record mrs')) in *.
  assert (H1r : 0 <= m1r) by lia.
  destruct (shr_fexp_spec m1r e' loc_Exact H1r) as [S2 _].
  destruct (shr_fexp prec emax m1r e' loc_Exact) as [mrs'' e'']. simpl fst in S2.
  assert (H2 : 0 <= shr_m mrs'').
  { rewrite S2. apply Z.div_pos; [lia | apply Z.pow_pos_nonneg; lia]. }
  destruct (shr_m mrs'') as [|m|m]; [reflexivity | | lia].
  destruct (e'' <=? emax - prec); reflexivity.
Qed.

Lemma fadd_negatives_nonpos mx ex my ey :
  nonpos (fadd (S754_finite true mx ex) (S754_finite true my ey)) = true.
Proof.
  unfold fadd, SFadd.
  set (a := fst (shl_align mx ex (Z.min ex ey))).
  set (b := fst (shl_align my ey (Z.min ex ey))).
  change (cond_Zopp true (Z.pos a) + cond_Zopp true (Z.pos b)) with (Z.neg (a + b)).
  unfold binary_normalize, binary_round.
  destruct (shl_align (a + b) (Z.min ex ey) _) as [mz ez].
  pose proof (binary_round_aux_sign true (Z.pos mz) ez loc_Exact ltac:(lia)) as H.
  destruct (binary_round_aux prec emax true (Z.pos mz) ez loc_Exact);
    try (subst; reflexivity). destruct H.
Qed.

Lemma fadd_nonpos x y :
  nonpos x = true -> fltb y f0 = true -> nonpos (fadd x y) = true.
Proof.
  intros Hx Hy.
  destruct (negative_cases y Hy) as [-> | (my & ey & ->)];
    destruct x as [sx|sx| |sx mx ex]; try discriminate;
    try reflexivity; simpl in Hx; subst; try reflexivity.
  apply fadd_negatives_nonpos.
Qed.

Lemma nonpos_le_zero x : nonpos x = true -> fleb x f0 = true.
Proof.
  destruct x as [s|s| |s m e]; try discriminate; destruct s; try discriminate;
    reflexivity.
Qed.

Lemma book_trade_losses s st pnl :
  nonpos (w_daily_losses (st_wallet st)) = true ->
  0 <= st_losses st ->
  (st_losses st = 0 -> w_daily_losses (st_wallet st) = f0) ->
  nonpos (w_daily_losses (st_wallet (book_trade s st pnl))) = true
  /\ 0 <= st_losses (book_trade s st pnl)
  /\ (st_losses (book_trade s st pnl) = 0 ->
      w_daily_losses (st_wallet (book_trade s st pnl)) = f0).
Proof.
  intros Hn H0 Hz. unfold book_trade.
  destruct (fltb (scaled s pnl) f0) eqn:E; cbn [st_wallet w_daily_losses st_losses].
  - split; [apply fadd_nonpos; assumption|]. split; lia.
  - repeat split; assumption.
Qed.

Section ExitFacts.

Context {G : Type} `{RT : PyRuntime G}.

(** The day loop executes some number [k] of trades and then either has used
    up its iterations or stops at one of the three checks. *)
Lemma day_loop_exit n : forall s st g,
  exists (k : nat) stk,
    (k <= n)%nat
    /\ run_trades k s st g = Some (stk, snd (day_loop n s st g))
    /\ ((k = n /\ fst (day_loop n s st g) = stk)
        \/ ((k < n)%nat
            /\ ((check_caps s stk = StopDailyLoss
                 /\ fst (day_loop n s st g) = flag_daily_loss stk)
                \/ (check_caps s stk = StopPerWallet
                    /\ fst (day_loop n s st g) = stk)
                \/ (check_caps s stk = StopExposure
                    /\ fst (day_loop n s st g) = flag_max_concurrent stk)))).
Proof.
  induction n as [|n IH]; intros s st g.
  - exists 0%nat, st. simpl. split; [lia|]. split; [reflexivity|]. left. auto.
  - cbn [day_loop]. destruct (check_caps s st) eqn:Ec.
    + destruct (simulate_wallet_edge default_win_rate default_avg_win
                  default_avg_loss g) as [[pnl b] g1] eqn:Ee.
      destruct (IH s (book_trade s st pnl) g1) as (k & stk & Hk & Hr & Hc).
      exists (S k), stk. split; [lia|]. split.
      * cbn [run_trades]. rewrite Ec, Ee. exact Hr.
      * destruct Hc as [[-> Hf] | [Hlt Hc]]; [left; auto | right].
        split; [lia | exact Hc].
    + exists 0%nat, st. split; [lia|]. split; [reflexivity|]. right.
      split; [lia|]. left. auto.
    + exists 0%nat, st. split; [lia|]. split; [reflexivity|]. right.
      split; [lia|]. right. left. auto.
    + exists 0%nat, st. split; [lia|]. split; [reflexivity|]. right.
      split; [lia|]. right. right. auto.
Qed.

Lemma run_trades_exposure k : forall s st g st' g' (t : nat),
  run_trades k s st g = Some (st', g') ->
  st_current_exposure st = exposure_after t (position_size_usd s) ->
  st_current_exposure st' = exposure_after (t + k) (position_size_usd s).
Proof.
  induction k as [|k IH]; intros s st g st' g' t H He.
  - simpl in H. inversion H; subst. rewrite Nat.add_0_r. exact He.
  - simpl in H. destruct (check_caps s st); try discriminate.
    draw_trade g pnl g1.
    replace (t + S k)%nat with (S t + k)%nat by lia.
    apply (IH _ _ _ _ _ _ H). rewrite book_trade_exposure, He. reflexivity.
Qed.

Lemma run_trades_wallet k : forall s st g st' g',
  run_trades k s st g = Some (st', g') ->
  w_bankroll (st_wallet st') = w_bankroll (st_wallet st)
  /\ w_initial_bankroll (st_wallet st') = w_initial_bankroll (st_wallet st).
Proof.
  induction k as [|k IH]; intros s st g st' g' H.
  - simpl in H. inversion H; subst. split; reflexivity.
  - simpl in H. destruct (check_caps s st); try discriminate.
    draw_trade g pnl g1.
    destruct (IH _ _ _ _ _ H) as [A B].
    rewrite book_trade_keeps_bankroll in A.
    destruct (book_trade_totals s st pnl) as (_ & _ & C).
    rewrite C in B. split; assumption.
Qed.

Lemma run_trades_losses k : forall s st g st' g',
  run_trades k s st g = Some (st', g') ->
  nonpos (w_daily_losses (st_wallet st)) = true ->
  0 <= st_losses st ->
  (st_losses st = 0 -> w_daily_losses (st_wallet st) = f0) ->
  nonpos (w_daily_losses (st_wallet st')) = true
  /\ 0 <= st_losses st'
  /\ (st_losses st' = 0 -> w_daily_losses (st_wallet st') = f0).
Proof.
  induction k as [|k IH]; intros s st g st' g' H Hn H0 Hz.
  - simpl in H. inversion H; subst. repeat split; assumption.
  - simpl in H. destruct (check_caps s st); try discriminate.
    draw_trade g pnl g1.
    destruct (book_trade_losses s st pnl Hn H0 Hz) as (A & B & C).
    apply (IH _ _ _ _ _ H A B C).
Qed.

(** The state in which [simulate_day] leaves the loop: [k] trades from the
    fresh day state, then one of the four exits. *)
Lemma final_state_exit w s n g1 :
  exists (k : nat) stk,
    (Z.of_nat k <= Z.max 1 n)
    /\ run_trades k s (init_day (reset_daily w)) g1
       = Some (stk, snd (final_state w s n g1))
    /\ st_trades_today stk = Z.of_nat k
    /\ st_daily_loss_hit stk = false
    /\ st_max_concurrent_hit stk = false
    /\ ((Z.of_nat k = Z.max 1 n /\ fst (final_state w s n g1) = stk)
        \/ (Z.of_nat k < Z.max 1 n
            /\ ((check_caps s stk = StopDailyLoss
                 /\ fst (final_state w s n g1) = flag_daily_loss stk)
                \/ (check_caps s stk = StopPerWallet
                    /\ fst (final_state w s n g1) = stk)
                \/ (check_caps s stk = StopExposure
                    /\ fst (final_state w s n g1) = flag_max_concurrent stk)))).
Proof.
  unfold final_state.
  destruct (day_loop_exit (Z.to_nat (Z.max 1 n)) s (init_day (reset_daily w)) g1)
    as (k & stk & Hk & Hr & Hc).
  destruct (run_trades_state _ _ _ _ _ _ Hr) as (A & B & C).
  exists k, stk. split; [lia|]. split; [exact Hr|].
  split; [simpl in C; lia|]. split; [exact A|]. split; [exact B|].
  destruct Hc as [[Hkn Hf] | [Hlt Hc]]; [left | right]; split; try assumption; lia.
Qed.

End ExitFacts.

Section DayExits.

Context {G : Type} `{RT : PyRuntime G}.

(** X3.  A day has no trade exactly when a single position is already above
    the exposure cap ([0.0 + position_size_usd > 150.0]); the day then sets
    [max_concurrent_hit] and leaves the wallet as [reset_daily] made it.  In
    every other case the first trade of the day is executed. *)
Theorem no_trade_only_when_oversize fuel w s d avg g r w' g' :
  simulate_day fuel w s d avg g = Returned (r, w', g') ->
  (trades_taken r = 0
     <-> fltb max_total_exposure (fadd f0 (position_size_usd s)) = true)
  /\ (trades_taken r = 0 ->
      max_concurrent_hit r = true /\ daily_loss_hit r = false
      /\ w' = reset_daily w).
Proof.
  intros H.
  destruct (simulate_day_inv _ _ _ _ _ _ _ _ _ H) as (n & g1 & _ & -> & -> & _).
  unfold final_state.
  destruct (Z.to_nat (Z.max 1 n)) as [|m] eqn:Em; [lia|].
  cbn [day_loop]. rewrite check_caps_init.
  destruct (fltb max_total_exposure (fadd f0 (position_size_usd s))).
  - cbn. split; [split; reflexivity|]. intros _. repeat split.
  - destruct (simulate_wallet_edge default_win_rate default_avg_win
                default_avg_loss g1) as [[pnl b] g2].
    pose proof (day_loop_counts m s (book_trade s (init_day (reset_daily w)) pnl) g2)
      as [Hc _].
    rewrite book_trade_trades in Hc. cbn [init_day st_trades_today] in Hc.
    cbn [daily_result trades_taken].
    split; [split; [lia | discriminate] | lia].
Qed.

(** X4.  When [daily_loss_hit] is set, the realized losses of the day are at
    or below -30.0 in the wallet that is left, at least one trade lost, the
    other flag is clear, and the day took fewer trades than its trade
    count. *)
Theorem daily_loss_flag_means_cap_reached fuel w s d avg g r w' g' :
  simulate_day fuel w s d avg g = Returned (r, w', g') ->
  daily_loss_hit r = true ->
  fleb (w_daily_losses w') (fopp portfolio_daily_cap) = true
  /\ 1 <= losses r
  /\ max_concurrent_hit r = false
  /\ exists n g1,
       poisson_random fuel avg g = Returned (n, g1)
       /\ trades_taken r < Z.max 1 n.
Proof.
  intros H Hflag.
  destruct (simulate_day_inv _ _ _ _ _ _ _ _ _ H) as (n & g1 & E & -> & -> & _).
  destruct (final_state_exit w s n g1) as (k & stk & Hk & Hr & Ht & Hd & Hm & Hc).
  cbn [daily_result daily_loss_hit max_concurrent_hit losses trades_taken] in *.
  destruct Hc as [[_ Hf] | [Hlt [[Hc Hf] | [[Hc Hf] | [Hc Hf]]]]];
    rewrite Hf in *; cbn [flag_daily_loss flag_max_concurrent st_daily_loss_hit
                          st_max_concurrent_hit st_wallet st_losses
                          st_trades_today] in *;
    try congruence.
  pose proof (check_caps_spec s stk) as Hs. rewrite Hc in Hs.
  destruct (run_trades_losses _ _ _ _ _ _ Hr) as (_ & H0 & Hz);
    try reflexivity; try (cbn; lia).
  split; [exact Hs|]. split.
  - destruct (Z.eq_dec (st_losses stk) 0) as [Hz0|Hnz]; [|lia].
    rewrite (Hz Hz0) in Hs.
    destruct initial_losses_below_caps as [Hi _]. congruence.
  - split; [exact Hm|]. exists n, g1. split; [exact E | lia].
Qed.

(** X5.  When [max_concurrent_hit] is set, adding one more position to the
    running sum of the positions taken would be above 150.0, the realized
    losses are below neither loss cap, the other flag is clear, and the day
    took fewer trades than its trade count. *)
Theorem exposure_flag_means_next_position_over_cap fuel w s d avg g r w' g' :
  simulate_day fuel w s d avg g = Returned (r, w', g') ->
  max_concurrent_hit r = true ->
  fltb max_total_exposure
       (exposure_after (S (Z.to_nat (trades_taken r))) (position_size_usd s)) = true
  /\ fleb (w_daily_losses w') (fopp portfolio_daily_cap) = false
  /\ fleb per_wallet_daily_cap (fabs (w_daily_losses w')) = false
  /\ daily_loss_hit r = false
  /\ exists n g1,
       poisson_random fuel avg g = Returned (n, g1)
       /\ trades_taken r < Z.max 1 n.
Proof.
  intros H Hflag.
  destruct (simulate_day_inv _ _ _ _ _ _ _ _ _ H) as (n & g1 & E & -> & -> & _).
  destruct (final_state_exit w s n g1) as (k & stk & Hk & Hr & Ht & Hd & Hm & Hc).
  cbn [daily_result daily_loss_hit max_concurrent_hit losses trades_taken] in *.
  destruct Hc as [[_ Hf] | [Hlt [[Hc Hf] | [[Hc Hf] | [Hc Hf]]]]];
    rewrite Hf in *; cbn [flag_daily_loss flag_max_concurrent st_daily_loss_hit
                          st_max_concurrent_hit st_wallet st_losses
                          st_trades_today] in *;
    try congruence.
  pose proof (check_caps_spec s stk) as Hs. rewrite Hc in Hs.
  destruct Hs as (H1 & H2 & H3).
  pose proof (run_trades_exposure _ _ _ _ _ _ 0%nat Hr eq_refl) as He.
  rewrite Ht, Nat2Z.id. cbn [exposure_after]. simpl in He. rewrite <- He.
  repeat split; try assumption.
  exists n, g1. split; [exact E | lia].
Qed.

(** X6.  A day ends with neither flag set exactly when it took all the trades
    of its trade count or stopped at the per-wallet cap (losses not at or
    below -30.0 but of absolute value at least 20.0). *)
Theorem unflagged_day_ran_out_or_hit_wallet_cap fuel w s d avg g r w' g' :
  simulate_day fuel w s d avg g = Returned (r, w', g') ->
  exists n g1,
    poisson_random fuel avg g = Returned (n, g1)
    /\ ((daily_loss_hit r = false /\ max_concurrent_hit r = false)
        <-> (trades_taken r = Z.max 1 n
             \/ (fleb (w_daily_losses w') (fopp portfolio_daily_cap) = false
                 /\ fleb per_wallet_daily_cap (fabs (w_daily_losses w')) = true))).
Proof.
  intros H.
  destruct (simulate_day_inv _ _ _ _ _ _ _ _ _ H) as (n & g1 & E & -> & -> & _).
  exists n, g1. split; [exact E|].
  destruct (final_state_exit w s n g1) as (k & stk & Hk & Hr & Ht & Hd & Hm & Hc).
  cbn [daily_result daily_loss_hit max_concurrent_hit losses trades_taken] in *.
  destruct Hc as [[Hkn Hf] | [Hlt [[Hc Hf] | [[Hc Hf] | [Hc Hf]]]]];
    rewrite Hf; cbn [flag_daily_loss flag_max_concurrent st_daily_loss_hit
                     st_max_concurrent_hit st_wallet st_trades_today];
    pose proof (check_caps_spec s stk) as Hs.
  - split; [intros _; left; lia | intros _; split; assumption].
  - rewrite Hc in Hs. split; [intros [? _]; discriminate|].
    intros [Heq | [Hn _]]; [lia | congruence].
  - rewrite Hc in Hs. split; [intros _; right; exact Hs | intros _; split; assumption].
  - rewrite Hc in Hs. destruct Hs as (H1 & H2 & H3).
    split; [intros [_ ?]; discriminate|].
    intros [Heq | [_ Hn]]; [lia | congruence].
Qed.

(** X7.  What a day does to the wallet: [initial_bankroll] and the [bankroll]
    attribute keep their values, [total_pnl] and [daily_pnl] are the
    cumulative and daily profit of the record, and daily counters left over
    from before the call play no part, the call on the freshly reset wallet
    giving the same result. *)
Theorem wallet_after_day fuel w s d avg g r w' g' :
  simulate_day fuel w s d avg g = Returned (r, w', g') ->
  w_initial_bankroll w' = w_initial_bankroll w
  /\ w_bankroll w' = w_bankroll w
  /\ w_total_pnl w' = cumulative_pnl r
  /\ w_daily_pnl w' = daily_pnl r
  /\ simulate_day fuel (reset_daily w) s d avg g = Returned (r, w', g').
Proof.
  intros H.
  assert (Hreset : simulate_day fuel (reset_daily w) s d avg g
                   = simulate_day fuel w s d avg g) by reflexivity.
  rewrite Hreset. clear Hreset.
  split; [|split; [|split; [|split; [|exact H]]]];
    destruct (simulate_day_inv _ _ _ _ _ _ _ _ _ H) as (n & g1 & E & -> & -> & _);
    destruct (final_state_exit w s n g1) as (k & stk & _ & Hr & _ & _ & _ & Hc);
    destruct (run_trades_wallet _ _ _ _ _ _ Hr) as [Hb Hi];
    cbn [init_day reset_daily st_wallet w_bankroll w_initial_bankroll] in Hb, Hi;
    try reflexivity;
    destruct Hc as [[_ Hf] | [_ [[_ Hf] | [[_ Hf] | [_ Hf]]]]];
    rewrite Hf; assumption.
Qed.

(** X8.  The realized losses of the day are never above zero and never NaN,
    whatever the trade outcomes are; they are +0.0 when no trade of the day
    lost. *)
Theorem realized_losses_never_positive fuel w s d avg g r w' g' :
  simulate_day fuel w s d avg g = Returned (r, w', g') ->
  fleb (w_daily_losses w') f0 = true
  /\ 0 <= losses r
  /\ (losses r = 0 -> w_daily_losses w' = f0).
Proof.
  intros H.
  destruct (simulate_day_inv _ _ _ _ _ _ _ _ _ H) as (n & g1 & E & -> & -> & _).
  destruct (final_state_exit w s n g1) as (k & stk & _ & Hr & _ & _ & _ & Hc).
  destruct (run_trades_losses _ _ _ _ _ _ Hr) as (A & B & C);
    try reflexivity; try (cbn; lia).
  cbn [daily_result losses].
  destruct Hc as [[_ Hf] | [_ [[_ Hf] | [[_ Hf] | [_ Hf]]]]];
    rewrite Hf; cbn [flag_daily_loss flag_max_concurrent st_wallet st_losses];
    (split; [apply nonpos_le_zero; exact A | split; assumption]).
Qed.

End DayExits.

Lemma no_trade_only_when_oversize_witness :
  exists r w' g',
    oversize_day = Returned (r, w', g')
    /\ (trades_taken r = 0
          <-> fltb max_total_exposure (fadd f0 (position_size_usd oversize)) = true)
    /\ (trades_taken r = 0 ->
        max_concurrent_hit r = true /\ daily_loss_hit r = false
        /\ w' = reset_daily (new_wallet default_bankroll)).
Proof.
  do 3 eexists. split; [vm_compute; reflexivity|].
  eapply (no_trade_only_when_oversize (RT := tape_runtime ([], [])) 10
            (new_wallet default_bankroll) oversize 1 (float_of_Z 6)
            (seven_trades, [])).
  vm_compute. reflexivity.
Defined.

Lemma daily_loss_flag_means_cap_reached_witness :
  exists r w' g',
    capped_day = Returned (r, w', g')
    /\ fleb (w_daily_losses w') (fopp portfolio_daily_cap) = true
    /\ 1 <= losses r
    /\ max_concurrent_hit r = false
    /\ exists n g1,
         poisson_random (RT := tape_runtime ([], [])) 10 (float_of_Z 6) losing_draws
           = Returned (n, g1)
         /\ trades_taken r < Z.max 1 n.
Proof.
  do 3 eexists. split; [vm_compute; reflexivity|].
  eapply (daily_loss_flag_means_cap_reached (RT := tape_runtime ([], [])) 10
            (new_wallet default_bankroll) moderate 1 (float_of_Z 6) losing_draws);
    vm_compute; reflexivity.
Defined.

Lemma exposure_flag_means_next_position_over_cap_witness :
  exists r w' g',
    winning_day = Returned (r, w', g')
    /\ fltb max_total_exposure
            (exposure_after (S (Z.to_nat (trades_taken r))) (position_size_usd moderate))
       = true
    /\ fleb (w_daily_losses w') (fopp portfolio_daily_cap) = false
    /\ fleb per_wallet_daily_cap (fabs (w_daily_losses w')) = false
    /\ daily_loss_hit r = false
    /\ exists n g1,
         poisson_random (RT := tape_runtime ([], [])) 10 (float_of_Z 6)
                        (seven_trades, []) = Returned (n, g1)
         /\ trades_taken r < Z.max 1 n.
Proof.
  do 3 eexists. split; [vm_compute; reflexivity|].
  eapply (exposure_flag_means_next_position_over_cap (RT := tape_runtime ([], [])) 10
            (new_wallet default_bankroll) moderate 1 (float_of_Z 6)
            (seven_trades, []));
    vm_compute; reflexivity.
Defined.

Lemma unflagged_day_ran_out_or_hit_wallet_cap_witness :
  exists r w' g',
    losing_day = Returned (r, w', g')
    /\ exists n g1,
         poisson_random (RT := tape_runtime ([], [])) 10 (float_of_Z 6) losing_draws
           = Returned (n, g1)
         /\ ((daily_loss_hit r = false /\ max_concurrent_hit r = false)
             <-> (trades_taken r = Z.max 1 n
                  \/ (fleb (w_daily_losses w') (fopp portfolio_daily_cap) = false
                      /\ fleb per_wallet_daily_cap (fabs (w_daily_losses w')) = true))).
Proof.
  do 3 eexists. split; [vm_compute; reflexivity|].
  eapply (unflagged_day_ran_out_or_hit_wallet_cap (RT := tape_runtime ([], [])) 10
            (new_wallet default_bankroll) conservative 1 (float_of_Z 6) losing_draws).
  vm_compute. reflexivity.
Defined.

Lemma wallet_after_day_witness :
  exists r w' g',
    winning_day = Returned (r, w', g')
    /\ w_initial_bankroll w' = default_bankroll
    /\ w_bankroll w' = default_bankroll
    /\ w_total_pnl w' = cumulative_pnl r
    /\ w_daily_pnl w' = daily_pnl r
    /\ simulate_day (RT := tape_runtime ([], [])) 10
         (reset_daily (new_wallet default_bankroll)) moderate 1 (float_of_Z 6)
         (seven_trades, []) = Returned (r, w', g').
Proof.
  do 3 eexists. split; [vm_compute; reflexivity|].
  eapply (wallet_after_day (RT := tape_runtime ([], [])) 10
            (new_wallet default_bankroll) moderate 1 (float_of_Z 6)
            (seven_trades, [])).
  vm_compute. reflexivity.
Defined.

Lemma realized_losses_never_positive_witness :
  exists r w' g',
    capped_day = Returned (r, w', g')
    /\ fleb (w_daily_losses w') f0 = true
    /\ 0 <= losses r
    /\ (losses r = 0 -> w_daily_losses w' = f0).
Proof.
  do 3 eexists. split; [vm_compute; reflexivity|].
  eapply (realized_losses_never_positive (RT := tape_runtime ([], [])) 10
            (new_wallet default_bankroll) moderate 1 (float_of_Z 6) losing_draws).
  vm_compute. reflexivity.
Defined.

(** ** The layout of a run *)

Section RunFacts.

Context {G : Type} `{RT : PyRuntime G}.

Lemma simulate_day_labels fuel w s d avg g r w' g' :
  simulate_day fuel w s d avg g = Returned (r, w', g') ->
  day r = d /\ strategy r = name s
  /\ daily_loss_hit r && max_concurrent_hit r = false.
Proof.
  intros H.
  destruct (simulate_day_inv _ _ _ _ _ _ _ _ _ H) as (n & g1 & _ & -> & _ & _).
  split; [reflexivity|]. split; [reflexivity|].
  unfold final_state. cbn [daily_result daily_loss_hit max_concurrent_hit].
  apply day_loop_flags; reflexivity.
Qed.

Lemma run_days_layout n : forall fuel d w s g rs g',
  run_days fuel n d w s g = Returned (rs, g') ->
  List.length rs = n
  /\ (forall i r, nth_error rs i = Some r ->
        day r = d + Z.of_nat i + 1 /\ strategy r = name s
        /\ daily_loss_hit r && max_concurrent_hit r = false).
Proof.
  induction n as [|n IH]; intros fuel d w s g rs g' H; cbn [run_days] in H.
  - inversion H; subst. split; [reflexivity|]. intros i r Hi. destruct i; discriminate.
  - destruct (simulate_day fuel w s (d + 1) (float_of_Z 6) g)
      as [[[r1 w1] g1]| |] eqn:E; try discriminate.
    cbn [bind] in H.
    destruct (run_days fuel n (d + 1) w1 s g1) as [[rs1 g2]| |] eqn:E2;
      try discriminate.
    cbn [bind] in H. inversion H; subst. clear H.
    destruct (simulate_day_labels _ _ _ _ _ _ _ _ _ E) as (Hd & Hs & Hf).
    destruct (IH _ _ _ _ _ _ _ E2) as (Hl & Hn).
    split; [simpl; lia|].
    intros i r Hi. destruct i as [|i].
    + simpl in Hi. inversion Hi; subst. repeat split; try assumption. lia.
    + simpl in Hi. destruct (Hn i r Hi) as (A & B & C).
      repeat split; try assumption. lia.
Qed.

Lemma run_strategies_layout ss : forall fuel days g rs g',
  run_strategies fuel days ss g = Returned (rs, g') ->
  List.length rs = (List.length ss * Z.to_nat days)%nat
  /\ (forall i r, nth_error rs i = Some r ->
        exists (q j : nat) s',
          i = (q * Z.to_nat days + j)%nat
          /\ (j < Z.to_nat days)%nat
          /\ nth_error ss q = Some s'
          /\ day r = Z.of_nat j + 1
          /\ strategy r = name s'
          /\ daily_loss_hit r && max_concurrent_hit r = false
          /\ (j = 0%nat -> cumulative_pnl r = daily_pnl r)).
Proof.
  induction ss as [|s ss IH]; intros fuel days g rs g' H; cbn [run_strategies] in H.
  - inversion H; subst. split; [reflexivity|]. intros i r Hi. destruct i; discriminate.
  - destruct (run_days fuel (Z.to_nat days) 0 (new_wallet default_bankroll) s g)
      as [[rs1 g1]| |] eqn:E; try discriminate.
    cbn [bind] in H.
    destruct (run_strategies fuel days ss g1) as [[rest g2]| |] eqn:E2;
      try discriminate.
    cbn [bind] in H. inversion H; subst. clear H.
    destruct (run_days_layout _ _ _ _ _ _ _ _ E) as (Hl & Hn).
    destruct (run_days_chain _ _ _ _ _ _ _ _ E) as (_ & Hhd & _).
    destruct (IH _ _ _ _ _ E2) as (Hl2 & Hn2).
    split; [rewrite length_app; simpl; lia|].
    intros i r Hi.
    destruct (Nat.lt_ge_cases i (List.length rs1)) as [Hlt|Hge].
    + rewrite nth_error_app1 in Hi by exact Hlt.
      destruct (Hn i r Hi) as (A & B & C).
      exists 0%nat, i, s. repeat split; try assumption; try lia.
      intros ->. destruct rs1 as [|r1 rs1]; [discriminate|].
      simpl in Hi. inversion Hi; subst.
      destruct (Hhd r eq_refl) as (ps & _ & _ & Hc & Hdp).
      cbn [new_wallet w_total_pnl] in Hc. congruence.
    + rewrite nth_error_app2 in Hi by exact Hge.
      destruct (Hn2 _ r Hi) as (q & j & s' & Hq & Hj & Hs & Hrest).
      exists (S q), j, s'. split; [simpl; lia|]. split; [exact Hj|].
      split; [exact Hs | exact Hrest].
Qed.

(** X9.  [run_simulation] returns one record per strategy and day: three
    blocks of [days] records in the order of the strategy list, the record at
    position [q * days + j] carrying the name of strategy [q] and the day
    number [j + 1]; for [days <= 0] the list is empty. *)
Theorem run_simulation_layout fuel days ambient rs :
  run_simulation fuel days ambient = Returned rs ->
  List.length rs = (3 * Z.to_nat days)%nat
  /\ (days <= 0 -> rs = [])
  /\ (forall i r, nth_error rs i = Some r ->
        exists (q j : nat) s',
          i = (q * Z.to_nat days + j)%nat
          /\ (j < Z.to_nat days)%nat
          /\ nth_error builtin_strategies q = Some s'
          /\ day r = Z.of_nat j + 1
          /\ strategy r = name s').
Proof.
  unfold run_simulation. intros H.
  destruct (run_strategies fuel days builtin_strategies (rand_seed 42))
    as [[l g]| |] eqn:E; try discriminate.
  cbn [bind] in H. inversion H; subst. clear H.
  destruct (run_strategies_layout _ _ _ _ _ _ E) as (Hl & Hn).
  split; [exact Hl|]. split.
  - intros Hd. destruct rs as [|r rs]; [reflexivity|].
    simpl in Hl. lia.
  - intros i r Hi. destruct (Hn i r Hi) as (q & j & s' & A & B & C & D & F & _).
    exists q, j, s'. repeat split; assumption.
Qed.

(** X10.  Every strategy of a run starts from a fresh wallet: in each record
    of day 1 the cumulative profit is the daily profit, both being the
    scaled results of that day added one by one to 0.0. *)
Theorem first_day_cumulative_is_daily fuel days ambient rs :
  run_simulation fuel days ambient = Returned rs ->
  forall r, In r rs -> day r = 1 -> cumulative_pnl r = daily_pnl r.
Proof.
  unfold run_simulation. intros H r Hin Hday.
  destruct (run_strategies fuel days builtin_strategies (rand_seed 42))
    as [[l g]| |] eqn:E; try discriminate.
  cbn [bind] in H. inversion H; subst. clear H.
  destruct (run_strategies_layout _ _ _ _ _ _ E) as (_ & Hn).
  apply In_nth_error in Hin. destruct Hin as [i Hi].
  destruct (Hn i r Hi) as (q & j & s' & _ & _ & _ & D & _ & _ & Hfirst).
  apply Hfirst. lia.
Qed.

End RunFacts.

Lemma run_simulation_layout_witness :
  exists rs,
    rounding_run = Returned rs
    /\ List.length rs = (3 * Z.to_nat 2)%nat
    /\ (2 <= 0 -> rs = [])
    /\ (forall i r, nth_error rs i = Some r ->
          exists (q j : nat) s',
            i = (q * Z.to_nat 2 + j)%nat
            /\ (j < Z.to_nat 2)%nat
            /\ nth_error builtin_strategies q = Some s'
            /\ day r = Z.of_nat j + 1
            /\ strategy r = name s').
Proof.
  eexists. split; [vm_compute; reflexivity|].
  apply (run_simulation_layout (RT := tape_runtime rounding_seed) 5 2 ([], [])).
  vm_compute. reflexivity.
Defined.

Lemma first_day_cumulative_is_daily_witness :
  exists rs r,
    rounding_run = Returned rs
    /\ nth_error rs 2 = Some r
    /\ day r = 1
    /\ cumulative_pnl r = daily_pnl r.
Proof.
  do 2 eexists. split; [vm_compute; reflexivity|].
  split; [reflexivity|]. split; [reflexivity|].
  eapply (first_day_cumulative_is_daily (RT := tape_runtime rounding_seed) 5 2 ([], [])).
  - vm_compute. reflexivity.
  - right. right. left. reflexivity.
  - reflexivity.
Defined.

(** ** Accumulation over the runs of [run_simulation] *)

Section RunAccumulation.

Context {G : Type} `{RT : PyRuntime G}.

Lemma run_days_pnls_length n : forall fuel d w s g rs g',
  run_days fuel n d w s g = Returned (rs, g') ->
  List.length (run_days_pnls fuel n d w s g) = List.length rs.
Proof.
  induction n as [|n IH]; intros fuel d w s g rs g' H;
    cbn [run_days run_days_pnls] in *.
  - inversion H; subst. reflexivity.
  - destruct (simulate_day fuel w s (d + 1) (float_of_Z 6) g)
      as [[[r1 w1] g1]| |] eqn:E; try discriminate.
    cbn [bind] in H.
    destruct (run_days fuel n (d + 1) w1 s g1) as [[rs1 g2]| |] eqn:E2;
      try discriminate.
    cbn [bind] in H. inversion H; subst. clear H.
    cbn [List.length]. f_equal. eapply IH. exact E2.
Qed.

Lemma run_strategies_chain ss : forall fuel days g rs g',
  run_strategies fuel days ss g = Returned (rs, g') ->
  List.length (run_strategies_pnls fuel days ss g) = List.length rs
  /\ forall i r, nth_error rs i = Some r ->
       exists ps,
         nth_error (run_strategies_pnls fuel days ss g) i = Some ps
         /\ Z.of_nat (List.length ps) = trades_taken r
         /\ daily_pnl r = fold_left fadd ps f0
         /\ (day r = 1 -> cumulative_pnl r = fold_left fadd ps f0)
         /\ (1 < day r ->
             exists j rp,
               i = S j /\ nth_error rs j = Some rp
               /\ strategy rp = strategy r /\ day rp = day r - 1
               /\ cumulative_pnl r = fold_left fadd ps (cumulative_pnl rp)).
Proof.
  induction ss as [|s ss IH]; intros fuel days g rs g' H;
    cbn [run_strategies run_strategies_pnls] in *.
  - inversion H; subst. split; [reflexivity|].
    intros i r Hi. destruct i; discriminate.
  - destruct (run_days fuel (Z.to_nat days) 0 (new_wallet default_bankroll) s g)
      as [[rs1 g1]| |] eqn:E; try discriminate.
    cbn [bind] in H.
    destruct (run_strategies fuel days ss g1) as [[rest g2]| |] eqn:E2;
      try discriminate.
    cbn [bind] in H. inversion H; subst. clear H.
    pose proof (run_days_pnls_length _ _ _ _ _ _ _ _ E) as Hlen.
    destruct (run_days_layout _ _ _ _ _ _ _ _ E) as (_ & Hlay).
    destruct (run_days_chain _ _ _ _ _ _ _ _ E) as (_ & Hhd & Hch).
    destruct (IH _ _ _ _ _ E2) as (Hlen2 & Hrest).
    split; [rewrite !length_app; lia|].
    intros i r Hi.
    destruct (Nat.lt_ge_cases i (List.length rs1)) as [Hlt|Hge].
    + rewrite nth_error_app1 in Hi by exact Hlt.
      rewrite nth_error_app1 by (rewrite Hlen; exact Hlt).
      destruct (Hlay i r Hi) as (Hday & Hname & _).
      destruct i as [|j].
      * destruct (Hhd r) as (ps & Hps & A & B & C).
        { destruct rs1; [discriminate | exact Hi]. }
        cbn [new_wallet w_total_pnl] in B.
        exists ps. split.
        { destruct (run_days_pnls fuel (Z.to_nat days) 0
                                  (new_wallet default_bankroll) s g);
            [discriminate | exact Hps]. }
        split; [exact A|]. split; [exact C|]. split.
        -- intros _. exact B.
        -- intros Hd. exfalso. simpl in Hday. lia.
      * destruct (nth_error rs1 j) as [rp|] eqn:Ej;
          [|apply nth_error_None in Ej; lia].
        destruct (Hch j rp r Ej Hi) as (ps & Hps & A & B & C).
        exists ps. split; [exact Hps|]. split; [exact A|]. split; [exact C|].
        split.
        -- intros Hd. exfalso. lia.
        -- intros _. exists j, rp. split; [reflexivity|]. split.
           { rewrite nth_error_app1 by lia. exact Ej. }
           destruct (Hlay j rp Ej) as (Hday' & Hname' & _).
           split; [congruence|]. split; [lia | exact B].
    + rewrite nth_error_app2 in Hi by exact Hge.
      rewrite nth_error_app2 by (rewrite Hlen; exact Hge). rewrite Hlen.
      destruct (Hrest _ r Hi) as (ps & Hps & A & B & C & D).
      exists ps. split; [exact Hps|]. split; [exact A|]. split; [exact B|].
      split; [exact C|].
      intros Hd. destruct (D Hd) as (j & rp & Hj & Hn & Hsame & Hdy & Hc).
      exists (List.length rs1 + j)%nat, rp. split; [lia|]. split.
      { rewrite nth_error_app2 by lia.
        replace (List.length rs1 + j - List.length rs1)%nat with j by lia.
        exact Hn. }
      repeat split; assumption.
Qed.

(** C7 (as the code has it).  In a strategy run, the cumulative profit of a
    day is the cumulative profit of the day before with the scaled results of
    the day's trades added one by one in execution order, and the daily
    profit is the same results added one by one to 0.0; on the first day the
    sum starts from the total of the wallet the run is given, which is 0.0
    for every strategy of [run_simulation].  The results of a day are those
    of its trades: entry [k] is the scaled outcome of the call of
    [simulate_wallet_edge] made after [k] trades.  Every record has
    [bankroll = initial bankroll + cumulative_pnl], which is
    [1000.0 + cumulative_pnl] in [run_simulation]. *)
Theorem strategy_run_accumulates :
  (forall fuel n d w s g rs g',
     run_days fuel n d w s g = Returned (rs, g') ->
     (forall r, In r rs ->
        bankroll r = fadd (w_initial_bankroll w) (cumulative_pnl r))
     /\ (forall r, nth_error rs 0 = Some r ->
           exists ps,
             nth_error (run_days_pnls fuel n d w s g) 0 = Some ps
             /\ Z.of_nat (List.length ps) = trades_taken r
             /\ cumulative_pnl r = fold_left fadd ps (w_total_pnl w)
             /\ daily_pnl r = fold_left fadd ps f0)
     /\ (forall i rp r,
           nth_error rs i = Some rp -> nth_error rs (S i) = Some r ->
           exists ps,
             nth_error (run_days_pnls fuel n d w s g) (S i) = Some ps
             /\ Z.of_nat (List.length ps) = trades_taken r
             /\ cumulative_pnl r = fold_left fadd ps (cumulative_pnl rp)
             /\ daily_pnl r = fold_left fadd ps f0))
  /\ (forall n s st g k x,
        nth_error (day_pnls n s st g) k = Some x ->
        exists st_k g_k pnl is_win g_k',
          run_trades k s st g = Some (st_k, g_k)
          /\ simulate_wallet_edge default_win_rate default_avg_win
                                  default_avg_loss g_k
             = ((pnl, is_win), g_k')
          /\ x = scaled s pnl)
  /\ (forall fuel days ambient rs,
        run_simulation fuel days ambient = Returned rs ->
        (forall r, In r rs ->
           bankroll r = fadd default_bankroll (cumulative_pnl r))
        /\ (forall i r, nth_error rs i = Some r ->
              exists ps,
                nth_error (run_simulation_pnls fuel days) i = Some ps
                /\ Z.of_nat (List.length ps) = trades_taken r
                /\ daily_pnl r = fold_left fadd ps f0
                /\ (day r = 1 -> cumulative_pnl r = fold_left fadd ps f0)
                /\ (1 < day r ->
                    exists j rp,
                      i = S j /\ nth_error rs j = Some rp
                      /\ strategy rp = strategy r /\ day rp = day r - 1
                      /\ cumulative_pnl r
                         = fold_left fadd ps (cumulative_pnl rp)))).
Proof.
  split; [|split].
  - intros fuel n d w s g rs g' H.
    destruct (run_days_chain _ _ _ _ _ _ _ _ H) as (B & Hhd & P).
    split; [exact B|]. split; [|exact P].
    intros r Hr. destruct rs as [|r0 rs]; [discriminate|].
    cbn [nth_error] in Hr. inversion Hr; subst.
    destruct (Hhd r eq_refl) as (ps & Hps & Hrest).
    exists ps. split; [|exact Hrest].
    destruct (run_days_pnls fuel n d w s g); [discriminate | exact Hps].
  - intros n s st g k x. apply day_pnls_entries.
  - intros fuel days ambient rs H. unfold run_simulation in H.
    destruct (run_strategies fuel days builtin_strategies (rand_seed 42))
      as [[l g]| |] eqn:E; try discriminate.
    cbn [bind] in H. inversion H; subst. split.
    + eapply run_strategies_bankroll; eauto.
    + unfold run_simulation_pnls.
      apply (proj2 (run_strategies_chain _ _ _ _ _ _ E)).
Qed.

End RunAccumulation.

Lemma strategy_run_accumulates_witness :
  (exists rs g' rp r,
     run_days (RT := tape_runtime rounding_seed) 5 2 0 (new_wallet default_bankroll)
              conservative rounding_seed = Returned (rs, g')
     /\ nth_error rs 0 = Some rp /\ nth_error rs 1 = Some r
     /\ exists ps,
          nth_error (run_days_pnls (RT := tape_runtime rounding_seed) 5 2 0
                                   (new_wallet default_bankroll) conservative
                                   rounding_seed) 1 = Some ps
          /\ Z.of_nat (List.length ps) = trades_taken r
          /\ cumulative_pnl r = fold_left fadd ps (cumulative_pnl rp)
          /\ daily_pnl r = fold_left fadd ps f0)
  /\ (exists x st_k g_k pnl is_win g_k',
        nth_error (day_pnls (RT := tape_runtime ([], [])) 7 conservative
                            (init_day (new_wallet default_bankroll))
                            ([], [])) 1 = Some x
        /\ run_trades (RT := tape_runtime ([], [])) 1 conservative
                      (init_day (new_wallet default_bankroll)) ([], [])
           = Some (st_k, g_k)
        /\ simulate_wallet_edge (RT := tape_runtime ([], []))
                                default_win_rate default_avg_win default_avg_loss g_k
           = ((pnl, is_win), g_k')
        /\ x = scaled conservative pnl)
  /\ (exists rs r ps rp,
        rounding_run = Returned rs /\ nth_error rs 1 = Some r
        /\ bankroll r = fadd default_bankroll (cumulative_pnl r)
        /\ nth_error (run_simulation_pnls (RT := tape_runtime rounding_seed) 5 2) 1
           = Some ps
        /\ nth_error rs 0 = Some rp
        /\ cumulative_pnl r = fold_left fadd ps (cumulative_pnl rp)).
Proof.
  destruct (strategy_run_accumulates (RT := tape_runtime rounding_seed))
    as (HA & _ & HB).
  destruct (strategy_run_accumulates (RT := tape_runtime ([], [])))
    as (_ & HC & _).
  split; [|split].
  - do 4 eexists. split; [vm_compute; reflexivity|].
    split; [reflexivity|]. split; [reflexivity|].
    edestruct (HA 5%nat 2%nat 0 (new_wallet default_bankroll) conservative
                  rounding_seed) as (_ & _ & HP); [vm_compute; reflexivity|].
    eapply (HP 0%nat); reflexivity.
  - eexists.
    edestruct (HC 7%nat conservative (init_day (new_wallet default_bankroll))
                  ([], []) 1%nat)
      as (st_k & g_k & pnl & b & g_k' & A & B & C); [vm_compute; reflexivity|].
    exists st_k, g_k, pnl, b, g_k'. split; [vm_compute; reflexivity|].
    split; [exact A|]. split; [exact B | exact C].
  - edestruct (HB 5%nat 2 ([], [])) as (Hbank & Hchain); [vm_compute; reflexivity|].
    edestruct (Hchain 1%nat) as (ps & Hps & _ & _ & _ & Hprev); [reflexivity|].
    edestruct Hprev as (j & rp & Hj & Hrp & _ & _ & Hc); [vm_compute; reflexivity|].
    do 2 eexists. exists ps, rp.
    split; [vm_compute; reflexivity|]. split; [reflexivity|].
    split; [apply Hbank; right; left; reflexivity|].
    split; [exact Hps|].
    split; [inversion Hj; subst j; exact Hrp | exact Hc].
Defined.

(** ** The analyzer's grouping *)

Lemma group_of_append k r : forall gs,
  group_of k (group_append gs r)
  = if String.eqb k (strategy r)
    then Some (match group_of k gs with Some l => l ++ [r] | None => [r] end)
    else group_of k gs.
Proof.
  induction gs as [|[k' l] gs IH]; cbn [group_append group_of].
  - destruct (String.eqb_spec (strategy r) k) as [->|Hne].
    + rewrite String.eqb_refl. reflexivity.
    + destruct (String.eqb_spec k (strategy r)); [congruence | reflexivity].
  - destruct (String.eqb_spec k' (strategy r)) as [->|Hne]; cbn [group_of].
    + destruct (String.eqb_spec (strategy r) k) as [->|Hne].
      * rewrite String.eqb_refl. reflexivity.
      * destruct (String.eqb_spec k (strategy r)); [congruence | reflexivity].
    + destruct (String.eqb_spec k' k) as [->|Hne2].
      * destruct (String.eqb_spec k (strategy r)); [congruence | reflexivity].
      * exact IH.
Qed.

Lemma records_of_cons k r rs :
  records_of k (r :: rs)
  = if String.eqb k (strategy r) then r :: records_of k rs else records_of k rs.
Proof. reflexivity. Qed.

Lemma group_of_fold k : forall rs gs,
  group_of k (fold_left group_append rs gs)
  = match records_of k rs, group_of k gs with
    | [], g => g
    | l, Some l0 => Some (l0 ++ l)
    | l, None => Some l
    end.
Proof.
  induction rs as [|r rs IH]; intros gs.
  - cbn. destruct (group_of k gs); reflexivity.
  - cbn [fold_left]. rewrite IH, group_of_append, records_of_cons.
    destruct (String.eqb k (strategy r)); [|reflexivity].
    destruct (records_of k rs) as [|x l]; destruct (group_of k gs) as [l0|];
      try reflexivity.
    cbv zeta. rewrite <- app_assoc. reflexivity.
Qed.

Lemma group_append_keys r : forall gs,
  map fst (group_append gs r)
  = if existsb (fun k => String.eqb k (strategy r)) (map fst gs)
    then map fst gs else map fst gs ++ [strategy r].
Proof.
  induction gs as [|[k l] gs IH]; cbn [group_append map existsb fst].
  - reflexivity.
  - destruct (String.eqb k (strategy r)); cbn [map fst orb]; [reflexivity|].
    rewrite IH. destruct (existsb _ (map fst gs)); reflexivity.
Qed.

Lemma group_append_NoDup r gs :
  NoDup (map fst gs) -> NoDup (map fst (group_append gs r)).
Proof.
  intros H. rewrite group_append_keys.
  destruct (existsb (fun k => String.eqb k (strategy r)) (map fst gs)) eqn:E;
    [exact H|].
  apply NoDup_app; [exact H | constructor; [intros [] | constructor] |].
  intros k Hin [Hk|[]]. subst k.
  assert (existsb (fun k0 => String.eqb k0 (strategy r)) (map fst gs) = true).
  { apply existsb_exists. exists (strategy r).
    split; [exact Hin | apply String.eqb_refl]. }
  congruence.
Qed.

Lemma group_fold_NoDup : forall rs gs,
  NoDup (map fst gs) -> NoDup (map fst (fold_left group_append rs gs)).
Proof.
  induction rs as [|r rs IH]; intros gs H; cbn [fold_left]; [exact H|].
  apply IH. apply group_append_NoDup. exact H.
Qed.

Lemma group_of_In k l : forall gs,
  NoDup (map fst gs) -> (In (k, l) gs <-> group_of k gs = Some l).
Proof.
  induction gs as [|[k' l'] gs IH]; intros Hnd; cbn [group_of].
  - split; [intros [] | discriminate].
  - inversion Hnd as [|? ? Hnot Hnd']; subst.
    destruct (String.eqb_spec k' k) as [->|Hne].
    + split.
      * intros [Heq|Hin]; [inversion Heq; reflexivity|].
        exfalso. apply Hnot. apply (in_map fst) in Hin. exact Hin.
      * intros Heq. inversion Heq. left. reflexivity.
    + rewrite <- (IH Hnd'). split.
      * intros [Heq|Hin]; [inversion Heq; congruence | exact Hin].
      * intros Hin. right. exact Hin.
Qed.

Lemma group_keys_NoDup results : NoDup (map fst (group_by_strategy results)).
Proof. apply group_fold_NoDup. constructor. Qed.

Lemma group_members results k l :
  In (k, l) (group_by_strategy results)
  <-> (l = records_of k results /\ l <> []).
Proof.
  rewrite (group_of_In k l _ (group_keys_NoDup results)). unfold group_by_strategy.
  rewrite group_of_fold. cbn [group_of].
  destruct (records_of k results) as [|x xs].
  - split; [discriminate | intros [-> Hne]; congruence].
  - split.
    + intros H. inversion H. split; [reflexivity | discriminate].
    + intros [-> _]. reflexivity.
Qed.

(** X11.  The grouping of [analyze_results]: no strategy name is a key twice,
    and the group stored under a key is exactly the list of the records with
    that strategy name, in input order, which is never empty. *)
Theorem groups_are_records_by_name results :
  NoDup (map fst (group_by_strategy results))
  /\ forall k l,
       In (k, l) (group_by_strategy results)
       <-> (l = records_of k results /\ l <> []).
Proof.
  split; [apply group_keys_NoDup | intros k l; apply group_members].
Qed.

Section AnalyzerFacts.

Context `{ST : PyStatistics}.

(** On a group that is not empty, [strategy_results[-1]] and the two [max()]
    calls are defined: the summary step raises exactly when one of its
    statistics calls does, and otherwise stores the entry below. *)
Lemma strategy_summary_spec l :
  l <> [] ->
  exists front r dd,
    l = front ++ [r]
    /\ max_drawdown_of (map cumulative_pnl l) = Some dd
    /\ match group_statistics l with
       | inl e => strategy_summary l = inl e
       | inr (avg, std, avg_hit) =>
           strategy_summary l
           = inr (mkSummary (bankroll r)
                            (fsub (bankroll r) (float_of_Z 1000))
                            (fmul (fdiv (fsub (bankroll r) (float_of_Z 1000))
                                        (float_of_Z 1000))
                                  (float_of_Z 100))
                            avg std avg_hit dd
                            (count_days daily_loss_hit l)
                            (count_days max_concurrent_hit l)
                            (sharpe_of avg std))
       end.
Proof.
  intros Hne. unfold strategy_summary.
  destruct (rev l) as [|r tl] eqn:Er.
  - exfalso. apply Hne. rewrite <- (rev_involutive l), Er. reflexivity.
  - assert (Hl : l = rev tl ++ [r]).
    { rewrite <- (rev_involutive l), Er. reflexivity. }
    assert (Hdd : exists dd, max_drawdown_of (map cumulative_pnl l) = Some dd).
    { unfold max_drawdown_of. destruct l as [|x xs]; [congruence|].
      cbn [map py_max_list]. eexists. reflexivity. }
    destruct Hdd as [dd Hdd].
    exists (rev tl), r, dd. split; [exact Hl|]. split; [exact Hdd|].
    cbv zeta. rewrite Hdd.
    destruct (group_statistics l) as [e|[[avg std] avg_hit]]; reflexivity.
Qed.

Lemma strategy_summary_entry l s :
  l <> [] ->
  strategy_summary l = inr s ->
  exists front r,
    l = front ++ [r]
    /\ final_bankroll s = bankroll r
    /\ days_loss_cap_hit s = count_days daily_loss_hit l
    /\ days_concurrent_cap_hit s = count_days max_concurrent_hit l
    /\ max_drawdown_of (map cumulative_pnl l) = Some (max_drawdown s)
    /\ group_statistics l = inr (avg_daily_pnl s, std_daily_pnl s, avg_hit_rate s).
Proof.
  intros Hne Hs.
  destruct (strategy_summary_spec l Hne) as (front & r & dd & Hl & Hdd & Hg).
  exists front, r. split; [exact Hl|].
  destruct (group_statistics l) as [e|[[avg std] avg_hit]].
  - rewrite Hg in Hs. discriminate.
  - rewrite Hg in Hs. inversion Hs; subst s.
    cbn [final_bankroll days_loss_cap_hit days_concurrent_cap_hit max_drawdown
         avg_daily_pnl std_daily_pnl avg_hit_rate].
    repeat split. exact Hdd.
Qed.

Lemma strategy_summary_raises l e :
  l <> [] -> strategy_summary l = inl e -> group_statistics l = inl e.
Proof.
  intros Hne Hs.
  destruct (strategy_summary_spec l Hne) as (front & r & dd & _ & _ & Hg).
  destruct (group_statistics l) as [e'|[[avg std] avg_hit]];
    rewrite Hg in Hs; [congruence | discriminate].
Qed.

Lemma strategy_summary_returns l t :
  l <> [] -> group_statistics l = inr t -> exists s, strategy_summary l = inr s.
Proof.
  intros Hne Ht.
  destruct (strategy_summary_spec l Hne) as (front & r & dd & _ & _ & Hg).
  rewrite Ht in Hg. destruct t as [[avg std] avg_hit]. eexists. exact Hg.
Qed.

Lemma summarize_groups_entries : forall groups k s,
  In (k, s) (fst (summarize_groups groups)) ->
  exists l, In (k, l) groups /\ strategy_summary l = inr s.
Proof.
  induction groups as [|[k' l'] tl IH]; intros k s H; cbn [summarize_groups] in H.
  - destruct H.
  - destruct (strategy_summary l') as [e|sm] eqn:E; [destruct H|].
    destruct (summarize_groups tl) as [printed e'].
    cbn [fst] in H, IH. destruct H as [Heq|Hin].
    + inversion Heq; subst. exists l'. split; [left; reflexivity | exact E].
    + destruct (IH k s Hin) as (l & Hl & Hs).
      exists l. split; [right; exact Hl | exact Hs].
Qed.

Lemma summarize_groups_returned : forall groups,
  snd (summarize_groups groups) = None ->
  map fst (fst (summarize_groups groups)) = map fst groups
  /\ forall k l, In (k, l) groups -> exists s, strategy_summary l = inr s.
Proof.
  induction groups as [|[k' l'] tl IH]; intros H; cbn [summarize_groups] in *.
  - split; [reflexivity | intros k l []].
  - destruct (strategy_summary l') as [e|sm] eqn:E; [discriminate|].
    destruct (summarize_groups tl) as [printed e'].
    cbn [fst snd] in *. destruct (IH H) as [A B].
    split; [cbn [map fst]; rewrite A; reflexivity|].
    intros k l [Heq|Hin].
    + inversion Heq; subst. exists sm. exact E.
    + apply (B k l Hin).
Qed.

Lemma summarize_groups_raised : forall groups e,
  snd (summarize_groups groups) = Some e ->
  exists before k l after,
    groups = before ++ (k, l) :: after
    /\ strategy_summary l = inl e
    /\ map fst (fst (summarize_groups groups)) = map fst before.
Proof.
  induction groups as [|[k' l'] tl IH]; intros e H; cbn [summarize_groups] in *.
  - discriminate.
  - destruct (strategy_summary l') as [e0|sm] eqn:E.
    + cbn [snd] in H. inversion H; subst.
      exists [], k', l', tl. repeat split. exact E.
    + destruct (summarize_groups tl) as [printed e'].
      cbn [fst snd] in *.
      destruct (IH e H) as (before & k & l & after & A & B & C).
      exists ((k', l') :: before), k, l, after.
      split; [rewrite A; reflexivity|]. split; [exact B|].
      cbn [map fst]. rewrite C. reflexivity.
Qed.

Lemma summarize_groups_all_return : forall groups,
  (forall k l, In (k, l) groups -> exists s, strategy_summary l = inr s) ->
  snd (summarize_groups groups) = None.
Proof.
  induction groups as [|[k' l'] tl IH]; intros H; cbn [summarize_groups].
  - reflexivity.
  - destruct (H k' l' (or_introl eq_refl)) as [s Hs]. rewrite Hs.
    destruct (summarize_groups tl) as [printed e'] eqn:E.
    cbn [snd] in *. apply IH. intros k l Hin. apply (H k l). right. exact Hin.
Qed.

(** X12.  [analyze_results] raises only inside a statistics call.  It either
    returns its argument, having printed one block per key of the grouping,
    or raises the exception that [statistics.mean] or [statistics.stdev]
    raised on the records of one key, having printed the blocks of the keys
    before that one; [strategy_results[-1]] and the two [max()] calls never
    raise, no group being empty.  In every block printed the final bankroll
    is the bankroll of the last input record carrying the name, the two cap
    counters count the flagged input records carrying the name, and the
    averages and the deviation are what the statistics calls returned on
    them. *)
Theorem analysis_raises_only_in_statistics results :
  match analyze_results results with
  | Returned rs =>
      rs = results
      /\ map fst (analyze_summary results) = map fst (group_by_strategy results)
  | Raised e =>
      exists before k after,
        group_by_strategy results = before ++ (k, records_of k results) :: after
        /\ group_statistics (records_of k results) = inl e
        /\ map fst (analyze_summary results) = map fst before
  | OutOfFuel => False
  end
  /\ forall k s, In (k, s) (analyze_summary results) ->
       exists front r,
         records_of k results = front ++ [r]
         /\ final_bankroll s = bankroll r
         /\ days_loss_cap_hit s = count_days daily_loss_hit (records_of k results)
         /\ days_concurrent_cap_hit s
            = count_days max_concurrent_hit (records_of k results)
         /\ group_statistics (records_of k results)
            = inr (avg_daily_pnl s, std_daily_pnl s, avg_hit_rate s).
Proof.
  unfold analyze_results, analyze_summary. split.
  - destruct (snd (summarize_groups (group_by_strategy results))) as [e|] eqn:E.
    + destruct (summarize_groups_raised _ e E)
        as (before & k & l & after & A & B & C).
      assert (Hin : In (k, l) (group_by_strategy results)).
      { rewrite A. apply in_or_app. right. left. reflexivity. }
      destruct (proj1 (group_members results k l) Hin) as [Hl Hne].
      exists before, k, after. rewrite <- Hl.
      split; [exact A|]. split; [|exact C].
      apply strategy_summary_raises; assumption.
    + split; [reflexivity|]. apply (summarize_groups_returned _ E).
  - intros k s Hin.
    destruct (summarize_groups_entries _ k s Hin) as (l & Hl & Hs).
    destruct (proj1 (group_members results k l) Hl) as [Heq Hne].
    rewrite <- Heq.
    destruct (strategy_summary_entry l s Hne Hs) as (front & r & A & B & C & D & _ & F).
    exists front, r. repeat split; assumption.
Qed.

End AnalyzerFacts.

Lemma analysis_raises_only_in_statistics_witness :
  analyze_results (ST := flat_statistics) rising_results = Returned rising_results
  /\ exists s front r,
       In ("Moderate (5%)"%string, s)
          (analyze_summary (ST := flat_statistics) rising_results)
       /\ records_of "Moderate (5%)" rising_results = front ++ [r]
       /\ final_bankroll s = bankroll r
       /\ days_loss_cap_hit s
          = count_days daily_loss_hit (records_of "Moderate (5%)" rising_results)
       /\ days_concurrent_cap_hit s
          = count_days max_concurrent_hit (records_of "Moderate (5%)" rising_results)
       /\ group_statistics (ST := flat_statistics)
                           (records_of "Moderate (5%)" rising_results)
          = inr (avg_daily_pnl s, std_daily_pnl s, avg_hit_rate s).
Proof.
  split; [vm_compute; reflexivity|].
  assert (Hin : exists s, In ("Moderate (5%)"%string, s)
                             (analyze_summary (ST := flat_statistics) rising_results)).
  { eexists. vm_compute. left. reflexivity. }
  destruct Hin as [s Hin].
  destruct (analysis_raises_only_in_statistics (ST := flat_statistics) rising_results)
    as [_ H].
  destruct (H "Moderate (5%)"%string s Hin) as (front & r & A).
  exists s, front, r. split; [exact Hin | exact A].
Defined.

(** ** The analyzer on the output of a run *)

Lemma group_append_new r : forall gs,
  ~ In (strategy r) (map fst gs) ->
  group_append gs r = gs ++ [(strategy r, [r])].
Proof.
  induction gs as [|[k l] gs IH]; intros Hn; cbn [group_append]; [reflexivity|].
  destruct (String.eqb_spec k (strategy r)) as [->|Hne].
  - exfalso. apply Hn. left. reflexivity.
  - rewrite IH; [reflexivity|]. intros Hin. apply Hn. right. exact Hin.
Qed.

Lemma group_append_last r l : forall gs,
  ~ In (strategy r) (map fst gs) ->
  group_append (gs ++ [(strategy r, l)]) r = gs ++ [(strategy r, l ++ [r])].
Proof.
  induction gs as [|[k l'] gs IH]; intros Hn; cbn [group_append app].
  - rewrite String.eqb_refl. reflexivity.
  - destruct (String.eqb_spec k (strategy r)) as [->|Hne].
    + exfalso. apply Hn. left. reflexivity.
    + rewrite IH; [reflexivity|]. intros Hin. apply Hn. right. exact Hin.
Qed.

Lemma group_fold_same_key k : forall blk gs l,
  (forall r, In r blk -> strategy r = k) ->
  ~ In k (map fst gs) ->
  fold_left group_append blk (gs ++ [(k, l)]) = gs ++ [(k, l ++ blk)].
Proof.
  induction blk as [|r blk IH]; intros gs l Hall Hn; cbn [fold_left].
  - rewrite app_nil_r. reflexivity.
  - assert (Hr : strategy r = k) by (apply Hall; left; reflexivity).
    subst k. rewrite group_append_last by exact Hn.
    rewrite IH; [|intros r' Hin; apply Hall; right; exact Hin | exact Hn].
    rewrite <- app_assoc. reflexivity.
Qed.

Lemma group_fold_blocks : forall (blocks : list (string * list DailyResult)) gs,
  NoDup (map fst gs ++ map fst blocks) ->
  (forall k b, In (k, b) blocks -> b <> [] /\ forall r, In r b -> strategy r = k) ->
  fold_left group_append (List.concat (map snd blocks)) gs = gs ++ blocks.
Proof.
  induction blocks as [|[k b] blocks IH]; intros gs Hnd Hall; cbn [map List.concat snd].
  - rewrite app_nil_r. reflexivity.
  - destruct (Hall k b (or_introl eq_refl)) as [Hne Hk].
    destruct b as [|r b]; [congruence|].
    rewrite fold_left_app. cbn [fold_left].
    assert (Hr : strategy r = k) by (apply Hk; left; reflexivity).
    assert (Hnk : ~ In k (map fst gs)).
    { intros Hin. cbn [map fst] in Hnd. apply NoDup_remove_2 in Hnd.
      apply Hnd. apply in_or_app. left. exact Hin. }
    rewrite group_append_new by (rewrite Hr; exact Hnk). rewrite Hr.
    rewrite (group_fold_same_key k b gs [r]);
      [|intros r' Hin; apply Hk; right; exact Hin | exact Hnk].
    cbn [app]. rewrite IH.
    + rewrite <- app_assoc. reflexivity.
    + rewrite map_app. cbn [map fst]. rewrite <- app_assoc. exact Hnd.
    + intros k' b' Hin. apply Hall. right. exact Hin.
Qed.

Lemma exclusive_counts l :
  (forall r, In r l -> daily_loss_hit r && max_concurrent_hit r = false) ->
  0 <= count_days daily_loss_hit l
  /\ 0 <= count_days max_concurrent_hit l
  /\ count_days daily_loss_hit l + count_days max_concurrent_hit l
     <= Z.of_nat (List.length l).
Proof.
  unfold count_days. induction l as [|r l IH]; intros H; [simpl; lia|].
  destruct IH as (A & B & C); [intros r' Hin; apply H; right; exact Hin|].
  specialize (H r (or_introl eq_refl)).
  cbn [filter List.length].
  destruct (daily_loss_hit r), (max_concurrent_hit r); try discriminate;
    cbn [List.length]; lia.
Qed.

Lemma builtin_names_NoDup : NoDup (map name builtin_strategies).
Proof.
  cbn. repeat constructor; cbn; intros H;
    repeat (destruct H as [H|H]; [discriminate|]); exact H.
Qed.

Section RunSummary.

Context {G : Type} `{RT : PyRuntime G}.

Lemma run_days_block n fuel d w s g rs g' :
  run_days fuel n d w s g = Returned (rs, g') ->
  List.length rs = n
  /\ forall r, In r rs ->
       strategy r = name s /\ daily_loss_hit r && max_concurrent_hit r = false.
Proof.
  intros H. destruct (run_days_layout _ _ _ _ _ _ _ _ H) as (Hl & Hn).
  split; [exact Hl|]. intros r Hin.
  apply In_nth_error in Hin. destruct Hin as [i Hi].
  destruct (Hn i r Hi) as (_ & A & B). split; assumption.
Qed.

Lemma run_strategies_blocks ss : forall fuel days g rs g',
  run_strategies fuel days ss g = Returned (rs, g') ->
  exists blocks,
    rs = List.concat blocks
    /\ Forall2 (fun s b =>
                  List.length b = Z.to_nat days
                  /\ forall r, In r b ->
                       strategy r = name s
                       /\ daily_loss_hit r && max_concurrent_hit r = false)
               ss blocks.
Proof.
  induction ss as [|s ss IH]; intros fuel days g rs g' H; cbn [run_strategies] in H.
  - inversion H; subst. exists []. split; [reflexivity | constructor].
  - destruct (run_days fuel (Z.to_nat days) 0 (new_wallet default_bankroll) s g)
      as [[rs1 g1]| |] eqn:E; try discriminate.
    cbn [bind] in H.
    destruct (run_strategies fuel days ss g1) as [[rest g2]| |] eqn:E2;
      try discriminate.
    cbn [bind] in H. inversion H; subst. clear H.
    destruct (IH _ _ _ _ _ E2) as (blocks & -> & HF).
    exists (rs1 :: blocks). split; [reflexivity|].
    constructor; [apply (run_days_block _ _ _ _ _ _ _ _ E) | exact HF].
Qed.

End RunSummary.

Lemma blocks_grouping days : forall (ss : list StrategyConfig) blocks,
  (0 < Z.to_nat days)%nat ->
  Forall2 (fun s b =>
             List.length b = Z.to_nat days
             /\ forall r, In r b ->
                  strategy r = name s
                  /\ daily_loss_hit r && max_concurrent_hit r = false)
          ss blocks ->
  map fst (combine (map name ss) blocks) = map name ss
  /\ map snd (combine (map name ss) blocks) = blocks
  /\ forall k b, In (k, b) (combine (map name ss) blocks) ->
       List.length b = Z.to_nat days
       /\ b <> []
       /\ forall r, In r b ->
            strategy r = k /\ daily_loss_hit r && max_concurrent_hit r = false.
Proof.
  intros ss blocks Hd HF. induction HF as [|s b ss blocks [Hl Hb] HF IH].
  - split; [reflexivity|]. split; [reflexivity|]. intros k b [].
  - destruct IH as (A & B & C). cbn [map combine fst snd].
    rewrite A, B. split; [reflexivity|]. split; [reflexivity|].
    intros k b' [Heq|Hin].
    + inversion Heq; subst. split; [exact Hl|]. split; [|exact Hb].
      destruct b'; [simpl in Hl; lia | discriminate].
    + apply C. exact Hin.
Qed.

Section RunAnalysis.

Context {G : Type} `{RT : PyRuntime G} `{ST : PyStatistics}.

(** X13.  [analyze_results] on the output of [run_simulation]: for
    [days >= 1] it returns exactly when the statistics calls return on the
    records of each of the three strategies, and the blocks it then prints
    have the three strategy names as keys, in the order of the strategy
    list; in every block it prints, the days on which the loss cap was hit
    and the days on which the exposure cap was hit are counted separately
    and together are at most [days]; for [days <= 0] it prints no block and
    returns. *)
Theorem run_summary_shape fuel days ambient rs :
  run_simulation fuel days ambient = Returned rs ->
  (days <= 0 -> analyze_summary rs = [] /\ analyze_results rs = Returned rs)
  /\ (0 < days ->
      (analyze_results rs = Returned rs
       <-> forall s', In s' builtin_strategies ->
             exists t, group_statistics (records_of (name s') rs) = inr t)
      /\ (analyze_results rs = Returned rs ->
          map fst (analyze_summary rs) = map name builtin_strategies)
      /\ forall k s, In (k, s) (analyze_summary rs) ->
           In k (map name builtin_strategies)
           /\ 0 <= days_loss_cap_hit s
           /\ 0 <= days_concurrent_cap_hit s
           /\ days_loss_cap_hit s + days_concurrent_cap_hit s <= days).
Proof.
  unfold run_simulation. intros H.
  destruct (run_strategies fuel days builtin_strategies (rand_seed 42))
    as [[l g]| |] eqn:E; try discriminate.
  cbn [bind] in H. inversion H; subst. clear H.
  split.
  - intros Hd. destruct (run_strategies_layout _ _ _ _ _ _ E) as (Hl & _).
    destruct rs as [|r rs]; [split; reflexivity | simpl in Hl; lia].
  - intros Hd.
    destruct (run_strategies_blocks _ _ _ _ _ _ E) as (blocks & -> & HF).
    destruct (blocks_grouping days builtin_strategies blocks ltac:(lia) HF)
      as (Hk & Hs & Hb).
    set (gb := combine (map name builtin_strategies) blocks) in *.
    clearbody gb.
    assert (Hg : group_by_strategy (List.concat blocks) = gb).
    { unfold group_by_strategy. rewrite <- Hs.
      apply (group_fold_blocks gb []).
      - cbn [map app]. rewrite Hk. apply builtin_names_NoDup.
      - intros k b Hin. destruct (Hb k b Hin) as (_ & Hne & Hall).
        split; [exact Hne|]. intros r Hr. apply (Hall r Hr). }
    set (rs := List.concat blocks) in *.
    assert (Hmem : forall k b, In (k, b) gb -> b = records_of k rs /\ b <> []).
    { intros k b Hin. apply (proj1 (group_members rs k b)).
      rewrite Hg. exact Hin. }
    assert (Hkeys : forall s', In s' builtin_strategies ->
                      In (name s', records_of (name s') rs) gb).
    { intros s' Hin. assert (Hn : In (name s') (map fst gb)).
      { rewrite Hk. apply in_map. exact Hin. }
      apply in_map_iff in Hn. destruct Hn as [[k b] [Heq Hin']].
      cbn [fst] in Heq. subst k.
      destruct (Hmem _ _ Hin') as [<- _]. exact Hin'. }
    unfold analyze_results, analyze_summary. rewrite Hg.
    split; [|split].
    + split.
      * intros Hr s' Hin.
        destruct (snd (summarize_groups gb)) as [e|] eqn:Es; [discriminate|].
        destruct (summarize_groups_returned gb Es) as [_ Hall].
        destruct (Hall _ _ (Hkeys s' Hin)) as [sm Hsm].
        destruct (Hmem _ _ (Hkeys s' Hin)) as [_ Hne].
        destruct (strategy_summary_entry _ sm Hne Hsm)
          as (_ & _ & _ & _ & _ & _ & _ & Hst).
        eexists. exact Hst.
      * intros Hall. rewrite summarize_groups_all_return; [reflexivity|].
        intros k b Hin. destruct (Hmem k b Hin) as [Hb' Hne].
        assert (Hn : In k (map name builtin_strategies)).
        { rewrite <- Hk. apply in_map_iff. exists (k, b). split; [reflexivity|exact Hin]. }
        apply in_map_iff in Hn. destruct Hn as [s' [Hs' Hin']].
        destruct (Hall s' Hin') as [t Ht]. rewrite Hs', <- Hb' in Ht.
        apply (strategy_summary_returns b t Hne Ht).
    + intros Hr.
      destruct (snd (summarize_groups gb)) as [e|] eqn:Es; [discriminate|].
      destruct (summarize_groups_returned gb Es) as [Hm _].
      rewrite Hm. exact Hk.
    + intros k sm Hin.
      destruct (summarize_groups_entries gb k sm Hin) as (b & Hin' & Hsm).
      destruct (Hb k b Hin') as (Hl & Hne & Hall).
      split.
      { rewrite <- Hk. apply in_map_iff. exists (k, b). split; [reflexivity|exact Hin']. }
      destruct (strategy_summary_entry b sm Hne Hsm) as (_ & _ & _ & _ & C & D & _).
      destruct (exclusive_counts b) as (P & Q & R);
        [intros r Hr; apply (Hall r Hr)|].
      rewrite C, D. repeat split; try assumption. lia.
Qed.

End RunAnalysis.

Lemma run_summary_shape_witness :
  exists rs,
    rising_run = Returned rs
    /\ (2 <= 0 -> analyze_summary (ST := flat_statistics) rs = []
                  /\ analyze_results (ST := flat_statistics) rs = Returned rs)
    /\ (0 < 2 ->
        (analyze_results (ST := flat_statistics) rs = Returned rs
         <-> forall s', In s' builtin_strategies ->
               exists t, group_statistics (ST := flat_statistics)
                                          (records_of (name s') rs) = inr t)
        /\ (analyze_results (ST := flat_statistics) rs = Returned rs ->
            map fst (analyze_summary (ST := flat_statistics) rs)
            = map name builtin_strategies)
        /\ forall k s, In (k, s) (analyze_summary (ST := flat_statistics) rs) ->
             In k (map name builtin_strategies)
             /\ 0 <= days_loss_cap_hit s
             /\ 0 <= days_concurrent_cap_hit s
             /\ days_loss_cap_hit s + days_concurrent_cap_hit s <= 2).
Proof.
  eexists. split; [vm_compute; reflexivity|].
  apply (run_summary_shape (RT := tape_runtime ([], [])) (ST := flat_statistics)
                           5 2 ([], [])).
  vm_compute. reflexivity.
Defined.

(** ** The scenario prober *)

Section ProbeFacts.

Context {G : Type} `{RT : PyRuntime G}.

Lemma scenario_loop_bounds n : forall wr lm ls ps dp t g,
  t <= snd (fst (scenario_loop n wr lm ls ps dp t g)) <= t + Z.of_nat n
  /\ (snd (fst (scenario_loop n wr lm ls ps dp t g)) < t + Z.of_nat n ->
      fleb (fst (fst (scenario_loop n wr lm ls ps dp t g))) (fopp (float_of_Z 30))
      = true)
  /\ (fleb dp (fopp (float_of_Z 30)) = false -> (0 < n)%nat ->
      t < snd (fst (scenario_loop n wr lm ls ps dp t g))).
Proof.
  induction n as [|n IH]; intros wr lm ls ps dp t g.
  - cbn [scenario_loop fst snd]. repeat split; lia.
  - cbn [scenario_loop].
    destruct (fleb dp (fopp (float_of_Z 30))) eqn:E.
    + cbn [fst snd]. split; [lia|]. split; [intros _; exact E | discriminate].
    + destruct (rand_random g) as [u g1].
      match goal with
      | |- context [scenario_loop n wr lm ls ps ?dp' (t + 1) g1] =>
          destruct (IH wr lm ls ps dp' (t + 1) g1) as (A & B & _)
      end.
      split; [lia|]. split; [intros Hlt; apply B; lia | intros _ _; lia].
Qed.

(** X14.  Every line [simulate_specific_scenarios] prints reports between 1
    and 10 trades, and a line with fewer than 10 trades reports a daily
    profit at or below -30.0: the probe stops early only on that loss. *)
Theorem probe_lines_bounded strategy_name lines scenario_name trades_made pnl :
  In (strategy_name, lines) simulate_specific_scenarios ->
  In (scenario_name, trades_made, pnl) lines ->
  1 <= trades_made <= 10
  /\ (trades_made < 10 -> fleb pnl (fopp (float_of_Z 30)) = true).
Proof.
  unfold simulate_specific_scenarios. intros H1 H2.
  apply in_map_iff in H1. destruct H1 as [nm [Heq _]].
  assert (Hl : lines = map (probe_scenario (scenario_position_size nm)) scenarios)
    by congruence.
  clear Heq. rewrite Hl in H2. clear Hl.
  apply in_map_iff in H2. destruct H2 as [[[[sn wr] lm] ls] [Heq _]].
  unfold probe_scenario in Heq.
  pose proof (scenario_loop_bounds 10 wr lm ls (scenario_position_size nm) f0 0
                (rand_seed 100)) as (A & B & C).
  destruct (scenario_loop 10 wr lm ls (scenario_position_size nm) f0 0
              (rand_seed 100)) as [[dp t] g'].
  cbn [fst snd] in A, B, C.
  assert (Ht : t = trades_made) by congruence.
  assert (Hp : dp = pnl) by congruence.
  subst t dp. clear Heq.
  specialize (C (proj1 initial_losses_below_caps) ltac:(lia)).
  split; [lia|]. intros Hlt. apply B. lia.
Qed.

End ProbeFacts.

Lemma probe_lines_bounded_witness :
  1 <= 1 <= 10
  /\ (1 < 10 -> fleb (float_of_Z (-100)) (fopp (float_of_Z 30)) = true).
Proof.
  eapply (probe_lines_bounded (RT := tape_runtime probe_seed)
            "Conservative (2.5%)" _ "Terrible Day" 1 (float_of_Z (-100))).
  - left. reflexivity.
  - left. vm_compute. reflexivity.
Defined.

(** ** Exact hit rates and the trades of the built-in strategies *)

Lemma int_truediv_same t : 0 < t -> int_truediv t t = f1.
Proof.
  intros Ht. destruct t as [|t|t]; try lia.
  unfold int_truediv, fdiv. cbn [int_operand]. unfold SFdiv.
  rewrite div_core_equal. vm_compute. reflexivity.
Qed.

Lemma int_truediv_zero t : 0 < t -> int_truediv 0 t = f0.
Proof. intros Ht. destruct t as [|t|t]; try lia. reflexivity. Qed.

Section RateFacts.

Context {G : Type} `{RT : PyRuntime G}.

(** X15.  The hit rate of a day is exactly 1.0 when the day took trades and
    none of them lost, and exactly 0.0 when none of them won. *)
Theorem hit_rate_at_the_extremes fuel w s d avg g r w' g' :
  simulate_day fuel w s d avg g = Returned (r, w', g') ->
  (losses r = 0 -> 0 < trades_taken r -> hit_rate r = f1)
  /\ (wins r = 0 -> hit_rate r = f0).
Proof.
  intros H.
  destruct (simulate_day_inv _ _ _ _ _ _ _ _ _ H) as (n & g1 & _ & -> & _ & _).
  unfold final_state. cbn [daily_result losses wins trades_taken hit_rate].
  pose proof (day_loop_counts (Z.to_nat (Z.max 1 n)) s (init_day (reset_daily w)) g1)
    as [Hc Hs].
  cbn [init_day st_trades_today st_wins st_losses] in Hc, Hs.
  set (st := fst (day_loop (Z.to_nat (Z.max 1 n)) s (init_day (reset_daily w)) g1)) in *.
  split.
  - intros Hl Ht. rewrite Z.max_l by lia.
    replace (st_wins st) with (st_trades_today st) by lia.
    apply int_truediv_same. exact Ht.
  - intros Hw. rewrite Hw. apply int_truediv_zero. lia.
Qed.

Lemma simulate_day_exposure_bound fuel w s d avg g r w' g' (k : nat) :
  simulate_day fuel w s d avg g = Returned (r, w', g') ->
  fltb max_total_exposure (exposure_after (S k) (position_size_usd s)) = true ->
  trades_taken r <= Z.of_nat k.
Proof.
  intros H Hk.
  destruct (simulate_day_inv _ _ _ _ _ _ _ _ _ H) as (n & g1 & _ & -> & _ & _).
  unfold final_state. cbn [daily_result trades_taken].
  destruct (day_loop_exposure (Z.to_nat (Z.max 1 n)) s (init_day (reset_daily w)) g1 0%nat)
    as (t' & Ht & Hall); try reflexivity.
  { intros j Hj. lia. }
  rewrite Ht. destruct (le_lt_dec t' k) as [Hle|Hlt]; [lia|].
  rewrite (Hall k Hlt) in Hk. discriminate.
Qed.

Lemma simulate_day_first_trade fuel w s d avg g r w' g' :
  simulate_day fuel w s d avg g = Returned (r, w', g') ->
  fltb max_total_exposure (fadd f0 (position_size_usd s)) = false ->
  1 <= trades_taken r.
Proof.
  intros H Hs.
  destruct (simulate_day_inv _ _ _ _ _ _ _ _ _ H) as (n & g1 & _ & -> & _ & _).
  unfold final_state.
  destruct (Z.to_nat (Z.max 1 n)) as [|m] eqn:Em; [lia|].
  cbn [day_loop]. rewrite check_caps_init, Hs.
  destruct (simulate_wallet_edge default_win_rate default_avg_win
              default_avg_loss g1) as [[pnl b] g2].
  pose proof (day_loop_counts m s (book_trade s (init_day (reset_daily w)) pnl) g2)
    as [Hc _].
  rewrite book_trade_trades in Hc. cbn [init_day st_trades_today] in Hc.
  cbn [daily_result trades_taken]. lia.
Qed.

Lemma run_days_forall (P : DailyResult -> Prop) s n :
  (forall fuel w d g r w' g',
     simulate_day fuel w s d (float_of_Z 6) g = Returned (r, w', g') -> P r) ->
  forall fuel d w g rs g',
    run_days fuel n d w s g = Returned (rs, g') -> forall r, In r rs -> P r.
Proof.
  intros HP. induction n as [|n IH]; intros fuel d w g rs g' H r Hin;
    cbn [run_days] in H.
  - inversion H; subst. destruct Hin.
  - destruct (simulate_day fuel w s (d + 1) (float_of_Z 6) g)
      as [[[r1 w1] g1]| |] eqn:E; try discriminate.
    cbn [bind] in H.
    destruct (run_days fuel n (d + 1) w1 s g1) as [[rs1 g2]| |] eqn:E2;
      try discriminate.
    cbn [bind] in H. inversion H; subst. clear H.
    destruct Hin as [<-|Hin]; [exact (HP _ _ _ _ _ _ _ E) | eapply IH; eauto].
Qed.

Lemma run_strategies_forall (P : StrategyConfig -> DailyResult -> Prop) ss :
  (forall s, In s ss ->
     forall fuel w d g r w' g',
       simulate_day fuel w s d (float_of_Z 6) g = Returned (r, w', g') -> P s r) ->
  forall fuel days g rs g',
    run_strategies fuel days ss g = Returned (rs, g') ->
    forall r, In r rs -> exists s, In s ss /\ P s r.
Proof.
  induction ss as [|s ss IH]; intros HP fuel days g rs g' H r Hin;
    cbn [run_strategies] in H.
  - inversion H; subst. destruct Hin.
  - destruct (run_days fuel (Z.to_nat days) 0 (new_wallet default_bankroll) s g)
      as [[rs1 g1]| |] eqn:E; try discriminate.
    cbn [bind] in H.
    destruct (run_strategies fuel days ss g1) as [[rest g2]| |] eqn:E2;
      try discriminate.
    cbn [bind] in H. inversion H; subst. clear H.
    apply in_app_or in Hin. destruct Hin as [Hin|Hin].
    + exists s. split; [left; reflexivity|].
      apply (run_days_forall (P s) s _ (HP s (or_introl eq_refl)) _ _ _ _ _ _ E r Hin).
    + destruct (IH (fun s' Hs' => HP s' (or_intror Hs')) _ _ _ _ _ E2 r Hin)
        as (s' & Hs' & Hp).
      exists s'. split; [right; exact Hs' | exact Hp].
Qed.

(** X16.  In the output of [run_simulation] every day takes at least one
    trade; a Conservative day takes at most 6, a Moderate day at most 3, and
    an Aggressive day exactly 1, the exposure cap of 150.0 leaving no room
    for a second position of 100.0. *)
Theorem run_trades_per_day fuel days ambient rs :
  run_simulation fuel days ambient = Returned rs ->
  forall r, In r rs ->
    (strategy r = "Conservative (2.5%)"%string /\ 1 <= trades_taken r <= 6)
    \/ (strategy r = "Moderate (5%)"%string /\ 1 <= trades_taken r <= 3)
    \/ (strategy r = "Aggressive (10%)"%string /\ trades_taken r = 1).
Proof.
  unfold run_simulation. intros H r Hin.
  destruct (run_strategies fuel days builtin_strategies (rand_seed 42))
    as [[l g]| |] eqn:E; try discriminate.
  cbn [bind] in H. inversion H; subst. clear H.
  assert (HP : forall s, In s builtin_strategies ->
            forall fuel' w d g0 r0 w' g',
              simulate_day fuel' w s d (float_of_Z 6) g0 = Returned (r0, w', g') ->
              strategy r0 = name s
              /\ 1 <= trades_taken r0
              /\ forall k : nat,
                   fltb max_total_exposure
                        (exposure_after (S k) (position_size_usd s)) = true ->
                   trades_taken r0 <= Z.of_nat k).
  { intros s Hs fuel' w d g0 r0 w' g' Hd.
    destruct (simulate_day_labels _ _ _ _ _ _ _ _ _ Hd) as (_ & Hname & _).
    split; [exact Hname|]. split.
    + apply (simulate_day_first_trade _ _ _ _ _ _ _ _ _ Hd).
      destruct Hs as [<-|[<-|[<-|[]]]]; vm_compute; reflexivity.
    + intros k Hk. apply (simulate_day_exposure_bound _ _ _ _ _ _ _ _ _ k Hd Hk). }
  destruct (run_strategies_forall _ builtin_strategies HP _ _ _ _ _ E r Hin)
    as (s & Hs & Hn & H1 & Hk).
  clear HP.
  destruct Hs as [<-|[<-|[<-|[]]]].
  - left. split; [exact Hn|]. split; [exact H1|].
    apply (Hk 6%nat). vm_compute. reflexivity.
  - right. left. split; [exact Hn|]. split; [exact H1|].
    apply (Hk 3%nat). vm_compute. reflexivity.
  - right. right. split; [exact Hn|].
    assert (trades_taken r <= Z.of_nat 1) by (apply Hk; vm_compute; reflexivity).
    lia.
Qed.

End RateFacts.

Lemma hit_rate_at_the_extremes_witness :
  exists r w' g',
    winning_day = Returned (r, w', g')
    /\ (losses r = 0 -> 0 < trades_taken r -> hit_rate r = f1)
    /\ (wins r = 0 -> hit_rate r = f0).
Proof.
  do 3 eexists. split; [vm_compute; reflexivity|].
  eapply (hit_rate_at_the_extremes (RT := tape_runtime ([], [])) 10
            (new_wallet default_bankroll) moderate 1 (float_of_Z 6)
            (seven_trades, [])).
  vm_compute. reflexivity.
Defined.

Lemma run_trades_per_day_witness :
  exists rs r,
    rounding_run = Returned rs
    /\ nth_error rs 5 = Some r
    /\ ((strategy r = "Conservative (2.5%)"%string /\ 1 <= trades_taken r <= 6)
        \/ (strategy r = "Moderate (5%)"%string /\ 1 <= trades_taken r <= 3)
        \/ (strategy r = "Aggressive (10%)"%string /\ trades_taken r = 1)).
Proof.
  do 2 eexists. split; [vm_compute; reflexivity|]. split; [reflexivity|].
  eapply (run_trades_per_day (RT := tape_runtime rounding_seed) 5 2 ([], [])).
  - vm_compute. reflexivity.
  - do 5 right. left. reflexivity.
Defined.

(** ** The order of ordinary floats and the reported drawdown *)

(** The comparison of two finite floats is the comparison of their values in
    units of [2^-1074]. *)
Lemma bounded_facts m e :
  bounded prec emax m e = true ->
  -1074 <= e <= 971
  /\ Z.pos m < 2 ^ 53
  /\ (-1074 < e -> 2 ^ 52 <= Z.pos m).
Proof.
  unfold bounded, canonical_mantissa. intros H.
  apply andb_true_iff in H. destruct H as [H1 H2].
  apply Z.eqb_eq in H1. apply Z.leb_le in H2.
  rewrite fexp_unfold in H1. change (emax - prec) with 971 in H2.
  destruct (Zdigits2_bounds (Z.pos m) ltac:(lia)) as [Hl Hu].
  change (Zdigits2 (Z.pos m)) with (Z.pos (digits2_pos m)) in Hl, Hu.
  set (d := Z.pos (digits2_pos m)) in *.
  assert (Hd : 0 < d) by (subst d; lia). clearbody d.
  split; [lia|]. split.
  - assert (d <= 53) by lia.
    apply Z.lt_le_trans with (2 ^ d); [exact Hu|].
    apply Z.pow_le_mono_r; lia.
  - intros He. assert (d = 53) by lia. subst d. exact Hl.
Qed.

Lemma positive_compare m1 e1 m2 e2 :
  bounded prec emax m1 e1 = true -> bounded prec emax m2 e2 = true ->
  match e1 ?= e2 with
  | Lt => Lt
  | Gt => Gt
  | Eq => Pos.compare_cont Eq m1 m2
  end
  = (Z.pos m1 * 2 ^ (e1 + 1074) ?= Z.pos m2 * 2 ^ (e2 + 1074)).
Proof.
  intros H1 H2.
  destruct (bounded_facts _ _ H1) as (He1 & Hu1 & Hl1).
  destruct (bounded_facts _ _ H2) as (He2 & Hu2 & Hl2).
  assert (Hp : forall a b, 0 <= a < b -> 2 * 2 ^ a <= 2 ^ b).
  { intros a b Hab. replace b with (Z.succ a + (b - a - 1)) by lia.
    rewrite Z.pow_add_r, Z.pow_succ_r by lia.
    assert (0 < 2 ^ (b - a - 1)) by (apply Z.pow_pos_nonneg; lia).
    assert (0 < 2 ^ a) by (apply Z.pow_pos_nonneg; lia). nia. }
  assert (Hs : 2 ^ 53 = 2 * 2 ^ 52) by reflexivity.
  destruct (Z.compare_spec e1 e2) as [Heq|Hlt|Hgt].
  - subst e2. symmetry.
    assert (Hpos : 0 < 2 ^ (e1 + 1074)) by (apply Z.pow_pos_nonneg; lia).
    destruct (2 ^ (e1 + 1074)) as [|p|p] eqn:Ep; try lia.
    rewrite (Z.mul_comm (Z.pos m1)), (Z.mul_comm (Z.pos m2)).
    apply Zcompare_mult_compat.
  - symmetry. apply Z.compare_lt_iff.
    specialize (Hl2 ltac:(lia)).
    pose proof (Hp (e1 + 1074) (e2 + 1074) ltac:(lia)) as Hpw.
    assert (0 < 2 ^ (e1 + 1074)) by (apply Z.pow_pos_nonneg; lia).
    set (P := 2 ^ (e1 + 1074)) in *. set (Q := 2 ^ (e2 + 1074)) in *.
    set (A := 2 ^ 52) in *. clearbody P Q A. nia.
  - symmetry. apply Z.compare_gt_iff.
    specialize (Hl1 ltac:(lia)).
    pose proof (Hp (e2 + 1074) (e1 + 1074) ltac:(lia)) as Hpw.
    assert (0 < 2 ^ (e2 + 1074)) by (apply Z.pow_pos_nonneg; lia).
    set (P := 2 ^ (e1 + 1074)) in *. set (Q := 2 ^ (e2 + 1074)) in *.
    set (A := 2 ^ 52) in *. clearbody P Q A. nia.
Qed.

Lemma compare_ordinary x y :
  ordinary x = true -> ordinary y = true ->
  SFcompare x y = Some (scaled_value x ?= scaled_value y).
Proof.
  intros Hx Hy.
  destruct x as [sx|sx| |sx mx ex]; try discriminate;
    destruct y as [sy|sy| |sy my ey]; try discriminate;
    cbn [ordinary] in Hx, Hy; cbn [SFcompare scaled_value].
  - reflexivity.
  - assert (0 < Z.pos my * 2 ^ (ey + 1074)).
    { destruct (bounded_facts _ _ Hy) as (He & _).
      apply Z.mul_pos_pos; [lia | apply Z.pow_pos_nonneg; lia]. }
    destruct sy; cbn [cond_Zopp]; f_equal; symmetry;
      [apply Z.compare_gt_iff | apply Z.compare_lt_iff]; lia.
  - assert (0 < Z.pos mx * 2 ^ (ex + 1074)).
    { destruct (bounded_facts _ _ Hx) as (He & _).
      apply Z.mul_pos_pos; [lia | apply Z.pow_pos_nonneg; lia]. }
    destruct sx; cbn [cond_Zopp]; f_equal; symmetry;
      [apply Z.compare_lt_iff | apply Z.compare_gt_iff]; lia.
  - assert (Hpx : 0 < Z.pos mx * 2 ^ (ex + 1074)).
    { destruct (bounded_facts _ _ Hx) as (He & _).
      apply Z.mul_pos_pos; [lia | apply Z.pow_pos_nonneg; lia]. }
    assert (Hpy : 0 < Z.pos my * 2 ^ (ey + 1074)).
    { destruct (bounded_facts _ _ Hy) as (He & _).
      apply Z.mul_pos_pos; [lia | apply Z.pow_pos_nonneg; lia]. }
    pose proof (positive_compare mx ex my ey Hx Hy) as Hc.
    destruct sx, sy; cbn [cond_Zopp]; f_equal.
    + rewrite Z.compare_opp. rewrite <- (positive_compare my ey mx ex Hy Hx).
      rewrite (Z.compare_antisym ey ex).
      destruct (ey ?= ex); cbn [CompOpp]; try reflexivity.
      rewrite Pos.compare_cont_antisym. reflexivity.
    + symmetry. apply Z.compare_lt_iff. lia.
    + symmetry. apply Z.compare_gt_iff. lia.
    + exact Hc.
Qed.

Lemma fltb_ordinary x y :
  ordinary x = true -> ordinary y = true ->
  fltb x y = (scaled_value x <? scaled_value y).
Proof.
  intros Hx Hy. unfold fltb, SFltb. rewrite (compare_ordinary x y Hx Hy).
  unfold Z.ltb. destruct (scaled_value x ?= scaled_value y); reflexivity.
Qed.

Lemma fleb_ordinary x y :
  ordinary x = true -> ordinary y = true ->
  fleb x y = (scaled_value x <=? scaled_value y).
Proof.
  intros Hx Hy. unfold fleb, SFleb. rewrite (compare_ordinary x y Hx Hy).
  unfold Z.leb. destruct (scaled_value x ?= scaled_value y); reflexivity.
Qed.

Lemma py_max_fold_member : forall xs x,
  In (fold_left py_max xs x) (x :: xs).
Proof.
  induction xs as [|y tl IH]; intros x; [left; reflexivity|].
  cbn [fold_left]. destruct (IH (py_max x y)) as [H|H].
  - rewrite <- H. unfold py_max. destruct (fltb x y).
    + right. left. reflexivity.
    + left. reflexivity.
  - right. right. exact H.
Qed.

Lemma py_max_fold_peak : forall xs x,
  ordinary x = true -> Forall (fun y => ordinary y = true) xs ->
  ordinary (fold_left py_max xs x) = true
  /\ forall y, In y (x :: xs) ->
       scaled_value y <= scaled_value (fold_left py_max xs x).
Proof.
  induction xs as [|z tl IH]; intros x Hx Hall.
  - split; [exact Hx|]. intros y [<-|[]]. cbn [fold_left]. lia.
  - inversion Hall as [|? ? Hz Htl]; subst. cbn [fold_left].
    assert (Hm : ordinary (py_max x z) = true
                 /\ scaled_value x <= scaled_value (py_max x z)
                 /\ scaled_value z <= scaled_value (py_max x z)).
    { unfold py_max. rewrite (fltb_ordinary x z Hx Hz).
      destruct (Z.ltb_spec (scaled_value x) (scaled_value z));
        repeat split; try assumption; lia. }
    destruct Hm as (Ho & H1 & H2).
    destruct (IH (py_max x z) Ho Htl) as [Hord Hpeak].
    split; [exact Hord|].
    pose proof (Hpeak (py_max x z) (or_introl eq_refl)) as Hp.
    intros y [<-|[<-|Hin]].
    + lia.
    + lia.
    + apply Hpeak. right. exact Hin.
Qed.

Lemma shl_align_value m e ez :
  ez <= e -> Z.pos (fst (shl_align m e ez)) = Z.pos m * 2 ^ (e - ez).
Proof.
  intros H. unfold shl_align.
  destruct (ez - e) as [|d|d] eqn:E; try lia.
  - replace (e - ez) with 0 by lia. cbn [fst]. lia.
  - cbn [fst]. change (Pos.iter xO m d) with (shift_pos d m).
    rewrite shift_pos_correct.
    replace (e - ez) with (Z.pos d) by lia.
    change (2 ^ Z.pos d) with (Z.pow_pos 2 d). lia.
Qed.

Lemma round_nonneg m e :
  0 <= m -> fleb f0 (binary_normalize prec emax m e false) = true.
Proof.
  intros Hm. unfold binary_normalize.
  destruct m as [|p|p]; [reflexivity | | lia].
  unfold binary_round.
  destruct (shl_align p e _) as [mz ez].
  pose proof (binary_round_aux_sign false (Z.pos mz) ez loc_Exact ltac:(lia)) as H.
  destruct (binary_round_aux prec emax false (Z.pos mz) ez loc_Exact);
    try (subst; reflexivity). destruct H.
Qed.

Lemma scaled_value_aligned s m e ez :
  -1074 <= ez <= e ->
  scaled_value (S754_finite s m e)
  = cond_Zopp s (Z.pos (fst (shl_align m e ez))) * 2 ^ (ez + 1074).
Proof.
  intros H. cbn [scaled_value]. rewrite (shl_align_value m e ez) by lia.
  replace (e + 1074) with ((e - ez) + (ez + 1074)) by lia.
  rewrite Z.pow_add_r by lia.
  destruct s; cbn [cond_Zopp]; lia.
Qed.

Lemma fsub_below_peak M x :
  ordinary M = true -> ordinary x = true ->
  scaled_value x <= scaled_value M ->
  fleb f0 (fsub M x) = true.
Proof.
  intros HM Hx Hle.
  destruct M as [sM|sM| |sM mM eM]; try discriminate;
    destruct x as [sx|sx| |sx mx ex]; try discriminate;
    cbn [ordinary] in HM, Hx.
  - destruct sM, sx; reflexivity.
  - destruct (bounded_facts _ _ Hx) as (He & _).
    assert (0 < Z.pos mx * 2 ^ (ex + 1074))
      by (apply Z.mul_pos_pos; [lia | apply Z.pow_pos_nonneg; lia]).
    cbn [scaled_value] in Hle.
    destruct sx; cbn [cond_Zopp] in Hle; [reflexivity | lia].
  - destruct (bounded_facts _ _ HM) as (He & _).
    assert (0 < Z.pos mM * 2 ^ (eM + 1074))
      by (apply Z.mul_pos_pos; [lia | apply Z.pow_pos_nonneg; lia]).
    cbn [scaled_value] in Hle.
    destruct sM; cbn [cond_Zopp] in Hle; [lia | reflexivity].
  - destruct (bounded_facts _ _ HM) as (HeM & _).
    destruct (bounded_facts _ _ Hx) as (Hex & _).
    unfold fsub, SFsub. cbv zeta.
    apply round_nonneg.
    rewrite (scaled_value_aligned sM mM eM (Z.min eM ex)) in Hle by lia.
    rewrite (scaled_value_aligned sx mx ex (Z.min eM ex)) in Hle by lia.
    assert (0 < 2 ^ (Z.min eM ex + 1074)) by (apply Z.pow_pos_nonneg; lia).
    nia.
Qed.

Lemma max_drawdown_of_spec xs dd :
  Forall (fun y => ordinary y = true) xs ->
  max_drawdown_of xs = Some dd ->
  exists peak low,
    In peak xs /\ In low xs
    /\ (forall y, In y xs -> fleb y peak = true)
    /\ dd = fsub peak low
    /\ fleb f0 dd = true.
Proof.
  intros Hall H. unfold max_drawdown_of in H.
  destruct xs as [|x tl]; [discriminate|].
  cbn [py_max_list map] in H. inversion H as [Hdd]. clear H.
  inversion Hall as [|? ? Hx Htl]; subst.
  set (peak := fold_left py_max tl x) in *.
  destruct (py_max_fold_peak tl x Hx Htl) as [Hord Hpeak]. fold peak in Hord, Hpeak.
  pose proof (py_max_fold_member tl x) as Hmem. fold peak in Hmem.
  pose proof (py_max_fold_member (map (fun pnl => fsub peak pnl) tl) (fsub peak x)) as Hd.
  change (fsub peak x :: map (fun pnl => fsub peak pnl) tl)
    with (map (fun pnl => fsub peak pnl) (x :: tl)) in Hd.
  apply in_map_iff in Hd. destruct Hd as (low & Heq & Hlow).
  assert (Hol : ordinary low = true).
  { rewrite Forall_forall in Hall. apply Hall. exact Hlow. }
  exists peak, low. split; [exact Hmem|]. split; [exact Hlow|].
  split.
  { intros y Hy. rewrite fleb_ordinary; [| | exact Hord].
    - apply Z.leb_le. apply Hpeak. exact Hy.
    - rewrite Forall_forall in Hall. apply Hall. exact Hy. }
  split; [symmetry; exact Heq|].
  rewrite <- Heq. apply fsub_below_peak; [exact Hord | exact Hol |].
  apply Hpeak. exact Hlow.
Qed.

(** X17.  When the cumulative values of the input are finite floats, the
    max drawdown reported for a strategy is never negative: it is the
    distance [max_pnl - pnl] from a record of that strategy whose cumulative
    value no other record of the strategy exceeds (the overall peak, wherever
    it stands) to some record of the strategy. *)
Theorem reported_drawdown_nonnegative `{ST : PyStatistics} results k s :
  Forall (fun r => ordinary (cumulative_pnl r) = true) results ->
  In (k, s) (analyze_summary results) ->
  exists peak low,
    In peak (records_of k results) /\ In low (records_of k results)
    /\ (forall r, In r (records_of k results) ->
          fleb (cumulative_pnl r) (cumulative_pnl peak) = true)
    /\ max_drawdown s = fsub (cumulative_pnl peak) (cumulative_pnl low)
    /\ fleb f0 (max_drawdown s) = true.
Proof.
  intros Hall H. unfold analyze_summary in H.
  destruct (summarize_groups_entries _ k s H) as (l & Hin & Hs).
  destruct (proj1 (group_members results k l) Hin) as [Hl Hne].
  rewrite <- Hl.
  assert (Hsub : Forall (fun y => ordinary y = true) (map cumulative_pnl l)).
  { apply Forall_forall. intros y Hy.
    apply in_map_iff in Hy. destruct Hy as (r & <- & Hr).
    rewrite Forall_forall in Hall. apply Hall.
    rewrite Hl in Hr. unfold records_of in Hr.
    apply filter_In in Hr. tauto. }
  destruct (strategy_summary_entry l s Hne Hs) as (_ & _ & _ & _ & _ & _ & Hdd & _).
  destruct (max_drawdown_of_spec _ _ Hsub Hdd)
    as (peak & low & Hp & Hlo & Hpeak & Hval & Hpos).
  apply in_map_iff in Hp. destruct Hp as (rp & Hrp & Hinp).
  apply in_map_iff in Hlo. destruct Hlo as (rl & Hrl & Hinl).
  exists rp, rl. split; [exact Hinp|]. split; [exact Hinl|].
  split.
  { intros r Hr. rewrite Hrp. apply Hpeak. apply in_map. exact Hr. }
  split.
  { rewrite Hrp, Hrl. exact Hval. }
  exact Hpos.
Qed.

Lemma reported_drawdown_nonnegative_witness :
  exists s peak low,
    In ("Moderate (5%)"%string, s)
       (analyze_summary (ST := flat_statistics) rising_results)
    /\ In peak (records_of "Moderate (5%)" rising_results)
    /\ In low (records_of "Moderate (5%)" rising_results)
    /\ (forall r, In r (records_of "Moderate (5%)" rising_results) ->
          fleb (cumulative_pnl r) (cumulative_pnl peak) = true)
    /\ max_drawdown s = fsub (cumulative_pnl peak) (cumulative_pnl low)
    /\ fleb f0 (max_drawdown s) = true.
Proof.
  assert (Hall : Forall (fun r => ordinary (cumulative_pnl r) = true)
                        rising_results).
  { apply Forall_forall.
    apply (proj1 (forallb_forall (fun r => ordinary (cumulative_pnl r))
                                 rising_results)).
    vm_compute. reflexivity. }
  assert (Hin : exists s, In ("Moderate (5%)"%string, s)
                             (analyze_summary (ST := flat_statistics) rising_results)).
  { eexists. vm_compute. left. reflexivity. }
  destruct Hin as [s Hin].
  destruct (reported_drawdown_nonnegative (ST := flat_statistics) rising_results
              "Moderate (5%)" s Hall Hin) as (peak & low & H).
  exists s, peak, low. split; [exact Hin | exact H].
Defined.
